(** * Web Land Trajectory Service: trajectory resolution per backend.

    A shallow embedding of [wlts/datasource.py] and [wlts/datasources/wcs.py]:
    date parsing, the PostGIS query builder, the WFS resolver, the WCS raster
    sampler with its [lru_cache], and the datasource factory and registry.

    Python values are embedded as follows.
    - Exceptions are the constructors of [exn]; a call that may raise returns
      a [result].
    - Code that talks to a remote service threads the list of requests sent so
      far: the answer of the service is an arbitrary function of that history
      and of the request, so that a service whose answers change over time is
      covered.
    - Dictionaries read through fixed literal keys (the configuration
      documents [obs], [temporal], [geom_property]) are records, an optional
      key being an [option] field whose absence raises [KeyError]; genuine
      keyword dictionaries and JSON objects are [gmap string _].
    - A float that is only passed along (a coordinate among the keyword
      arguments, a corner of a bounding box) is the rational number it
      stands for ([Q]).  The floats the pixel offsets are computed with are
      IEEE 754 binary64 values ([spec_float]), with the rounding, the
      infinities and the NaN of the machine.
    - Text is [string], one [ascii] per character: the characters of code
      point below 256, of which only ["0"] to ["9"] are decimal digits. *)

From Stdlib Require Import ZArith QArith Qround Qpower SpecFloat.
From Stdlib Require Import Ascii String List Lia DecimalString.
From stdpp Require Import gmap strings.

Open Scope string_scope.
Open Scope Z_scope.

(** ** Python values, exceptions and results *)

Inductive exn : Type :=
| ValueError
| KeyError
| AttributeError
| TypeError
| IndexError
| ZeroDivisionError
| OverflowError
| NotFound
| RequestFail (status : Z)
| LibraryError.

Inductive result (A : Type) : Type :=
| Ok (a : A)
| Raise (e : exn).
Arguments Ok {A} a.
Arguments Raise {A} e.

Definition is_Ok {A} (r : result A) : bool :=
  match r with Ok _ => true | Raise _ => false end.

Definition rbind {A B} (r : result A) (k : A -> result B) : result B :=
  match r with
  | Ok a => k a
  | Raise e => Raise e
  end.

(** [try: r except ValueError: h] *)
Definition except_ValueError {A} (r : result A) (h : result A) : result A :=
  match r with
  | Raise ValueError => h
  | _ => r
  end.

(** Scalars that travel through configuration, keyword arguments and JSON. *)
Inductive scalar : Type :=
| PNone
| PBool (b : bool)
| PInt (z : Z)
| PFloat (q : Q)
| PStr (s : string).

(** Python truthiness, as used by [if x:]. *)
Definition truthy (v : scalar) : bool :=
  match v with
  | PNone => false
  | PBool b => b
  | PInt z => negb (z =? 0)
  | PFloat q => negb (Qeq_bool q 0)
  | PStr s => negb (String.eqb s "")
  end.

(** ** Dates: [datetime.strptime] for the three formats of [get_date_from_str] *)

(** A [datetime] built by [strptime] from a date-only format: the time of
    day is always midnight, so only the calendar fields are kept. *)
Record datetime : Type := mkdate { year : Z; month : Z; day : Z }.

(** [a < b] on datetimes: lexicographic on (year, month, day). *)
Definition datetime_ltb (a b : datetime) : bool :=
  (year a <? year b)
  || ((year a =? year b)
      && ((month a <? month b)
          || ((month a =? month b) && (day a <? day b)))).

Definition datetime_gtb (a b : datetime) : bool := datetime_ltb b a.

Definition is_leap (y : Z) : bool :=
  ((y mod 4 =? 0) && negb (y mod 100 =? 0)) || (y mod 400 =? 0).

Definition days_in_month (y m : Z) : Z :=
  if m =? 2 then (if is_leap y then 29 else 28)
  else if (m =? 4) || (m =? 6) || (m =? 9) || (m =? 11) then 30
  else 31.

(** The constructor [datetime(year, month, day)] with its range checks. *)
Definition make_datetime (y m d : Z) : result datetime :=
  if (1 <=? y) && (y <=? 9999) && (1 <=? m) && (m <=? 12)
     && (1 <=? d) && (d <=? days_in_month y m)
  then Ok (mkdate y m d)
  else Raise ValueError.

(** [dt.replace(day=d, month=m)] *)
Definition datetime_replace (dt : datetime) (d m : Z) : result datetime :=
  make_datetime (year dt) m d.

Definition in_range (lo hi c : ascii) : bool :=
  (N_of_ascii lo <=? N_of_ascii c)%N && (N_of_ascii c <=? N_of_ascii hi)%N.

(** What [\d] of the directives matches: a decimal digit, and among the
    characters of code point below 256 these are ["0"] to ["9"]. *)
Definition is_digit (c : ascii) : bool := in_range "0" "9" c.

Definition digit_val (c : ascii) : Z := Z.of_N (N_of_ascii c) - 48.

(** The directives of a [strptime] format; [lit c] is a literal character. *)
Inductive directive : Type := dY | dm | dd | lit (c : ascii).

(** Every way the regular expression of a directive matches a prefix of [s],
    in the order in which the regular-expression engine tries them:
    - [%Y] is [\d\d\d\d];
    - [%m] is [1[0-2]|0[1-9]|[1-9]];
    - [%d] is [3[0-1]|[1-2]\d|0[1-9]|[1-9]| [1-9]].
    Each match comes with the number read and the rest of the text.  Digits
    are the ASCII digits. *)
Definition match_directive (d : directive) (s : string) : list (Z * string) :=
  match d with
  | dY =>
      match s with
      | String a (String b (String c (String e rest))) =>
          if is_digit a && is_digit b && is_digit c && is_digit e
          then [(1000 * digit_val a + 100 * digit_val b
                 + 10 * digit_val c + digit_val e, rest)]
          else []
      | _ => []
      end
  | dm =>
      (match s with
       | String a (String b rest) =>
           (if Ascii.eqb a "1" && in_range "0" "2" b
            then [(10 + digit_val b, rest)] else [])
           ++ (if Ascii.eqb a "0" && in_range "1" "9" b
               then [(digit_val b, rest)] else [])
       | _ => []
       end)
      ++ (match s with
          | String a rest =>
              if in_range "1" "9" a then [(digit_val a, rest)] else []
          | _ => []
          end)
  | dd =>
      (match s with
       | String a (String b rest) =>
           (if Ascii.eqb a "3" && in_range "0" "1" b
            then [(30 + digit_val b, rest)] else [])
           ++ (if in_range "1" "2" a && is_digit b
               then [(10 * digit_val a + digit_val b, rest)] else [])
           ++ (if Ascii.eqb a "0" && in_range "1" "9" b
               then [(digit_val b, rest)] else [])
       | _ => []
       end)
      ++ (match s with
          | String a rest =>
              if in_range "1" "9" a then [(digit_val a, rest)] else []
          | _ => []
          end)
      ++ (match s with
          | String a (String b rest) =>
              if Ascii.eqb a " " && in_range "1" "9" b
              then [(digit_val b, rest)] else []
          | _ => []
          end)
  | lit c =>
      match s with
      | String a rest => if Ascii.eqb a c then [(0, rest)] else []
      | _ => []
      end
  end.

(** The fields [strptime] collects, with its defaults 1900-01-01. *)
Definition fields : Type := (Z * Z * Z)%type.

Definition default_fields : fields := (1900, 1, 1).

Definition set_field (d : directive) (v : Z) (f : fields) : fields :=
  let '(y, m, dy) := f in
  match d with
  | dY => (v, m, dy)
  | dm => (y, v, dy)
  | dd => (y, m, v)
  | lit _ => f
  end.

(** All matches of the whole format against a prefix of [s], in backtracking
    order; the head of the list is what [re.match] finds. *)
Fixpoint match_format (fmt : list directive) (s : string) (f : fields)
  : list (fields * string) :=
  match fmt with
  | [] => [(f, s)]
  | d :: fmt' =>
      flat_map (fun '(v, rest) => match_format fmt' rest (set_field d v f))
               (match_directive d s)
  end.

(** [datetime.strptime(s, fmt)]: the format must match at the start of [s],
    the match must consume all of [s], and the fields must form a date. *)
Definition strptime (s : string) (fmt : list directive) : result datetime :=
  match match_format fmt s default_fields with
  | [] => Raise ValueError
  | ((y, m, d), rest) :: _ =>
      if String.eqb rest "" then make_datetime y m d else Raise ValueError
  end.

Definition fmt_Ymd : list directive := [dY; lit "-"; dm; lit "-"; dd].
Definition fmt_Ym : list directive := [dY; lit "-"; dm].
Definition fmt_Y : list directive := [dY].

(** [s.replace('/', '-')] *)
Fixpoint replace_slash (s : string) : string :=
  match s with
  | EmptyString => EmptyString
  | String c rest =>
      String (if Ascii.eqb c "/" then "-"%char else c) (replace_slash rest)
  end.

(** [get_date_from_str(date, date_ref=None)] of [wlts/datasource.py]. *)
Definition get_date_from_str (date : scalar) (date_ref : scalar)
  : result datetime :=
  match date with
  | PStr s =>
      let date := replace_slash s in
      rbind
        (except_ValueError (strptime date fmt_Ymd)
           (except_ValueError (strptime date fmt_Ym)
              (strptime date fmt_Y)))
        (fun date =>
           if truthy date_ref then datetime_replace date 31 12 else Ok date)
  | _ => Raise AttributeError
  end.

(** ** Text formatting *)

(** Decimal text of an integer, as [str(n)] gives it. *)
Definition str_int (z : Z) : string := NilZero.string_of_int (Z.to_int z).

(** What the Python runtime and the geometry library contribute: the text of
    a float, [datetime.strftime], and the WKT text and buffered bounds of a
    point built by [shapely.geometry.Point].  [Point_text s] is what [Point]
    makes of a text coordinate [s]: the number the text spells or an
    exception, according to the version of the library. *)
Class Runtime : Type := {
  repr_float : Q -> string;
  strftime : datetime -> string -> string;
  Point_wkt : Q -> Q -> string;
  Point_buffer_bounds : Q -> Q -> Q -> (Q * Q * Q * Q);
  Point_text : string -> result Q
}.

(** [str(v)], which is what [format] substitutes for a pair of braces. *)
Definition py_str `{Runtime} (v : scalar) : string :=
  match v with
  | PNone => "None"
  | PBool true => "True"
  | PBool false => "False"
  | PInt z => str_int z
  | PFloat q => repr_float q
  | PStr s => s
  end.

(** ** Configuration documents *)

(** [geom_property]: keys ["property_name"] and ["srid"]. *)
Record geom_property_doc : Type := {
  property_name : string;
  srid : scalar
}.

(** [temporal]: keys ["type"] and, for string-encoded dates, ["string_format"]. *)
Record temporal_doc : Type := {
  temporal_type : string;
  string_format : option string
}.

(** [obs]: key ["temporal_property"] and the optional keys ["class_property"]
    and ["class_property_name"]. *)
Record obs_doc : Type := {
  temporal_property : string;
  class_property : option string;
  class_property_name : option string
}.

(** Reading an optional key. *)
Definition getitem {A} (o : option A) : result A :=
  match o with
  | Some a => Ok a
  | None => Raise KeyError
  end.

(** The classification object handed to [get_trajectory]; its class lives
    outside the files embedded here, only the four getters are used. *)
Record classification_class : Type := {
  get_name : string;
  get_id : string;
  get_class_property_name : string;
  get_type : string
}.

(** ** State and errors: calls that talk to a service *)

(** A computation over a history [S] of requests that may raise. *)
Definition M (S A : Type) : Type := S -> result A * S.

Definition ret {S A} (a : A) : M S A := fun s => (Ok a, s).

Definition raise {S A} (e : exn) : M S A := fun s => (Raise e, s).

Definition bind {S A B} (m : M S A) (k : A -> M S B) : M S B :=
  fun s =>
    match m s with
    | (Ok a, s') => k a s'
    | (Raise e, s') => (Raise e, s')
    end.

Definition lift {S A} (r : result A) : M S A := fun s => (r, s).

Declare Scope m_scope.
Delimit Scope m_scope with M.
Notation "x <- m ;; k" := (bind m (fun x => k))
  (at level 100, m at next level, right associativity) : m_scope.
Notation "m ;;; k" := (bind m (fun _ => k))
  (at level 100, right associativity) : m_scope.

(** ** The PostGIS backend *)

(** A row of a result set: the columns [classe] and [data]. *)
Definition row : Type := list scalar.

(** The SQL executor behind [PostGisConnectionPool.execute_query]:
    [cur.execute(sql); cur.fetchall()].  Its answer may depend on the
    statements executed before. *)
Class SqlExecutor : Type := {
  fetchall : list string -> string -> result (list row)
}.

(** [PostGisDataSource.execute_query(sql)] *)
Definition execute_query `{SqlExecutor} (sql : string)
  : M (list string) (list row) :=
  fun executed => (fetchall executed sql, (executed ++ [sql])%list).

(** The local variables of [PostGisDataSource.get_trajectory] once the
    statement is built. *)
Record query : Type := {
  properties : string;
  from_str : string;
  where_sql : string;
  sql : string
}.

(** The optional date bounds appended after the WHERE clause; [date_expr] is
    the quoted or raw temporal expression of the branch. *)
Definition date_bounds `{Runtime} (date_expr : string)
  (start_date end_date : scalar) : string :=
  (if truthy start_date
   then " AND " +:+ date_expr +:+ " >= " +:+ py_str start_date else "")
  +:+ (if truthy end_date
       then " AND " +:+ date_expr +:+ " <= " +:+ py_str end_date else "").

(** The statement built by [PostGisDataSource.get_trajectory], branch by
    branch as the source has them. *)
Definition build_query `{Runtime} (feature_type : string)
  (temporal : temporal_doc) (x y : Q) (obs : obs_doc)
  (geom_property : geom_property_doc)
  (classification : classification_class)
  (start_date end_date : scalar) : result query :=
  let geom_wkt := Point_wkt x y in
  let sql := "SELECT" in
  let where_sql :=
    " WHERE ST_Intersects(" +:+ property_name geom_property
    +:+ ", ST_GeomFromText('" +:+ geom_wkt +:+ "', "
    +:+ py_str (srid geom_property) +:+ "))" in
  let class_name := get_name classification in
  let class_id := get_id classification in
  let class_property_name := get_class_property_name classification in
  let temporal_type := temporal_type temporal in
  if String.eqb (get_type classification) "Literal"
     && String.eqb temporal_type "STRING" then
    let properties :=
      " '" +:+ class_property_name +:+ "' AS classe, '"
      +:+ temporal_property obs +:+ "' AS data " in
    let from_str := "FROM " +:+ feature_type in
    let sql := sql +:+ properties +:+ from_str +:+ where_sql in
    let sql :=
      if truthy start_date
      then sql +:+ " AND '" +:+ temporal_property obs +:+ "' >= "
           +:+ py_str start_date
      else sql in
    let sql :=
      if truthy end_date
      then sql +:+ " AND '" +:+ temporal_property obs +:+ "' <= "
           +:+ py_str end_date
      else sql in
    Ok {| properties := properties; from_str := from_str;
          where_sql := where_sql; sql := sql |}
  else if String.eqb (get_type classification) "Literal"
          && negb (String.eqb temporal_type "STRING") then
    let properties :=
      " '" +:+ class_property_name +:+ "' AS classe, "
      +:+ temporal_property obs +:+ " AS data " in
    let from_str := "FROM " +:+ feature_type in
    let sql := sql +:+ properties +:+ from_str +:+ where_sql in
    let sql :=
      if truthy start_date
      then sql +:+ " AND " +:+ temporal_property obs +:+ " >= "
           +:+ py_str start_date
      else sql in
    let sql :=
      if truthy end_date
      then sql +:+ " AND " +:+ temporal_property obs +:+ " <= "
           +:+ py_str end_date
      else sql in
    Ok {| properties := properties; from_str := from_str;
          where_sql := where_sql; sql := sql |}
  else if negb (String.eqb (get_type classification) "Literal")
          && String.eqb temporal_type "STRING" then
    let properties :=
      " class." +:+ class_property_name +:+ " AS classe, '"
      +:+ temporal_property obs +:+ "' AS data " in
    let from_str :=
      "FROM " +:+ feature_type +:+ " AS dado, " +:+ class_name
      +:+ " AS class" in
    rbind (getitem (class_property obs)) (fun obs_class_property =>
    let where_sql :=
      where_sql +:+ " AND dado." +:+ obs_class_property +:+ " = class."
      +:+ class_id +:+ " " in
    let sql := sql +:+ properties +:+ from_str +:+ where_sql in
    let sql :=
      if truthy start_date
      then sql +:+ " AND '" +:+ temporal_property obs +:+ "' >= "
           +:+ py_str start_date
      else sql in
    let sql :=
      if truthy end_date
      then sql +:+ " AND '" +:+ temporal_property obs +:+ "' <= "
           +:+ py_str end_date
      else sql in
    Ok {| properties := properties; from_str := from_str;
          where_sql := where_sql; sql := sql |})
  else
    let properties :=
      " class." +:+ class_property_name +:+ " AS classe, "
      +:+ temporal_property obs +:+ " AS data " in
    let from_str :=
      "FROM " +:+ feature_type +:+ " AS dado, " +:+ class_name
      +:+ " AS class" in
    rbind (getitem (class_property obs)) (fun obs_class_property =>
    let where_sql :=
      where_sql +:+ " AND dado." +:+ obs_class_property +:+ " = class."
      +:+ class_id +:+ " " in
    let sql := sql +:+ properties +:+ from_str +:+ where_sql in
    let sql :=
      if truthy start_date
      then sql +:+ " AND " +:+ temporal_property obs +:+ " >= "
           +:+ py_str start_date
      else sql in
    let sql :=
      if truthy end_date
      then sql +:+ " AND " +:+ temporal_property obs +:+ " <= "
           +:+ py_str end_date
      else sql in
    Ok {| properties := properties; from_str := from_str;
          where_sql := where_sql; sql := sql |}).

(** [PostGisDataSource.get_trajectory]: the statement is executed once for
    the test of the conditional expression and, when that result is not
    empty, a second time for the row that is returned:
    [self.execute_query(sql)[0] if self.execute_query(sql) else None]. *)
Definition pg_get_trajectory `{Runtime} `{SqlExecutor} (feature_type : string)
  (temporal : temporal_doc) (x y : Q) (obs : obs_doc)
  (geom_property : geom_property_doc)
  (classification : classification_class)
  (start_date end_date : scalar) : M (list string) (option row) :=
  (q <- lift (build_query feature_type temporal x y obs geom_property
                classification start_date end_date) ;;
   test <- execute_query (sql q) ;;
   match test with
   | [] => ret None
   | _ :: _ =>
       rows <- execute_query (sql q) ;;
       match rows with
       | [] => raise IndexError
       | first :: _ => ret (Some first)
       end
   end)%M.

(** ** The WFS backend *)

(** The feature service as [WFSConnectionPool] sees it.
    - [requests_get sent uri] is the status code and decoded body that
      [requests.get(uri, auth=...)] obtains after the requests [sent], or the
      exception it raises when the service cannot be reached.
    - [feature_type_names doc] is the text of every [FeatureType] name of a
      capabilities document ([minidom.parseString], [getElementsByTagName]).
    - [loads_features doc] is [json_loads(doc)["features"]], each feature
      reduced to its ["properties"].
    - [first_node_value doc tag] is
      [getElementsByTagName(tag)[0].firstChild.nodeValue]. *)
Class FeatureService : Type := {
  requests_get : list string -> string -> result (Z * string);
  feature_type_names : string -> result (list string);
  loads_features : string -> result (list (gmap string scalar));
  first_node_value : string -> string -> result string
}.

(** [WFSConnectionPool]: the fields set by [__init__]. *)
Record WFSConnectionPool : Type := {
  wfs_host : string;
  wfs_port : string;
  wfs_location : string;
  wfs_auth : option (scalar * scalar)
}.

Definition wfs_workspace : string := "datacube".
Definition wfs_base_path : string := "wfs?service=WFS&version=1.0.0".

(** [WFSConnectionPool.mount_url] *)
Definition wfs_mount_url (p : WFSConnectionPool) : string :=
  wfs_host p +:+ ":" +:+ wfs_port p +:+ "/" +:+ wfs_location p +:+ "/"
  +:+ wfs_workspace.

(** [WFSConnectionPool._get(uri)] *)
Definition wfs_get `{FeatureService} (uri : string) : M (list string) string :=
  fun sent =>
    (rbind (requests_get sent uri) (fun '(status_code, content) =>
       if status_code =? 200 then Ok content
       else Raise (RequestFail status_code)),
     (sent ++ [uri])%list).

Definition capabilities_url (p : WFSConnectionPool) : string :=
  wfs_mount_url p +:+ "/" +:+ wfs_base_path +:+ "&request=GetCapabilities".

(** [WFSConnectionPool.list_feature] *)
Definition list_feature `{FeatureService} (p : WFSConnectionPool)
  : M (list string) (list string) :=
  (doc <- wfs_get (capabilities_url p) ;;
   lift (feature_type_names doc))%M.

(** [WFSConnectionPool.check_feature(ft_name)] *)
Definition check_feature `{FeatureService} (p : WFSConnectionPool)
  (ft_name : string) : M (list string) unit :=
  (features <- list_feature p ;;
   if existsb (String.eqb ft_name) features then ret tt else raise NotFound)%M.

(** The keyword arguments of [get_feature].  The record has exactly the
    seven recognised keys, the optional ones as [option]s, so the guard on
    unknown keys of the source cannot fire. *)
Record feature_kwargs : Type := {
  kw_feature_type : string;
  kw_geom : string;
  kw_geom_property : geom_property_doc;
  kw_srid : scalar;
  kw_propertyName : option string;
  kw_start_date : option string;
  kw_end_date : option string
}.

Definition get_feature_url `{Runtime} (p : WFSConnectionPool)
  (kwargs : feature_kwargs) : string :=
  let url :=
    wfs_mount_url p +:+ "/" +:+ wfs_base_path
    +:+ "&request=GetFeature&typeName=" +:+ kw_feature_type kwargs in
  let url :=
    match kw_propertyName kwargs with
    | Some pn => url +:+ "&propertyName=" +:+ pn
    | None => url
    end in
  let url := url +:+ "&outputformat=json&CRS=EPSG:" +:+ py_str (kw_srid kwargs) in
  let url :=
    url +:+ "&CQL_FILTER=INTERSECTS("
    +:+ property_name (kw_geom_property kwargs) +:+ ", "
    +:+ kw_geom kwargs +:+ ")" in
  let url :=
    match kw_start_date kwargs with Some s => url +:+ s | None => url end in
  match kw_end_date kwargs with Some s => url +:+ s | None => url end.

(** [WFSConnectionPool.get_feature] with keyword arguments: the properties of the first
    feature, or [None] when no feature matches. *)
Definition get_feature `{Runtime} `{FeatureService} (p : WFSConnectionPool)
  (kwargs : feature_kwargs) : M (list string) (option (gmap string scalar)) :=
  (check_feature p (kw_feature_type kwargs) ;;;
   doc <- wfs_get (get_feature_url p kwargs) ;;
   features <- lift (loads_features doc) ;;
   match features with
   | first :: _ => ret (Some first)
   | [] => ret None
   end)%M.

(** [WFSConnectionPool.get_class(featureID, class_property_name, ft_name)] *)
Definition get_class_url `{Runtime} (p : WFSConnectionPool)
  (featureID : scalar) (ft_name : string) : string :=
  wfs_mount_url p +:+ "/" +:+ wfs_base_path
  +:+ "&request=GetFeature&typeName=" +:+ ft_name
  +:+ "&featureID=" +:+ py_str featureID.

Definition get_class `{Runtime} `{FeatureService} (p : WFSConnectionPool)
  (featureID : scalar) (class_property_name ft_name : string)
  : M (list string) string :=
  let url := get_class_url p featureID ft_name in
  (doc <- wfs_get url ;;
   lift (first_node_value doc (wfs_workspace +:+ ":" +:+ class_property_name)))%M.

(** Truthiness of what [get_feature] returns: [None] and the empty
    dictionary are false. *)
Definition response_truthy (response : option (gmap string scalar)) : bool :=
  match response with
  | Some props => negb (bool_decide (props = ∅))
  | None => false
  end.

(** [response[key]] *)
Definition response_item (response : option (gmap string scalar)) (key : string)
  : result scalar :=
  match response with
  | Some props => getitem (props !! key)
  | None => Raise TypeError
  end.

(** The server-side date filter of the typed branches:
    ["AND {} >= {}"] or ["AND {} <= {}"], when the bound is given. *)
Definition date_filter `{Runtime} (op : string) (obs : obs_doc)
  (temporal : temporal_doc) (bound : scalar) : result (option string) :=
  if truthy bound then
    rbind (get_date_from_str bound PNone) (fun d =>
    rbind (getitem (string_format temporal)) (fun fmt =>
    Ok (Some ("AND " +:+ temporal_property obs +:+ " " +:+ op +:+ " "
              +:+ strftime d fmt))))
  else Ok None.

(** The dictionary [args] of [WFSDataSource.get_trajectory]: the four keys
    every branch sets, and the three a branch may add. *)
Definition trajectory_kwargs (feature_type geom : string)
  (geom_property : geom_property_doc)
  (propertyName start_filter end_filter : option string) : feature_kwargs :=
  {| kw_feature_type := feature_type;
     kw_geom := geom;
     kw_geom_property := geom_property;
     kw_srid := srid geom_property;
     kw_propertyName := propertyName;
     kw_start_date := start_filter;
     kw_end_date := end_filter |}.

(** What [WFSDataSource.get_trajectory] returns: [None] after a bare
    [return], otherwise the list [result]. *)
Inductive wfs_trajectory : Type :=
| ReturnNone
| ReturnList (result_list : list scalar).

(** [WFSDataSource.get_trajectory] *)
Definition wfs_get_trajectory `{Runtime} `{FeatureService}
  (wfs_poll : WFSConnectionPool) (feature_type : string)
  (temporal : temporal_doc) (x y : Q) (obs : obs_doc)
  (geom_property : geom_property_doc)
  (classification : classification_class)
  (start_date end_date : scalar) : M (list string) wfs_trajectory :=
  let geom := Point_wkt x y in
  let obs_label := class_property_name obs in
  let class_property_name := get_class_property_name classification in
  let class_name := get_name classification in
  let class_type := get_type classification in
  let args := trajectory_kwargs feature_type geom geom_property in
  (if String.eqb class_type "Literal"
      && String.eqb (temporal_type temporal) "STRING" then
     response <- get_feature wfs_poll (args None None None) ;;
     obs_tm <- lift (get_date_from_str (PStr (temporal_property obs)) PNone) ;;
     if response_truthy response then
       label <- lift (getitem obs_label) ;;
       fmt <- lift (getitem (string_format temporal)) ;;
       ret (ReturnList [PStr label; PStr (strftime obs_tm fmt)])
     else ret (ReturnList [])
   else if String.eqb class_type "Literal"
           && negb (String.eqb (temporal_type temporal) "STRING") then
     start_filter <- lift (date_filter ">=" obs temporal start_date) ;;
     end_filter <- lift (date_filter "<=" obs temporal end_date) ;;
     response <- get_feature wfs_poll
                   (args (Some (temporal_property obs)) start_filter end_filter) ;;
     if response_truthy response then
       label <- lift (getitem obs_label) ;;
       date <- lift (response_item response (temporal_property obs)) ;;
       ret (ReturnList [PStr label; date])
     else ret (ReturnList [])
   else if negb (String.eqb class_type "Literal")
           && String.eqb (temporal_type temporal) "STRING" then
     obs_temporal <- lift (get_date_from_str (PStr (temporal_property obs)) PNone) ;;
     start_excludes <-
       lift (if truthy start_date
             then rbind (get_date_from_str start_date PNone)
                    (fun d => Ok (datetime_gtb d obs_temporal))
             else Ok false) ;;
     if start_excludes : bool then ret ReturnNone else
     end_excludes <-
       lift (if truthy end_date
             then rbind (get_date_from_str end_date PNone)
                    (fun d => Ok (datetime_gtb obs_temporal d))
             else Ok false) ;;
     if end_excludes : bool then ret ReturnNone else
     obs_class_property <- lift (getitem (class_property obs)) ;;
     response <- get_feature wfs_poll
                   (args (Some (obs_class_property +:+ ","
                                +:+ temporal_property obs)) None None) ;;
     if response_truthy response then
       featureID <- lift (response_item response obs_class_property) ;;
       classes_prop <- get_class wfs_poll featureID class_property_name class_name ;;
       ret (ReturnList [PStr classes_prop; PStr (temporal_property obs)])
     else ret (ReturnList [])
   else
     obs_class_property <- lift (getitem (class_property obs)) ;;
     start_filter <- lift (date_filter ">=" obs temporal start_date) ;;
     end_filter <- lift (date_filter "<=" obs temporal end_date) ;;
     response <- get_feature wfs_poll
                   (args (Some (obs_class_property +:+ ","
                                +:+ temporal_property obs))
                      start_filter end_filter) ;;
     if response_truthy response then
       featureID <- lift (response_item response obs_class_property) ;;
       classes_prop <- get_class wfs_poll featureID class_property_name class_name ;;
       date <- lift (response_item response (temporal_property obs)) ;;
       ret (ReturnList [PStr classes_prop; date])
     else ret (ReturnList []))%M.

(** ** The WCS backend ([wlts/datasources/wcs.py]) *)

(** *** Floats *)

(** The numbers of the pixel arithmetic are Python floats: IEEE 754 binary64
    values, 53 bits of precision and exponents below 1024, whose operations
    round to nearest, ties to even. *)
Definition float : Type := spec_float.

Definition prec : Z := 53.

Definition emax : Z := 1024.

(** [a - b] on floats: it never raises. *)
Definition float_sub (a b : float) : float := SFsub prec emax a b.

(** [- a] on a float. *)
Definition float_neg (a : float) : float := SFopp a.

(** The rounded quotient of two floats. *)
Definition float_div (a b : float) : float := SFdiv prec emax a b.

(** [b == 0.0], true of both zeros. *)
Definition float_is_zero (b : float) : bool :=
  match b with
  | S754_zero _ => true
  | _ => false
  end.

(** [a / b] on floats: a zero divisor raises, whatever the dividend;
    otherwise the quotient is rounded, and may be an infinity or a NaN. *)
Definition truediv (a b : float) : result float :=
  if float_is_zero b then Raise ZeroDivisionError else Ok (float_div a b).

(** [int(f)] on a float: an infinity raises [OverflowError], a NaN raises
    [ValueError], and a finite float [m * 2 ^ e] loses its fractional bits,
    whatever its sign. *)
Definition int_of_float (f : float) : result Z :=
  match f with
  | S754_nan => Raise ValueError
  | S754_infinity _ => Raise OverflowError
  | S754_zero _ => Ok 0
  | S754_finite s m e => Ok (cond_Zopp s (Z.shiftl (Zpos m) e))
  end.

(** [float(z)] on an [int] within the range of the floats. *)
Definition float_of_int (z : Z) : float := binary_normalize prec emax z 0 false.

(** [float(v)] as the numeric libraries coerce a coordinate. *)
Definition to_float (v : scalar) : result Q :=
  match v with
  | PInt z => Ok (inject_Z z)
  | PFloat q => Ok q
  | PBool b => Ok (if b then 1%Q else 0%Q)
  | _ => Raise TypeError
  end.

(** A raster opened by [gdal.Open]: its projection (WKT), its affine
    geotransform [(origin_x, pixel_width, _, origin_y, _, -pixel_height)],
    a tuple of six floats,
    and the value of band 1 at a pixel offset, as
    [GetRasterBand(1).ReadAsArray(x, y, 1, 1)] reads it ([None] on a failed
    read). *)
Record dataset : Type := {
  GetProjection : string;
  GetGeoTransform : float * float * float * float * float * float;
  ReadAsArray : Z -> Z -> option Z
}.

(** What [urllib.request.urlopen(request, timeout=30)] does. *)
Inductive urlopen_outcome : Type :=
| Responded (content_encoding : option string) (body : string)
| URLError
| Failed (e : exn).

(** The coverage service and the raster libraries.
    - [urlopen fetched auth uri]: the outcome of fetching [uri] after the
      fetches [fetched].
    - [gdal_Open bytes]: the decoded raster, [None] when undecodable.
    - [TransformPoint wkt long lat]: the point projected from the geographic
      coordinate system of the spatial reference [wkt] into that reference
      ([srs.ImportFromWkt(wkt)], [srs.CloneGeogCS()],
      [osr.CoordinateTransformation(srs_lat_long, srs)] and
      [ct.TransformPoint(long, lat)]): two floats, either of which may be an
      infinity, or the exception one of these calls raises. *)
Class RasterService : Type := {
  urlopen : list string -> option (scalar * scalar) -> string -> urlopen_outcome;
  gdal_Open : string -> option dataset;
  TransformPoint : string -> Q -> Q -> result (float * float)
}.

(** [wlts.utils.get_date_from_str], imported by [wcs.py]; the module
    [wlts/utils.py] is not among the embedded files, so the function is a
    parameter of the WCS backend. *)
Class WltsUtils : Type := {
  utils_get_date_from_str : scalar -> result datetime
}.

(** A [WCS] client object.  [wcs_oid] is the identity of the object: objects
    hash and compare by identity. *)
Record WCS : Type := {
  wcs_oid : nat;
  wcs_host : string;
  wcs_auth : option (scalar * scalar)
}.

Definition wcs_base_path : string := "wcs?service=WCS&version=1.0.0".

(** [WCS._get_image(uri)]: the body of the response, or [None]. *)
Definition _get_image `{RasterService} (self : WCS) (uri : string)
  : M (list string) (option string) :=
  fun fetched =>
    (match urlopen fetched (wcs_auth self) uri with
     | Responded (Some "gzip") _ => Ok None
     | Responded _ body => Ok (Some body)
     | URLError => Ok None
     | Failed e => Raise e
     end,
     (fetched ++ [uri])%list).

(** [WCS.transform_latlong_to_rowcol(data_set, lat, long)] *)
Definition transform_latlong_to_rowcol `{RasterService} (data_set : dataset)
  (lat long : Q) : result (Z * Z) :=
  rbind (TransformPoint (GetProjection data_set) long lat) (fun '(x, y) =>
  let '(t0, t1, _, t3, _, t5) := GetGeoTransform data_set in
  rbind (truediv (float_sub x t0) t1) (fun qx =>
  rbind (int_of_float qx) (fun x =>
  rbind (truediv (float_sub t3 y) (float_neg t5)) (fun qy =>
  rbind (int_of_float qy) (fun y =>
  Ok (x, y)))))).

(** [WCS.open_image(url, long, lat)] *)
Definition open_image `{RasterService} (self : WCS) (url : string)
  (long lat : scalar) : M (list string) (option Z) :=
  (image_data <- _get_image self url ;;
   match image_data with
   | None => ret None
   | Some bytes =>
       match gdal_Open bytes with
       | Some gdal_dataset =>
           lat' <- lift (to_float lat) ;;
           long' <- lift (to_float long) ;;
           xy <- lift (transform_latlong_to_rowcol gdal_dataset lat' long') ;;
           match ReadAsArray gdal_dataset (fst xy) (snd xy) with
           | Some intval => ret (Some intval)
           | None => raise AttributeError
           end
       | None => ret None
       end
   end)%M.

(** The positional arguments of [get_image] after [self]. *)
Record image_args : Type := {
  arg_image : scalar;
  arg_srid : scalar;
  arg_min_x : scalar;
  arg_max_x : scalar;
  arg_min_y : scalar;
  arg_max_y : scalar;
  arg_column : scalar;
  arg_row : scalar;
  arg_time : scalar;
  arg_x : scalar;
  arg_y : scalar
}.

(** The body of [WCS.get_image], under the cache decorator. *)
Definition get_image_body `{Runtime} `{RasterService} (self : WCS)
  (a : image_args) : M (list string) (option Z) :=
  let url :=
    wcs_host self +:+ "/" +:+ wcs_base_path +:+ "&request=GetCoverage&COVERAGE="
    +:+ py_str (arg_image a) +:+ "&" in
  let url :=
    url +:+ "CRS=EPSG:4326&RESPONSE_CRS=EPSG:" +:+ py_str (arg_srid a) +:+ "&" in
  let url :=
    url +:+ "BBOX=" +:+ py_str (arg_min_x a) +:+ "," +:+ py_str (arg_max_x a)
    +:+ "," +:+ py_str (arg_min_y a) +:+ "," +:+ py_str (arg_max_y a) in
  let url :=
    url +:+ "&FORMAT=GeoTIFF&WIDTH=" +:+ py_str (arg_column a) +:+ "&HEIGHT="
    +:+ py_str (arg_row a) +:+ "&time=" +:+ py_str (arg_time a) in
  open_image self url (arg_x a) (arg_y a).

(** *** [functools.lru_cache()] *)

(** Equality of scalars as Python's [==]: numbers compare by value across
    [bool], [int] and [float]. *)
Definition numeric (v : scalar) : option Q :=
  match v with
  | PBool b => Some (if b then 1%Q else 0%Q)
  | PInt z => Some (inject_Z z)
  | PFloat q => Some q
  | _ => None
  end.

Definition py_eqb (a b : scalar) : bool :=
  match a, b with
  | PNone, PNone => true
  | PStr s, PStr t => String.eqb s t
  | _, _ =>
      match numeric a, numeric b with
      | Some p, Some q => Qeq_bool p q
      | _, _ => false
      end
  end.

(** The key the cache builds from a call: [self] and the arguments. *)
Definition image_key : Type := (WCS * image_args)%type.

Definition image_args_eqb (a b : image_args) : bool :=
  py_eqb (arg_image a) (arg_image b)
  && py_eqb (arg_srid a) (arg_srid b)
  && py_eqb (arg_min_x a) (arg_min_x b)
  && py_eqb (arg_max_x a) (arg_max_x b)
  && py_eqb (arg_min_y a) (arg_min_y b)
  && py_eqb (arg_max_y a) (arg_max_y b)
  && py_eqb (arg_column a) (arg_column b)
  && py_eqb (arg_row a) (arg_row b)
  && py_eqb (arg_time a) (arg_time b)
  && py_eqb (arg_x a) (arg_x b)
  && py_eqb (arg_y a) (arg_y b).

Definition image_key_eqb (k1 k2 : image_key) : bool :=
  Nat.eqb (wcs_oid (fst k1)) (wcs_oid (fst k2))
  && image_args_eqb (snd k1) (snd k2).

(** [lru_cache()] is [lru_cache(maxsize=128, typed=False)]. *)
Definition lru_maxsize : nat := 128.

(** The cache: entries from the most to the least recently used. *)
Definition lru : Type := list (image_key * option Z).

Fixpoint lru_find (k : image_key) (c : lru) : option (image_key * option Z) :=
  match c with
  | [] => None
  | (k', v) :: c' => if image_key_eqb k k' then Some (k', v) else lru_find k c'
  end.

Fixpoint lru_remove (k : image_key) (c : lru) : lru :=
  match c with
  | [] => []
  | (k', v) :: c' => if image_key_eqb k k' then c' else (k', v) :: lru_remove k c'
  end.

(** The state of the process: the cache of [get_image] and the fetches made. *)
Record wcs_state : Type := {
  cache : lru;
  fetched : list string
}.

(** [WCS.get_image], decorated: a hit returns the stored result and makes the
    entry the most recent one; a miss runs the body, stores what it returns
    (nothing when it raises) and drops the least recently used entry when
    the cache is full. *)
Definition get_image `{Runtime} `{RasterService} (self : WCS) (a : image_args)
  : M wcs_state (option Z) :=
  fun st =>
    match lru_find (self, a) (cache st) with
    | Some (k, v) =>
        (Ok v, {| cache := (k, v) :: lru_remove (self, a) (cache st);
                  fetched := fetched st |})
    | None =>
        match get_image_body self a (fetched st) with
        | (Ok v, fetched') =>
            (Ok v, {| cache := firstn lru_maxsize (((self, a), v) :: cache st);
                      fetched := fetched' |})
        | (Raise e, fetched') =>
            (Raise e, {| cache := cache st; fetched := fetched' |})
        end
    end.

(** [WCSDataSource] of [wcs.py]. *)
Record WCSDataSource : Type := {
  _wcs : WCS;
  workspace : string
}.

(** A keyword argument: a scalar, or a dictionary such as [grid]. *)
Inductive kwvalue : Type :=
| Sc (s : scalar)
| Dict (d : gmap string scalar).

Definition kw_truthy (v : kwvalue) : bool :=
  match v with
  | Sc s => truthy s
  | Dict d => negb (bool_decide (d = ∅))
  end.

(** [kwargs[key]] *)
Definition kw_item (kwargs : gmap string kwvalue) (key : string) : result kwvalue :=
  getitem (kwargs !! key).

(** [get_date_from_str(v)] on a keyword argument: a dictionary has no
    [replace]. *)
Definition kw_date `{WltsUtils} (v : kwvalue) : result datetime :=
  match v with
  | Sc s => utils_get_date_from_str s
  | Dict _ => Raise AttributeError
  end.

(** [v[key]] on a keyword argument. *)
Definition kw_subscript (v : kwvalue) (key : string) : result scalar :=
  match v with
  | Dict d => getitem (d !! key)
  | Sc _ => Raise TypeError
  end.

(** A scalar argument is hashable, a dictionary is not. *)
Definition kw_scalar (v : kwvalue) : result scalar :=
  match v with
  | Sc s => Ok s
  | Dict _ => Raise TypeError
  end.

(** A coordinate as [Point(x, y)] takes it: a number is its value, a text
    is what the library makes of it, and nothing else is a coordinate. *)
Definition kw_float `{Runtime} (v : kwvalue) : result Q :=
  match v with
  | Sc (PStr s) => Point_text s
  | _ => rbind (kw_scalar v) to_float
  end.

Definition wcs_allowed : gset string :=
  {[ "image"; "temporal"; "x"; "y"; "srid"; "grid"; "start_date"; "end_date";
     "time" ]}.

(** [self.workspace + ":" + kwargs['image']] *)
Definition image_name_of (self : WCSDataSource) (image : kwvalue) : result string :=
  match image with
  | Sc (PStr s) => Ok (workspace self +:+ ":" +:+ s)
  | _ => Raise TypeError
  end.

(** [WCSDataSource.get_trajectory] of [wcs.py], on its keyword arguments. *)
Definition wcs_get_trajectory `{Runtime} `{RasterService} `{WltsUtils}
  (self : WCSDataSource) (kwargs : gmap string kwvalue)
  : M wcs_state (option Z) :=
  (if negb (bool_decide (dom kwargs ∖ wcs_allowed = ∅)) then raise AttributeError
   else
   time <- lift (kw_item kwargs "time") ;;
   ts <- lift (kw_date time) ;;
   start_date <- lift (kw_item kwargs "start_date") ;;
   before <-
     lift (if kw_truthy start_date
           then rbind (kw_date start_date) (fun d => Ok (datetime_ltb ts d))
           else Ok false) ;;
   if before : bool then ret None else
   end_date <- lift (kw_item kwargs "end_date") ;;
   after <-
     lift (if kw_truthy end_date
           then rbind (kw_date end_date) (fun d => Ok (datetime_gtb ts d))
           else Ok false) ;;
   if after : bool then ret None else
   image <- lift (kw_item kwargs "image") ;;
   image_name <- lift (image_name_of self image) ;;
   kx <- lift (kw_item kwargs "x") ;;
   ky <- lift (kw_item kwargs "y") ;;
   fx <- lift (kw_float kx) ;;
   fy <- lift (kw_float ky) ;;
   let '(min_x, min_y, max_x, max_y) := Point_buffer_bounds fx fy (2 # 1000) in
   ksrid <- lift (kw_item kwargs "srid") ;;
   grid <- lift (kw_item kwargs "grid") ;;
   column <- lift (kw_subscript grid "column") ;;
   row <- lift (kw_subscript grid "row") ;;
   srid <- lift (kw_scalar ksrid) ;;
   time <- lift (kw_scalar time) ;;
   x <- lift (kw_scalar kx) ;;
   y <- lift (kw_scalar ky) ;;
   get_image (_wcs self)
     {| arg_image := PStr image_name;
        arg_srid := srid;
        arg_min_x := PFloat min_x;
        arg_max_x := PFloat min_y;
        arg_min_y := PFloat max_x;
        arg_max_y := PFloat max_y;
        arg_column := column;
        arg_row := row;
        arg_time := time;
        arg_x := x;
        arg_y := y |})%M.

(** ** The datasource factory and registry ([wlts/datasource.py]) *)

(** [connection_info[key]] *)
Definition conn_item (connection_info : gmap string scalar) (key : string)
  : result scalar :=
  getitem (connection_info !! key).

(** [a + b] on text: both operands must be [str]. *)
Definition as_str (v : scalar) : result string :=
  match v with
  | PStr s => Ok s
  | _ => Raise TypeError
  end.

(** [WFSConnectionPool.__init__(connection_info)]; [WCSConnectionPool] of
    the same file has the same constructor.  The three address parts are
    read first, then the credentials ([user and password] reads the password
    only when the user is true), then [mount_url] concatenates the parts. *)
Definition pool_init (connection_info : gmap string scalar)
  : result WFSConnectionPool :=
  rbind (conn_item connection_info "host") (fun host =>
  rbind (conn_item connection_info "port") (fun port =>
  rbind (conn_item connection_info "location") (fun location =>
  rbind (conn_item connection_info "user") (fun user =>
  rbind (if truthy user
         then rbind (conn_item connection_info "password") (fun password =>
              Ok (if truthy password then Some (user, password) else None))
         else Ok None) (fun auth =>
  rbind (as_str host) (fun host =>
  rbind (as_str port) (fun port =>
  rbind (as_str location) (fun location =>
  Ok {| wfs_host := host; wfs_port := port; wfs_location := location;
        wfs_auth := auth |})))))))).

(** The datasource objects of [wlts/datasource.py]. *)
Inductive DataSource : Type :=
| PostGisDS (id : scalar) (connection_info : gmap string scalar)
| WCSDS (id : scalar) (connection_info : gmap string scalar)
        (wfc_poll : WFSConnectionPool)
| WFSDS (id : scalar) (connection_info : gmap string scalar)
        (wfs_poll : WFSConnectionPool).

(** [PostGisDataSource(id, connection_info)]: opening the connection catches
    every exception, so the constructor always returns. *)
Definition new_PostGisDataSource (id : scalar)
  (connection_info : gmap string scalar) : result DataSource :=
  Ok (PostGisDS id connection_info).

(** [WCSDataSource(id, connection_info)] of [wlts/datasource.py]. *)
Definition new_WCSDataSource (id : scalar)
  (connection_info : gmap string scalar) : result DataSource :=
  rbind (pool_init connection_info) (fun pool =>
  Ok (WCSDS id connection_info pool)).

(** [WFSDataSource(id, connection_info)] *)
Definition new_WFSDataSource (id : scalar)
  (connection_info : gmap string scalar) : result DataSource :=
  rbind (pool_init connection_info) (fun pool =>
  Ok (WFSDS id connection_info pool)).

(** The table of [DataSourceFactory.make]. *)
Definition factorys : gmap string string :=
  {[ "POSTGIS" := "PostGisDataSource";
     "WCS" := "WCSDataSource";
     "WFS" := "WFSDataSource" ]}.

(** [eval(name)]: the class a name denotes in [wlts/datasource.py]. *)
Definition eval_class (name : string)
  : result (scalar -> gmap string scalar -> result DataSource) :=
  if String.eqb name "PostGisDataSource" then Ok new_PostGisDataSource
  else if String.eqb name "WCSDataSource" then Ok new_WCSDataSource
  else if String.eqb name "WFSDataSource" then Ok new_WFSDataSource
  else Raise LibraryError.

(** [DataSourceFactory.make(dsType, id, connInfo)] *)
Definition make (dsType id : scalar) (connInfo : gmap string scalar)
  : result DataSource :=
  rbind (match dsType with
         | PStr t => getitem (factorys !! t)
         | _ => Raise KeyError
         end) (fun name =>
  rbind (eval_class name) (fun cls => cls id connInfo)).

(** [DataSourceManager._datasources] when the class is created. *)
Definition initial_datasources : gmap string (list DataSource) :=
  {[ "webservice_source" := [];
     "dbms_source" := [];
     "file_source" := [] ]}.

(** [DataSourceManager.insert_datasource(dsType, connInfo)]: the list of the
    group is looked up first, then the entry is built and appended. *)
Definition insert_datasource (_datasources : gmap string (list DataSource))
  (dsType : string) (connInfo : gmap string scalar)
  : result (gmap string (list DataSource)) :=
  rbind (getitem (_datasources !! dsType)) (fun group =>
  rbind (conn_item connInfo "type") (fun type =>
  rbind (conn_item connInfo "id") (fun id =>
  rbind (make type id connInfo) (fun ds =>
  Ok (<[dsType := (group ++ [ds])%list]> _datasources))))).

(** The inner loop of [load_all]: [for ds_info in datasources_info]. *)
Fixpoint insert_all (_datasources : gmap string (list DataSource))
  (dstype : string) (datasources_info : list (gmap string scalar))
  : result (gmap string (list DataSource)) :=
  match datasources_info with
  | [] => Ok _datasources
  | ds_info :: rest =>
      rbind (insert_datasource _datasources dstype ds_info) (fun ds' =>
      insert_all ds' dstype rest)
  end.

(** The outer loop: [for dstype, datasources_info in datasources.items()]. *)
Fixpoint load_groups (_datasources : gmap string (list DataSource))
  (datasources : list (string * list (gmap string scalar)))
  : result (gmap string (list DataSource)) :=
  match datasources with
  | [] => Ok _datasources
  | (dstype, datasources_info) :: rest =>
      rbind (insert_all _datasources dstype datasources_info) (fun ds' =>
      load_groups ds' rest)
  end.

(** [DataSourceManager.load_all]: [config] is the value under ["datasources"]
    of the configuration document, its groups in document order, or [None]
    when the document has no such key. *)
Definition load_all (_datasources : gmap string (list DataSource))
  (config : option (list (string * list (gmap string scalar))))
  : result (gmap string (list DataSource)) :=
  match config with
  | None => Raise ValueError
  | Some datasources => load_groups _datasources datasources
  end.

(** The tags [DataSourceFactory.make] knows. *)
Definition recognized (tag : scalar) : bool :=
  match tag with
  | PStr t => String.eqb t "POSTGIS" || String.eqb t "WCS" || String.eqb t "WFS"
  | _ => false
  end.

(** ** The decision table of the query builder *)

(** The two descriptors reduced to the kinds the table distinguishes: a
    classification is a literal exactly when its type is ["Literal"], a
    temporal property is string-encoded exactly when its type is ["STRING"]. *)
Inductive classification_kind : Type := Literal | Attribute.
Inductive temporal_kind : Type := StringEncoded | Typed.

Definition classification_kind_of (c : classification_class) : classification_kind :=
  if String.eqb (get_type c) "Literal" then Literal else Attribute.

Definition temporal_kind_of (t : temporal_doc) : temporal_kind :=
  if String.eqb (temporal_type t) "STRING" then StringEncoded else Typed.

(** Column "class expression": a quoted constant or the joined class column. *)
Definition class_expression (k : classification_kind) (c : classification_class)
  : string :=
  match k with
  | Literal => "'" +:+ get_class_property_name c +:+ "'"
  | Attribute => "class." +:+ get_class_property_name c
  end.

(** Column "date expression": the quoted or the raw temporal value. *)
Definition date_expression (k : temporal_kind) (obs : obs_doc) : string :=
  match k with
  | StringEncoded => "'" +:+ temporal_property obs +:+ "'"
  | Typed => temporal_property obs
  end.

(** The point-in-geometry predicate. *)
Definition spatial_predicate `{Runtime} (geom_property : geom_property_doc)
  (x y : Q) : string :=
  "ST_Intersects(" +:+ property_name geom_property +:+ ", ST_GeomFromText('"
  +:+ Point_wkt x y +:+ "', " +:+ py_str (srid geom_property) +:+ "))".

(** The FROM clause of the join variants: the observation entity and the
    classification entity. *)
Definition join_sources (feature_type : string) (c : classification_class)
  : string :=
  "FROM " +:+ feature_type +:+ " AS dado, " +:+ get_name c +:+ " AS class".

(** The equality between the class reference of the observation and the
    identifier of the classification entity. *)
Definition join_predicate (obs_class_property : string) (c : classification_class)
  : string :=
  "dado." +:+ obs_class_property +:+ " = class." +:+ get_id c.

(** ** Test doubles: a runtime and three services to run the model on *)

Definition demo_repr_float (q : Q) : string :=
  str_int (Qnum q) +:+ "/" +:+ str_int (Zpos (Qden q)).

Definition demo_strftime (d : datetime) (fmt : string) : string :=
  str_int (year d) +:+ "-" +:+ str_int (month d) +:+ "-" +:+ str_int (day d).

#[local] Instance demo_runtime : Runtime := {|
  repr_float := demo_repr_float;
  strftime := demo_strftime;
  Point_wkt := fun x y =>
    "POINT (" +:+ demo_repr_float x +:+ " " +:+ demo_repr_float y +:+ ")";
  Point_buffer_bounds := fun x y r => ((x - r)%Q, (y - r)%Q, (x + r)%Q, (y + r)%Q);
  Point_text := fun _ => Raise TypeError
|}.

(** A database holding one observation. *)
Definition one_row_db : SqlExecutor := {|
  fetchall := fun _ _ => Ok [[PStr "Forest"; PStr "2017"]]
|}.

(** A database holding nothing. *)
Definition empty_db : SqlExecutor := {|
  fetchall := fun _ _ => Ok []
|}.

(** A database whose only observation is deleted after the first statement. *)
Definition vanishing_db : SqlExecutor := {|
  fetchall := fun executed _ =>
    match executed with
    | [] => Ok [[PStr "Forest"; PStr "2017"]]
    | _ => Ok []
    end
|}.

Definition demo_geom_property : geom_property_doc :=
  {| property_name := "geom"; srid := PInt 4326 |}.

Definition demo_obs : obs_doc :=
  {| temporal_property := "2017";
     class_property := Some "class_id";
     class_property_name := Some "Forest" |}.

Definition demo_typed_obs : obs_doc :=
  {| temporal_property := "view_date";
     class_property := Some "class_id";
     class_property_name := Some "Forest" |}.

Definition string_temporal : temporal_doc :=
  {| temporal_type := "STRING"; string_format := Some "%Y" |}.

Definition date_temporal : temporal_doc :=
  {| temporal_type := "DATE"; string_format := Some "%Y-%m-%d" |}.

Definition literal_class : classification_class :=
  {| get_name := "classes"; get_id := "id";
     get_class_property_name := "Forest"; get_type := "Literal" |}.

Definition attribute_class : classification_class :=
  {| get_name := "classes"; get_id := "id";
     get_class_property_name := "class_name"; get_type := "Self" |}.

(** A feature service that lists the feature type ["deter"] and answers every
    feature query with the given features. *)
Definition demo_feature_service (features : list (gmap string scalar))
  : FeatureService := {|
  requests_get := fun _ uri => Ok (200, uri);
  feature_type_names := fun _ => Ok ["deter"];
  loads_features := fun _ => Ok features;
  first_node_value := fun _ _ => Ok "Forest"
|}.

Definition demo_feature : gmap string scalar :=
  {[ "class_id" := PInt 3; "view_date" := PStr "2017-08-01" ]}.

Definition demo_pool : WFSConnectionPool :=
  {| wfs_host := "http://localhost"; wfs_port := "8080";
     wfs_location := "geoserver"; wfs_auth := None |}.

(** The float nearest to the quotient of two integers that are floats
    themselves. *)
Definition demo_float (q : Q) : float :=
  float_div (float_of_int (Qnum q)) (float_of_int (Zpos (Qden q))).

(** A north-up raster with unit pixels whose origin is the point (0, 0). *)
Definition unit_raster : dataset :=
  {| GetProjection := "GEOGCS";
     GetGeoTransform :=
       (float_of_int 0, float_of_int 1, float_of_int 0,
        float_of_int 0, float_of_int 0, float_of_int (-1));
     ReadAsArray := fun x y => Some (x + y) |}.

(** A coverage service that always answers with that raster, already in
    geographic coordinates. *)
Definition demo_raster_service : RasterService := {|
  urlopen := fun _ _ _ => Responded None "GeoTIFF";
  gdal_Open := fun _ => Some unit_raster;
  TransformPoint := fun _ long lat => Ok (demo_float long, demo_float lat)
|}.

(** [wlts.utils.get_date_from_str] taken to be the function of the same name
    of [wlts/datasource.py], called with its default [date_ref]. *)
Definition datasource_utils : WltsUtils := {|
  utils_get_date_from_str := fun date => get_date_from_str date PNone
|}.

Definition demo_wcs : WCS :=
  {| wcs_oid := 0; wcs_host := "http://localhost/geoserver"; wcs_auth := None |}.

Definition demo_wcs_datasource : WCSDataSource :=
  {| _wcs := demo_wcs; workspace := "datacube" |}.

Definition demo_image_args (column : Z) : image_args :=
  {| arg_image := PStr "datacube:mapbiomas";
     arg_srid := PInt 4326;
     arg_min_x := PFloat (1 # 2); arg_max_x := PFloat (-3 # 2);
     arg_min_y := PFloat (3 # 2); arg_max_y := PFloat (-1 # 2);
     arg_column := PInt column; arg_row := PInt 1;
     arg_time := PStr "2017";
     arg_x := PFloat 1; arg_y := PFloat (-1) |}.

Definition empty_wcs_state : wcs_state := {| cache := []; fetched := [] |}.

(** The calls [demo_image_args 1], ..., [demo_image_args n]. *)
Definition demo_calls (n : nat) : list image_key :=
  map (fun i => (demo_wcs, demo_image_args (Z.of_nat i))) (seq 1 n).

(** The keyword arguments of a raster query with the given bounds. *)
Definition demo_kwargs (start_date end_date : scalar) : gmap string kwvalue :=
  {[ "image" := Sc (PStr "mapbiomas");
     "x" := Sc (PFloat 1); "y" := Sc (PFloat (-1));
     "srid" := Sc (PInt 4326);
     "grid" := Dict {[ "column" := PInt 1; "row" := PInt 1 ]};
     "time" := Sc (PStr "2017");
     "start_date" := Sc start_date;
     "end_date" := Sc end_date ]}.

(** Three entries of a configuration document. *)
Definition postgis_entry : gmap string scalar :=
  {[ "type" := PStr "POSTGIS"; "id" := PStr "pg-1"; "host" := PStr "localhost" ]}.

Definition wfs_entry : gmap string scalar :=
  {[ "type" := PStr "WFS"; "id" := PStr "wfs-1"; "host" := PStr "http://localhost";
     "port" := PStr "8080"; "location" := PStr "geoserver";
     "user" := PNone ]}.

Definition shapefile_entry : gmap string scalar :=
  {[ "type" := PStr "SHAPEFILE"; "id" := PStr "shp-1" ]}.

(** ** Date bounds against a locally parsed observation date *)

(** A bound as a branch reads it: not supplied (false), or supplied and
    handed to [get_date_from_str]. *)
Definition parsed_bound (bound : scalar) : option (result datetime) :=
  if truthy bound then Some (get_date_from_str bound PNone) else None.

(** The observation date [d] lies outside a supplied bound: the parsed start
    is after it, or it is after the parsed end (the start, when supplied,
    being a date too). *)
Definition out_of_bounds (start_date end_date : scalar) (d : datetime) : Prop :=
  (exists s, parsed_bound start_date = Some (Ok s) /\ datetime_gtb s d = true)
  \/ ((parsed_bound start_date = None
       \/ exists s, parsed_bound start_date = Some (Ok s))
      /\ exists e, parsed_bound end_date = Some (Ok e) /\ datetime_gtb d e = true).

(** The observation date [d] lies within every supplied bound. *)
Definition within_bounds (start_date end_date : scalar) (d : datetime) : Prop :=
  (parsed_bound start_date = None
   \/ exists s, parsed_bound start_date = Some (Ok s) /\ datetime_gtb s d = false)
  /\ (parsed_bound end_date = None
      \/ exists e, parsed_bound end_date = Some (Ok e) /\ datetime_gtb d e = false).

(** ** Runs of [get_image] *)

(** A succession of calls of [get_image], whatever each returns or raises. *)
Fixpoint run_calls `{Runtime} `{RasterService} (calls : list image_key)
  (st : wcs_state) : wcs_state :=
  match calls with
  | [] => st
  | (self, a) :: rest => run_calls rest (snd (get_image self a st))
  end.

(** The calls of a list whose key differs from [k]. *)
Definition other_calls (k : image_key) (calls : list image_key)
  : list image_key :=
  List.filter (fun k' => negb (image_key_eqb k' k)) calls.

(** One call for each distinct key of a list of calls. *)
Fixpoint distinct_keys (calls : list image_key) : list image_key :=
  match calls with
  | [] => []
  | k :: rest =>
      if existsb (image_key_eqb k) rest then distinct_keys rest
      else k :: distinct_keys rest
  end.

(** No two entries of the cache have equal keys. *)
Inductive lru_nodup : lru -> Prop :=
| lru_nodup_nil : lru_nodup []
| lru_nodup_cons k v c :
    Forall (fun entry => image_key_eqb k (fst entry) = false) c ->
    lru_nodup c ->
    lru_nodup ((k, v) :: c).

(** The entries [front] were all put there by calls of the list [calls]. *)
Definition used_by (calls : list image_key) (front : lru) : Prop :=
  Forall (fun entry =>
            exists k', In k' calls /\ image_key_eqb (fst entry) k' = true)
         front.

(** The cache is well formed and holds the result [v] for the key [k], behind
    entries that calls of the list [calls] put before it. *)
Definition cached_behind (k : image_key) (v : option Z)
  (calls : list image_key) (c : lru) : Prop :=
  lru_nodup c
  /\ exists front k0 back,
       c = (front ++ (k0, v) :: back)%list
       /\ image_key_eqb k k0 = true
       /\ used_by calls front.

(** ** Calendar dates and their zero-padded spellings *)

(** What [datetime] accepts as a calendar date. *)
Definition valid_date (dt : datetime) : Prop :=
  1 <= year dt <= 9999
  /\ 1 <= month dt <= 12
  /\ 1 <= day dt <= days_in_month (year dt) (month dt).

(** The character of a decimal digit. *)
Definition digit_char (n : Z) : ascii := ascii_of_N (Z.to_N (48 + n)).

(** [n] written with four digits, zero padded, in front of [rest]. *)
Definition four_digits (n : Z) (rest : string) : string :=
  String (digit_char (n / 1000))
    (String (digit_char (n / 100 mod 10))
       (String (digit_char (n / 10 mod 10))
          (String (digit_char (n mod 10)) rest))).

(** [n] written with two digits, zero padded, in front of [rest]. *)
Definition two_digits (n : Z) (rest : string) : string :=
  String (digit_char (n / 10)) (String (digit_char (n mod 10)) rest).

(** The spellings YYYY-MM-DD, YYYY-MM and YYYY. *)
Definition text_Ymd (y m d : Z) : string :=
  four_digits y (String "-" (two_digits m (String "-" (two_digits d "")))).

Definition text_Ym (y m : Z) : string :=
  four_digits y (String "-" (two_digits m "")).

Definition text_Y (y : Z) : string := four_digits y "".

(** ** Connections of the PostGIS backend *)

(** A connection handle returned by [psycopg2.connect]. *)
Definition connection : Type := nat.

(** [psycopg2.connect(user=, password=, host=, port=, database=)]: its outcome
    after the earlier attempts, each attempt being its five arguments. *)
Class Psycopg2 : Type := {
  psycopg2_connect : list (list scalar) -> list scalar -> result connection
}.

(** The five arguments, read from [pgisInfo] in the order of the call. *)
Definition connect_arguments (pgisInfo : gmap string scalar)
  : result (list scalar) :=
  rbind (conn_item pgisInfo "user") (fun user =>
  rbind (conn_item pgisInfo "password") (fun password =>
  rbind (conn_item pgisInfo "host") (fun host =>
  rbind (conn_item pgisInfo "port") (fun port =>
  rbind (conn_item pgisInfo "database") (fun database =>
  Ok [user; password; host; port; database]))))).

(** [PostgisConnection.connection_open(pgisInfo)]: the whole call sits in a
    [try] whose handler catches every exception, prints it and falls off the
    end of the function, so that the result is then [None]. *)
Definition connection_open `{Psycopg2} (pgisInfo : gmap string scalar)
  : M (list (list scalar)) (option connection) :=
  fun attempts =>
    match connect_arguments pgisInfo with
    | Raise _ => (Ok None, attempts)
    | Ok arguments =>
        (match psycopg2_connect attempts arguments with
         | Ok c => Ok (Some c)
         | Raise _ => Ok None
         end,
         (attempts ++ [arguments])%list)
    end.

(** [PostGisConnectionPool]: the connection information of its datasource and
    the attribute [pg_connection]. *)
Record PostGisConnectionPool : Type := {
  pool_connection_info : gmap string scalar;
  pg_connection : option connection
}.

(** [PostGisConnectionPool.open_conection] *)
Definition open_conection `{Psycopg2} (self : PostGisConnectionPool)
  : M (list (list scalar)) PostGisConnectionPool :=
  (c <- connection_open (pool_connection_info self) ;;
   ret {| pool_connection_info := pool_connection_info self;
          pg_connection := c |})%M.

(** [PostGisConnectionPool(pg_source)] *)
Definition new_PostGisConnectionPool `{Psycopg2}
  (connection_info : gmap string scalar)
  : M (list (list scalar)) PostGisConnectionPool :=
  open_conection {| pool_connection_info := connection_info;
                    pg_connection := None |}.

(** A [PostGisDataSource] object with its pool. *)
Record PostGisDataSource : Type := {
  pg_id : scalar;
  pg_connection_inf : gmap string scalar;
  pg_poll : PostGisConnectionPool
}.

(** [PostGisDataSource(id, connection_info)]: [initialize] calls
    [open_connection], which builds the pool (a first connection) and then
    calls [open_conection] on it again. *)
Definition PostGisDataSource_init `{Psycopg2} (id : scalar)
  (connection_info : gmap string scalar)
  : M (list (list scalar)) PostGisDataSource :=
  (pool <- new_PostGisConnectionPool connection_info ;;
   pool <- open_conection pool ;;
   ret {| pg_id := id; pg_connection_inf := connection_info;
          pg_poll := pool |})%M.

(** [PostGisConnectionPool.execute_query(sql)]: [self.pg_connection.cursor()]
    fails on [None] before any statement is handed over. *)
Definition pool_execute_query `{SqlExecutor} (self : PostGisConnectionPool)
  (sql : string) : M (list string) (list row) :=
  match pg_connection self with
  | Some _ => execute_query sql
  | None => raise AttributeError
  end.

(** [PostGisConnectionPool.close_connection]: [self.pg_connection.close()]. *)
Definition close_connection (self : PostGisConnectionPool) : result unit :=
  match pg_connection self with
  | Some _ => Ok tt
  | None => Raise AttributeError
  end.

(** [PostGisDataSource.get_trajectory] on the object: the statement goes
    through the pool of the datasource. *)
Definition PostGisDataSource_get_trajectory `{Runtime} `{SqlExecutor}
  (self : PostGisDataSource) (feature_type : string)
  (temporal : temporal_doc) (x y : Q) (obs : obs_doc)
  (geom_property : geom_property_doc)
  (classification : classification_class)
  (start_date end_date : scalar) : M (list string) (option row) :=
  (q <- lift (build_query feature_type temporal x y obs geom_property
                classification start_date end_date) ;;
   test <- pool_execute_query (pg_poll self) (sql q) ;;
   match test with
   | [] => ret None
   | _ :: _ =>
       rows <- pool_execute_query (pg_poll self) (sql q) ;;
       match rows with
       | [] => raise IndexError
       | first :: _ => ret (Some first)
       end
   end)%M.

(** The five keys [connection_open] reads. *)
Definition connection_keys : list string :=
  ["user"; "password"; "host"; "port"; "database"].

(** A database server that accepts every connection. *)
Definition demo_psycopg2 : Psycopg2 := {|
  psycopg2_connect := fun attempts _ => Ok (length attempts)
|}.

(** A database server that cannot be reached. *)
Definition down_psycopg2 : Psycopg2 := {|
  psycopg2_connect := fun _ _ => Raise LibraryError
|}.

Definition demo_pg_info : gmap string scalar :=
  {[ "user" := PStr "wlts"; "password" := PStr "secret";
     "host" := PStr "localhost"; "port" := PInt 5432;
     "database" := PStr "wlts"; "type" := PStr "POSTGIS";
     "id" := PStr "pg-1" ]}.

(** ** Lookups in the registry *)

(** [ds.get_type()] *)
Definition ds_get_type (ds : DataSource) : string :=
  match ds with
  | PostGisDS _ _ => "POSTGIS"
  | WCSDS _ _ _ => "WCS"
  | WFSDS _ _ _ => "WFS"
  end.

(** [ds.get_id()] *)
Definition ds_get_id (ds : DataSource) : scalar :=
  match ds with
  | PostGisDS id _ => id
  | WCSDS id _ _ => id
  | WFSDS id _ _ => id
  end.

(** [ds.get_connection_info()] *)
Definition ds_get_connection_info (ds : DataSource) : gmap string scalar :=
  match ds with
  | PostGisDS _ info => info
  | WCSDS _ info _ => info
  | WFSDS _ info _ => info
  end.

(** The keys of [DataSourceManager._datasources], in the order of the class
    body; no key is ever added or removed, so this is the order in which
    [values()] yields the lists. *)
Definition datasource_groups : list string :=
  ["webservice_source"; "dbms_source"; "file_source"].

(** The datasources [self._datasources.values()] yields, list after list. *)
Definition registered (_datasources : gmap string (list DataSource))
  : list DataSource :=
  flat_map (fun group => default [] (_datasources !! group)) datasource_groups.

(** [DataSourceManager.get_datasource(ds_id)]: the first datasource whose id
    equals [ds_id], [None] when the loops end without one. *)
Definition get_datasource (_datasources : gmap string (list DataSource))
  (ds_id : scalar) : option DataSource :=
  find (fun ds => py_eqb (ds_get_id ds) ds_id) (registered _datasources).

(** ** The WCS datasource of [wlts/datasource.py] *)

(** [minidom.parseString(doc)] followed by [toxml()]: whether the document
    is well formed. *)
Class XmlParser : Type := {
  parseString : string -> result unit
}.

Definition wcs_capabilities_url (p : WFSConnectionPool) : string :=
  wfs_mount_url p +:+ "/" +:+ wcs_base_path +:+ "&request=GetCapabilities".

(** [WCSConnectionPool.list_collection]: the capabilities document is
    fetched and parsed; nothing is returned. *)
Definition list_collection `{FeatureService} `{XmlParser}
  (p : WFSConnectionPool) : M (list string) unit :=
  (doc <- wfs_get (wcs_capabilities_url p) ;;
   lift (parseString doc))%M.

(** [WCSDataSource.get_trajectory] of [wlts/datasource.py], the class the
    factory builds for the tag WCS: [self.wfc_poll.list_collection()] and a
    bare [return]. *)
Definition datasource_wcs_get_trajectory `{FeatureService} `{XmlParser}
  (wfc_poll : WFSConnectionPool) (feature_type : string)
  (temporal : temporal_doc) (x y : Q) (obs : obs_doc)
  (geom_property : geom_property_doc)
  (classification : classification_class)
  (start_date end_date : scalar) : M (list string) (option (list scalar)) :=
  (list_collection wfc_poll ;;;
   ret None)%M.

Definition demo_xml_parser : XmlParser := {|
  parseString := fun _ => Ok tt
|}.

Definition wcs_entry : gmap string scalar :=
  {[ "type" := PStr "WCS"; "id" := PStr "wcs-1"; "host" := PStr "http://localhost";
     "port" := PStr "8080"; "location" := PStr "geoserver";
     "user" := PStr "admin"; "password" := PStr "geoserver" ]}.

(** ** The coverage request *)

(** The address [WCS.get_image] builds for its arguments. *)
Definition get_image_url `{Runtime} (self : WCS) (a : image_args) : string :=
  wcs_host self +:+ "/" +:+ wcs_base_path +:+ "&request=GetCoverage&COVERAGE="
  +:+ py_str (arg_image a) +:+ "&"
  +:+ "CRS=EPSG:4326&RESPONSE_CRS=EPSG:" +:+ py_str (arg_srid a) +:+ "&"
  +:+ "BBOX=" +:+ py_str (arg_min_x a) +:+ "," +:+ py_str (arg_max_x a)
  +:+ "," +:+ py_str (arg_min_y a) +:+ "," +:+ py_str (arg_max_y a)
  +:+ "&FORMAT=GeoTIFF&WIDTH=" +:+ py_str (arg_column a) +:+ "&HEIGHT="
  +:+ py_str (arg_row a) +:+ "&time=" +:+ py_str (arg_time a).

(** A coverage service that cannot be reached. *)
Definition down_raster_service : RasterService := {|
  urlopen := fun _ _ _ => URLError;
  gdal_Open := fun _ => Some unit_raster;
  TransformPoint := fun _ long lat => Ok (demo_float long, demo_float lat)
|}.

(** A coverage service that is down for the first request only. *)
Definition recovering_raster_service : RasterService := {|
  urlopen := fun fetched _ _ =>
    match fetched with
    | [] => URLError
    | _ => Responded None "GeoTIFF"
    end;
  gdal_Open := fun _ => Some unit_raster;
  TransformPoint := fun _ long lat => Ok (demo_float long, demo_float lat)
|}.


(** A north-up raster whose pixels are a tenth wide and high. *)
Definition tenth_raster : dataset :=
  {| GetProjection := "GEOGCS";
     GetGeoTransform :=
       (float_of_int 0, demo_float (1 # 10), float_of_int 0,
        float_of_int 0, float_of_int 0, demo_float (-1 # 10));
     ReadAsArray := fun x y => Some (x + y) |}.

(** A raster with unit pixels whose origin is far east: at 2 ^ 1023. *)
Definition far_raster : dataset :=
  {| GetProjection := "GEOGCS";
     GetGeoTransform :=
       (float_of_int (2 ^ 1023), float_of_int 1, float_of_int 0,
        float_of_int 0, float_of_int 0, float_of_int (-1));
     ReadAsArray := fun x y => Some (x + y) |}.

(** *** The number a float stands for *)

(** [math.isfinite(f)] *)
Definition float_is_finite (f : float) : bool :=
  match f with
  | S754_zero _ | S754_finite _ _ _ => true
  | _ => false
  end.

(** [math.isinf(f)] *)
Definition float_is_inf (f : float) : bool :=
  match f with
  | S754_infinity _ => true
  | _ => false
  end.

(** The rational number a finite float stands for: the mantissa, with its
    sign, times the power of two. *)
Definition float_value (f : float) : option Q :=
  match f with
  | S754_zero _ => Some 0%Q
  | S754_finite s m e => Some (inject_Z (cond_Zopp s (Zpos m)) * 2 ^ e)%Q
  | _ => None
  end.

(** ** The search order of the registry *)

(** The datasources of the groups [groups], list after list. *)
Definition registered_in (_datasources : gmap string (list DataSource))
  (groups : list string) : list DataSource :=
  flat_map (fun group => default [] (_datasources !! group)) groups.

(** The groups that [get_datasource] visits up to and including [group], and
    those it visits after it. *)
Fixpoint through_group (group : string) (groups : list string) : list string :=
  match groups with
  | [] => []
  | g :: rest =>
      if String.eqb g group then [g] else g :: through_group group rest
  end.

Fixpoint after_group (group : string) (groups : list string) : list string :=
  match groups with
  | [] => []
  | g :: rest => if String.eqb g group then rest else after_group group rest
  end.

(** A registry that holds one WFS datasource, and a second configuration
    entry with the id of that datasource. *)
Definition one_wfs_registry : gmap string (list DataSource) :=
  <["webservice_source" :=
      [WFSDS (PStr "wfs-1") wfs_entry
         {| wfs_host := "http://localhost"; wfs_port := "8080";
            wfs_location := "geoserver"; wfs_auth := None |}]]>
    initial_datasources.

Definition wfs_entry_again : gmap string scalar :=
  {[ "type" := PStr "WFS"; "id" := PStr "wfs-1"; "host" := PStr "http://two";
     "port" := PStr "8080"; "location" := PStr "geoserver";
     "user" := PNone ]}.

(** A runtime whose geometry library reads the text ["1"] as the number 1,
    and is otherwise the runtime of the examples. *)
Definition text_runtime : Runtime := {|
  repr_float := demo_repr_float;
  strftime := demo_strftime;
  Point_wkt := fun x y =>
    "POINT (" +:+ demo_repr_float x +:+ " " +:+ demo_repr_float y +:+ ")";
  Point_buffer_bounds := fun x y r => ((x - r)%Q, (y - r)%Q, (x + r)%Q, (y + r)%Q);
  Point_text := fun s => if String.eqb s "1" then Ok 1%Q else Raise ValueError
|}.

(** * Properties *)

(** ** Dates *)

Example get_date_full :
  get_date_from_str (PStr "2020-05-17") PNone = Ok (mkdate 2020 5 17).
Proof. reflexivity. Qed.

Example get_date_slashes :
  get_date_from_str (PStr "2020/5/7") PNone = Ok (mkdate 2020 5 7).
Proof. reflexivity. Qed.

Example get_date_month :
  get_date_from_str (PStr "2020-05") PNone = Ok (mkdate 2020 5 1).
Proof. reflexivity. Qed.

Example get_date_year :
  get_date_from_str (PStr "2020") PNone = Ok (mkdate 2020 1 1).
Proof. reflexivity. Qed.

Example get_date_bad_day :
  get_date_from_str (PStr "2021-02-29") PNone = Raise ValueError.
Proof. reflexivity. Qed.

Example get_date_trailing :
  get_date_from_str (PStr "2020-05-171") PNone = Raise ValueError.
Proof. reflexivity. Qed.

Example get_date_none :
  get_date_from_str PNone PNone = Raise AttributeError.
Proof. reflexivity. Qed.

Example get_date_ref_year :
  get_date_from_str (PStr "2020") (PBool true) = Ok (mkdate 2020 12 31).
Proof. reflexivity. Qed.

Example get_date_ref_month :
  get_date_from_str (PStr "2020-05") (PBool true) = Ok (mkdate 2020 12 31).
Proof. reflexivity. Qed.

Example get_date_ref_full :
  get_date_from_str (PStr "2020-05-17") (PBool true) = Ok (mkdate 2020 12 31).
Proof. reflexivity. Qed.

Lemma make_datetime_Ok y m d dt :
  make_datetime y m d = Ok dt -> dt = mkdate y m d /\ 1 <= y <= 9999.
Proof.
  unfold make_datetime.
  destruct (1 <=? y) eqn:Hlo; [| discriminate].
  destruct (y <=? 9999) eqn:Hhi; [| discriminate].
  apply Z.leb_le in Hlo, Hhi.
  destruct (_ && _); [| discriminate].
  intros [= <-]. split; [reflexivity | lia].
Qed.

Lemma strptime_year s fmt dt :
  strptime s fmt = Ok dt -> 1 <= year dt <= 9999.
Proof.
  unfold strptime.
  destruct (match_format fmt s default_fields) as [| [[[y m] d] rest] ms];
    [discriminate |].
  destruct (String.eqb rest ""); [| discriminate].
  intros Hdt. apply make_datetime_Ok in Hdt as [-> Hy]. exact Hy.
Qed.

(** The three-format cascade of [get_date_from_str] only yields dates whose
    year [datetime] accepts. *)
Lemma parse_cascade_year s dt :
  except_ValueError (strptime s fmt_Ymd)
    (except_ValueError (strptime s fmt_Ym) (strptime s fmt_Y)) = Ok dt ->
  1 <= year dt <= 9999.
Proof.
  destruct (strptime s fmt_Ymd) as [d1 | e1] eqn:H1; simpl.
  - intros [= <-]. eapply strptime_year, H1.
  - destruct (strptime s fmt_Ym) as [d2 | e2] eqn:H2;
      destruct (strptime s fmt_Y) as [d3 | e3] eqn:H3;
      destruct e1; simpl; try discriminate;
        try (intros [= <-]; eapply strptime_year; eassumption);
        destruct e2; simpl; try discriminate;
          intros [= <-]; eapply strptime_year; eassumption.
Qed.

(** C1, as amended: under a true [date_ref], whatever the precision of the
    text, the date that text denotes is moved to December 31 of its year. *)
Theorem get_date_from_str_date_ref (s : string) (date_ref : scalar) (dt : datetime) :
  truthy date_ref = true ->
  get_date_from_str (PStr s) PNone = Ok dt ->
  get_date_from_str (PStr s) date_ref = Ok (mkdate (year dt) 12 31).
Proof.
  intros Href. unfold get_date_from_str. rewrite Href. simpl truthy. cbv iota.
  destruct (except_ValueError _ _) as [d | e] eqn:Hparse; simpl; [| discriminate].
  intros [= ->]. apply parse_cascade_year in Hparse.
  unfold datetime_replace, make_datetime.
  destruct (1 <=? year dt) eqn:Hlo; [| apply Z.leb_gt in Hlo; lia].
  destruct (year dt <=? 9999) eqn:Hhi; [| apply Z.leb_gt in Hhi; lia].
  reflexivity.
Qed.

Lemma get_date_from_str_date_ref_witness :
  get_date_from_str (PStr "2020-05") (PBool true) = Ok (mkdate 2020 12 31).
Proof.
  apply (get_date_from_str_date_ref "2020-05" (PBool true) (mkdate 2020 5 1));
    reflexivity.
Defined.

(** C1 as stated fails: a year-month text under the reference-bound flag is
    not moved to the last day of its month, and a full date is not left
    unchanged. *)
Lemma get_date_from_str_date_ref_counterexample :
  get_date_from_str (PStr "2020-05") (PBool true) <> Ok (mkdate 2020 5 31)
  /\ get_date_from_str (PStr "2020-05-17") (PBool true) <> Ok (mkdate 2020 5 17).
Proof. split; discriminate. Qed.

(** ** The query builder *)

Lemma append_assoc (a b c : string) : (a +:+ b) +:+ c = a +:+ (b +:+ c).
Proof.
  induction a as [| ch a IH]; [reflexivity |].
  change (String ch ((a +:+ b) +:+ c) = String ch (a +:+ (b +:+ c))).
  now rewrite IH.
Qed.

Lemma append_nil_r (a : string) : a +:+ "" = a.
Proof.
  induction a as [| ch a IH]; [reflexivity |].
  change (String ch (a +:+ "") = String ch a). now rewrite IH.
Qed.

Lemma length_append (a b : string) :
  String.length (a +:+ b) = (String.length a + String.length b)%nat.
Proof.
  induction a as [| ch a IH]; [reflexivity |].
  change (S (String.length (a +:+ b))
          = S (String.length a + String.length b)%nat).
  now rewrite IH.
Qed.

Ltac string_eq :=
  repeat rewrite append_assoc; repeat rewrite append_nil_r; reflexivity.

(** A FROM clause without a second source is never the FROM clause of a join. *)
Lemma single_source_not_join feature_type c :
  "FROM " +:+ feature_type <> join_sources feature_type c.
Proof.
  intros Heq. apply (f_equal String.length) in Heq.
  unfold join_sources in Heq. rewrite !length_append in Heq.
  cbn in Heq. lia.
Qed.

Example query_literal_string :
  rbind (build_query "deter" string_temporal (-50 # 1) (-10 # 1) demo_obs
           demo_geom_property literal_class PNone PNone) (fun q => Ok (sql q))
  = Ok "SELECT 'Forest' AS classe, '2017' AS data FROM deter WHERE ST_Intersects(geom, ST_GeomFromText('POINT (-50/1 -10/1)', 4326))".
Proof. reflexivity. Qed.

Example query_attribute_typed :
  rbind (build_query "deter" date_temporal (-50 # 1) (-10 # 1) demo_typed_obs
           demo_geom_property attribute_class (PStr "2015") PNone)
        (fun q => Ok (sql q))
  = Ok "SELECT class.class_name AS classe, view_date AS data FROM deter AS dado, classes AS class WHERE ST_Intersects(geom, ST_GeomFromText('POINT (-50/1 -10/1)', 4326)) AND dado.class_id = class.id  AND view_date >= 2015".
Proof. reflexivity. Qed.

(** C2: whatever the two kinds, the statement has the class expression and
    the date expression of the decision table; the spatial predicate heads
    the WHERE clause; the FROM clause names the classification entity, and
    the WHERE clause equates the class reference with its identifier, exactly
    when the classification is an attribute. *)
Theorem build_query_decision_table `{Runtime} (feature_type : string)
  (temporal : temporal_doc) (x y : Q) (obs : obs_doc)
  (geom_property : geom_property_doc) (c : classification_class)
  (start_date end_date : scalar) (obs_class_property : string) :
  (classification_kind_of c = Attribute ->
   class_property obs = Some obs_class_property) ->
  exists q,
    build_query feature_type temporal x y obs geom_property c
      start_date end_date = Ok q
    /\ properties q
       = " " +:+ class_expression (classification_kind_of c) c +:+ " AS classe, "
         +:+ date_expression (temporal_kind_of temporal) obs +:+ " AS data "
    /\ (exists rest,
          where_sql q = " WHERE " +:+ spatial_predicate geom_property x y +:+ rest)
    /\ (from_str q = join_sources feature_type c
        /\ where_sql q
           = " WHERE " +:+ spatial_predicate geom_property x y +:+ " AND "
             +:+ join_predicate obs_class_property c +:+ " "
        <-> classification_kind_of c = Attribute)
    /\ (classification_kind_of c = Literal ->
        from_str q = "FROM " +:+ feature_type
        /\ where_sql q = " WHERE " +:+ spatial_predicate geom_property x y)
    /\ sql q
       = "SELECT" +:+ properties q +:+ from_str q +:+ where_sql q
         +:+ date_bounds (date_expression (temporal_kind_of temporal) obs)
               start_date end_date.
Proof.
  unfold classification_kind_of, temporal_kind_of, build_query, date_bounds,
    class_expression, date_expression, spatial_predicate, join_predicate.
  intros Hcp.
  destruct (String.eqb (get_type c) "Literal");
    destruct (String.eqb (temporal_type temporal) "STRING"); cbn [andb negb];
    try (rewrite (Hcp eq_refl); cbn [getitem rbind]);
    (eexists; split; [reflexivity |]);
    cbn [properties from_str where_sql sql];
    repeat split; try discriminate;
    try (intros [Hfrom _]; now apply single_source_not_join in Hfrom);
    try (destruct (truthy start_date), (truthy end_date));
    first
      [ string_eq
      | exists ""; string_eq
      | exists (" AND dado." +:+ obs_class_property +:+ " = class."
                +:+ get_id c +:+ " "); string_eq ].
Qed.

Lemma build_query_decision_table_witness :
  exists q,
    build_query "deter" date_temporal (-50 # 1) (-10 # 1) demo_typed_obs
      demo_geom_property attribute_class (PStr "2015") PNone = Ok q
    /\ from_str q = join_sources "deter" attribute_class
    /\ properties q = " class.class_name AS classe, view_date AS data ".
Proof.
  destruct (build_query_decision_table "deter" date_temporal (-50 # 1) (-10 # 1)
              demo_typed_obs demo_geom_property attribute_class (PStr "2015")
              PNone "class_id" (fun _ => eq_refl))
    as (q & Hq & Hprops & _ & Hjoin & _).
  exists q. split; [exact Hq |]. split.
  - apply Hjoin. reflexivity.
  - exact Hprops.
Defined.

(** ** Execution of the statement by the PostGIS backend *)

Example pg_one_row :
  @pg_get_trajectory demo_runtime one_row_db "deter" string_temporal
    (-50 # 1) (-10 # 1) demo_obs demo_geom_property literal_class PNone PNone []
  = (Ok (Some [PStr "Forest"; PStr "2017"]),
     ["SELECT 'Forest' AS classe, '2017' AS data FROM deter WHERE ST_Intersects(geom, ST_GeomFromText('POINT (-50/1 -10/1)', 4326))";
      "SELECT 'Forest' AS classe, '2017' AS data FROM deter WHERE ST_Intersects(geom, ST_GeomFromText('POINT (-50/1 -10/1)', 4326))"]).
Proof. reflexivity. Qed.

Example pg_no_row :
  fst (@pg_get_trajectory demo_runtime empty_db "deter" string_temporal
         (-50 # 1) (-10 # 1) demo_obs demo_geom_property literal_class
         PNone PNone [])
  = Ok None.
Proof. reflexivity. Qed.

(** The statement runs twice when the first run finds rows; a row deleted in
    between makes the subscript [[0]] fail. *)
Example pg_row_deleted_between_runs :
  fst (@pg_get_trajectory demo_runtime vanishing_db "deter" string_temporal
         (-50 # 1) (-10 # 1) demo_obs demo_geom_property literal_class
         PNone PNone [])
  = Raise IndexError.
Proof. reflexivity. Qed.

(** C3: the code does not do what the claim says.  The statement is executed
    twice, once for the test of the conditional expression and once for the
    row that is returned.  Here the one matching row is deleted between the
    two executions: the query has yielded a row, and [get_trajectory]
    returns neither that row nor [None], it raises [IndexError]. *)
Theorem pg_get_trajectory_row_lost :
  exists q,
    build_query "deter" string_temporal (-50 # 1) (-10 # 1) demo_obs
      demo_geom_property literal_class PNone PNone = Ok q
    /\ @fetchall vanishing_db [] (sql q) = Ok [[PStr "Forest"; PStr "2017"]]
    /\ @pg_get_trajectory demo_runtime vanishing_db "deter" string_temporal
         (-50 # 1) (-10 # 1) demo_obs demo_geom_property literal_class
         PNone PNone []
       = (Raise IndexError, [sql q; sql q]).
Proof.
  eexists. split; [reflexivity |]. split; reflexivity.
Qed.

(** When the second execution yields the rows of the first, the trajectory
    is the first of them, and [None] when there is none. *)
Lemma pg_get_trajectory_stable_rows `{Runtime} `{SqlExecutor}
  (feature_type : string) (temporal : temporal_doc) (x y : Q) (obs : obs_doc)
  (geom_property : geom_property_doc) (c : classification_class)
  (start_date end_date : scalar) (q : query) (rows : list row)
  (executed : list string) :
  build_query feature_type temporal x y obs geom_property c start_date end_date
  = Ok q ->
  fetchall executed (sql q) = Ok rows ->
  (rows <> [] -> fetchall (executed ++ [sql q])%list (sql q) = Ok rows) ->
  fst (pg_get_trajectory feature_type temporal x y obs geom_property c
         start_date end_date executed)
  = Ok (match rows with [] => None | first :: _ => Some first end).
Proof.
  intros Hq Hrows Hagain.
  unfold pg_get_trajectory, bind, lift, execute_query, ret, raise.
  rewrite Hq, Hrows.
  destruct rows as [| first rest]; [reflexivity |].
  rewrite Hagain by discriminate. reflexivity.
Qed.

(** ** The factory and the registry *)

Example load_recognized :
  is_Ok (load_all initial_datasources
           (Some [("dbms_source", [postgis_entry]);
                  ("webservice_source", [wfs_entry])]))
  = true.
Proof. vm_compute. reflexivity. Qed.

Example make_wfs :
  make (PStr "WFS") (PStr "wfs-1") wfs_entry
  = Ok (WFSDS (PStr "wfs-1") wfs_entry
          {| wfs_host := "http://localhost"; wfs_port := "8080";
             wfs_location := "geoserver"; wfs_auth := None |}).
Proof. vm_compute. reflexivity. Qed.

Lemma make_unrecognized (tag id : scalar) (connInfo : gmap string scalar) :
  recognized tag = false -> make tag id connInfo = Raise KeyError.
Proof.
  unfold recognized, make. destruct tag as [| b | z | q | t]; try reflexivity.
  intros Htag. apply orb_false_iff in Htag as [Htag Hwfs].
  apply orb_false_iff in Htag as [Hpg Hwcs].
  apply String.eqb_neq in Hpg, Hwcs, Hwfs.
  unfold factorys.
  rewrite !lookup_insert_ne, lookup_singleton_ne by congruence.
  reflexivity.
Qed.

Lemma insert_datasource_unrecognized (_datasources : gmap string (list DataSource))
  (dsType : string) (connInfo : gmap string scalar) (tag : scalar) :
  connInfo !! "type" = Some tag ->
  recognized tag = false ->
  insert_datasource _datasources dsType connInfo = Raise KeyError.
Proof.
  intros Htype Htag. unfold insert_datasource, conn_item.
  destruct (_datasources !! dsType); [| reflexivity]. cbn [getitem rbind].
  rewrite Htype. cbn [getitem rbind].
  destruct (connInfo !! "id"); [| reflexivity]. cbn [getitem rbind].
  now rewrite make_unrecognized.
Qed.

Lemma insert_all_unrecognized (entries : list (gmap string scalar)) :
  forall (_datasources : gmap string (list DataSource)) (dstype : string)
         (connInfo : gmap string scalar) (tag : scalar),
  In connInfo entries ->
  connInfo !! "type" = Some tag ->
  recognized tag = false ->
  is_Ok (insert_all _datasources dstype entries) = false.
Proof.
  induction entries as [| entry rest IH]; intros ds dstype connInfo tag Hin Htype Htag.
  - destruct Hin.
  - cbn [insert_all].
    destruct (insert_datasource ds dstype entry) as [ds' | e] eqn:Hins;
      [| reflexivity].
    cbn [rbind]. destruct Hin as [-> | Hin].
    + rewrite (insert_datasource_unrecognized _ _ _ _ Htype Htag) in Hins.
      discriminate.
    + eapply IH; eassumption.
Qed.

Lemma load_groups_unrecognized (groups : list (string * list (gmap string scalar))) :
  forall (_datasources : gmap string (list DataSource)) (dstype : string)
         (entries : list (gmap string scalar)) (connInfo : gmap string scalar)
         (tag : scalar),
  In (dstype, entries) groups ->
  In connInfo entries ->
  connInfo !! "type" = Some tag ->
  recognized tag = false ->
  is_Ok (load_groups _datasources groups) = false.
Proof.
  induction groups as [| [g es] rest IH];
    intros ds dstype entries connInfo tag Hgroup Hin Htype Htag.
  - destruct Hgroup.
  - cbn [load_groups].
    destruct (insert_all ds g es) as [ds' | e] eqn:Hall; [| reflexivity].
    cbn [rbind]. destruct Hgroup as [[= -> ->] | Hgroup].
    + pose proof (insert_all_unrecognized _ ds dstype _ _ Hin Htype Htag) as Hfail.
      rewrite Hall in Hfail. discriminate.
    + eapply IH; eassumption.
Qed.

(** C9: an entry of the configuration whose type tag is none of POSTGIS, WCS
    and WFS makes [insert_datasource] raise [KeyError] out of the factory,
    whatever the registry holds, and so makes [load_all] fail: the registry is
    never built, and no query is served from it. *)
Theorem unknown_backend_fails_at_load
  (_datasources : gmap string (list DataSource))
  (datasources : list (string * list (gmap string scalar)))
  (dstype : string) (entries : list (gmap string scalar))
  (connInfo : gmap string scalar) (tag id : scalar) :
  In (dstype, entries) datasources ->
  In connInfo entries ->
  connInfo !! "type" = Some tag ->
  recognized tag = false ->
  make tag id connInfo = Raise KeyError
  /\ insert_datasource _datasources dstype connInfo = Raise KeyError
  /\ is_Ok (load_all _datasources (Some datasources)) = false.
Proof.
  intros Hgroup Hin Htype Htag. split; [| split].
  - now apply make_unrecognized.
  - eapply insert_datasource_unrecognized; eassumption.
  - cbn [load_all]. eapply load_groups_unrecognized; eassumption.
Qed.

Lemma unknown_backend_fails_at_load_witness :
  make (PStr "SHAPEFILE") (PStr "shp-1") shapefile_entry = Raise KeyError
  /\ insert_datasource initial_datasources "file_source" shapefile_entry
     = Raise KeyError
  /\ is_Ok (load_all initial_datasources
              (Some [("dbms_source", [postgis_entry]);
                     ("file_source", [shapefile_entry])])) = false.
Proof.
  apply (unknown_backend_fails_at_load initial_datasources
           [("dbms_source", [postgis_entry]); ("file_source", [shapefile_entry])]
           "file_source" [shapefile_entry] shapefile_entry
           (PStr "SHAPEFILE") (PStr "shp-1")).
  - right. left. reflexivity.
  - left. reflexivity.
  - vm_compute. reflexivity.
  - reflexivity.
Defined.

(** ** The pixel of a point *)

Example rowcol_inside :
  @transform_latlong_to_rowcol demo_raster_service unit_raster (-7 # 2) (5 # 2)
  = Ok (2, 3).
Proof. reflexivity. Qed.

Example rowcol_west_of_origin :
  @transform_latlong_to_rowcol demo_raster_service unit_raster (-1 # 2) (-1 # 2)
  = Ok (0, 0).
Proof. reflexivity. Qed.

(** The quotient is rounded before it is truncated: the float 0.1 is a
    little more than a tenth, so that 0.5 divided by it is a little less than
    5; the quotient of the two floats is the float 5. *)
Example rowcol_rounded_quotient :
  @transform_latlong_to_rowcol demo_raster_service tenth_raster 0 (1 # 2)
  = Ok (5, 0).
Proof. vm_compute. reflexivity. Qed.

Example float_value_half :
  float_value (demo_float (-1 # 2)) = Some (-4503599627370496 # 9007199254740992).
Proof. reflexivity. Qed.

Lemma two_power_pos (e : Z) : (0 < 2 ^ e)%Q.
Proof. apply Qpower_0_lt. reflexivity. Qed.

Lemma two_power_Z (p : positive) : (2 ^ Zpos p == inject_Z (2 ^ Zpos p))%Q.
Proof. rewrite Zpower_Qpower by lia. reflexivity. Qed.

(** Shifting a mantissa by the exponent gives the floor of the product. *)
Lemma shiftl_floor (m e : Z) : Z.shiftl m e = Qfloor (inject_Z m * 2 ^ e).
Proof.
  destruct e as [| p | p].
  - rewrite Z.shiftl_0_r. cbn [Qpower]. rewrite Qmult_1_r. now rewrite Qfloor_Z.
  - rewrite Z.shiftl_mul_pow2 by lia.
    rewrite two_power_Z, <- inject_Z_mult. now rewrite Qfloor_Z.
  - rewrite Z.shiftl_div_pow2 by lia. change (- Z.neg p) with (Z.pos p).
    rewrite Zdiv_Qdiv. apply Qfloor_comp.
    unfold Qdiv. rewrite <- two_power_Z. reflexivity.
Qed.

(** [int] of a finite float is the integer part of the number it stands for:
    the floor when the number is not negative, the ceiling when it is. *)
Lemma int_of_float_value (f : float) (v : Q) :
  float_value f = Some v ->
  exists z,
    int_of_float f = Ok z
    /\ ((0 <= v)%Q -> z = Qfloor v)
    /\ ((v < 0)%Q -> z = Qceiling v).
Proof.
  destruct f as [s | s | | s m e]; try discriminate.
  - intros [= <-]. exists 0.
    split; [reflexivity | split; intros _; reflexivity].
  - intros [= <-]. cbn [int_of_float]. eexists. split; [reflexivity |].
    pose proof (two_power_pos e) as Hpow.
    destruct s; cbn [cond_Zopp].
    + assert (Hv : (inject_Z (Z.neg m) * 2 ^ e < 0)%Q).
      { assert (Hm : (inject_Z (Z.neg m) < 0)%Q) by reflexivity.
        pose proof (Qmult_lt_compat_r _ _ _ Hpow Hm) as Hlt.
        now rewrite Qmult_0_l in Hlt. }
      split; [intros Hpos; destruct (Qlt_not_le _ _ Hv Hpos) |]. intros _.
      unfold Qceiling. f_equal. rewrite shiftl_floor. apply Qfloor_comp.
      change (Z.neg m) with (- Z.pos m). rewrite inject_Z_opp. ring.
    + assert (Hv : (0 <= inject_Z (Z.pos m) * 2 ^ e)%Q).
      { apply Qmult_le_0_compat; [discriminate | apply Qlt_le_weak, Hpow]. }
      split; [intros _; apply shiftl_floor |].
      intros Hneg. destruct (Qle_not_lt _ _ Hv Hneg).
Qed.

Lemma truediv_nonzero (a b : float) :
  float_is_zero b = false -> truediv a b = Ok (float_div a b).
Proof. intros Hb. unfold truediv. now rewrite Hb. Qed.

(** C8, as amended: the point is projected into the reference system of the
    raster itself, and each offset is [int] of the quotient of the table, the
    difference and the quotient being those of the floats.  When the pixel
    sizes are not zero and the quotients are finite, each offset is the
    integer part of its quotient: the floor of a quotient that is not
    negative, the ceiling of a negative one. *)
Theorem transform_latlong_to_rowcol_truncates `{RasterService}
  (data_set : dataset) (lat long : Q) (x y t0 t1 t2 t3 t4 t5 : float)
  (vx vy : Q) :
  TransformPoint (GetProjection data_set) long lat = Ok (x, y) ->
  GetGeoTransform data_set = (t0, t1, t2, t3, t4, t5) ->
  let origin_x := t0 in
  let origin_y := t3 in
  let pixel_width := t1 in
  let pixel_height := float_neg t5 in
  float_is_zero pixel_width = false ->
  float_is_zero pixel_height = false ->
  float_value (float_div (float_sub x origin_x) pixel_width) = Some vx ->
  float_value (float_div (float_sub origin_y y) pixel_height) = Some vy ->
  exists col row,
    transform_latlong_to_rowcol data_set lat long = Ok (col, row)
    /\ ((0 <= vx)%Q -> col = Qfloor vx)
    /\ ((vx < 0)%Q -> col = Qceiling vx)
    /\ ((0 <= vy)%Q -> row = Qfloor vy)
    /\ ((vy < 0)%Q -> row = Qceiling vy).
Proof.
  intros Hpoint Htransform. cbv zeta. intros Hwidth Hheight Hvx Hvy.
  apply int_of_float_value in Hvx as (col & Hcol & Hcol_floor & Hcol_ceiling).
  apply int_of_float_value in Hvy as (row & Hrow & Hrow_floor & Hrow_ceiling).
  exists col, row. split; [| repeat split; assumption].
  unfold transform_latlong_to_rowcol. rewrite Hpoint, Htransform.
  cbn [rbind]. rewrite (truediv_nonzero _ _ Hwidth). cbn [rbind].
  rewrite Hcol. cbn [rbind]. rewrite (truediv_nonzero _ _ Hheight).
  cbn [rbind]. rewrite Hrow. reflexivity.
Qed.

Lemma transform_latlong_to_rowcol_truncates_witness :
  @transform_latlong_to_rowcol demo_raster_service unit_raster (-5 # 2) (-7 # 2)
  = Ok (-3, 2).
Proof.
  edestruct (@transform_latlong_to_rowcol_truncates demo_raster_service
               unit_raster (-5 # 2) (-7 # 2))
    as (col & row & Hcode & _ & Hcol & Hrow & _).
  - reflexivity.
  - reflexivity.
  - reflexivity.
  - reflexivity.
  - reflexivity.
  - reflexivity.
  - rewrite Hcode, (Hcol eq_refl), Hrow by discriminate. reflexivity.
Defined.

(** C8 as stated fails: half a pixel west of the origin the quotient is
    -0.5, exactly, and the column is 0, its integer part, where the floor
    is -1. *)
Lemma transform_latlong_to_rowcol_floor_counterexample :
  @transform_latlong_to_rowcol demo_raster_service unit_raster (-1 # 2) (-1 # 2)
  <> Ok (Qfloor (((-1 # 2) - 0) / 1), Qfloor ((0 - (-1 # 2)) / - (-1))).
Proof. vm_compute. discriminate. Qed.

(** ** The WFS resolver *)

Example wfs_literal_string :
  @wfs_get_trajectory demo_runtime (demo_feature_service [demo_feature])
    demo_pool "deter" string_temporal (-50 # 1) (-10 # 1) demo_obs
    demo_geom_property literal_class PNone PNone []
  = (Ok (ReturnList [PStr "Forest"; PStr "2017-1-1"]),
     ["http://localhost:8080/geoserver/datacube/wfs?service=WFS&version=1.0.0&request=GetCapabilities";
      "http://localhost:8080/geoserver/datacube/wfs?service=WFS&version=1.0.0&request=GetFeature&typeName=deter&outputformat=json&CRS=EPSG:4326&CQL_FILTER=INTERSECTS(geom, POINT (-50/1 -10/1))"]).
Proof. vm_compute. reflexivity. Qed.

Example wfs_attribute_typed :
  @wfs_get_trajectory demo_runtime (demo_feature_service [demo_feature])
    demo_pool "deter" date_temporal (-50 # 1) (-10 # 1) demo_typed_obs
    demo_geom_property attribute_class PNone PNone []
  = (Ok (ReturnList [PStr "Forest"; PStr "2017-08-01"]),
     ["http://localhost:8080/geoserver/datacube/wfs?service=WFS&version=1.0.0&request=GetCapabilities";
      "http://localhost:8080/geoserver/datacube/wfs?service=WFS&version=1.0.0&request=GetFeature&typeName=deter&propertyName=class_id,view_date&outputformat=json&CRS=EPSG:4326&CQL_FILTER=INTERSECTS(geom, POINT (-50/1 -10/1))";
      "http://localhost:8080/geoserver/datacube/wfs?service=WFS&version=1.0.0&request=GetFeature&typeName=classes&featureID=3"]).
Proof. vm_compute. reflexivity. Qed.

Example wfs_unknown_feature_type :
  fst (@wfs_get_trajectory demo_runtime (demo_feature_service [demo_feature])
         demo_pool "prodes" date_temporal (-50 # 1) (-10 # 1) demo_typed_obs
         demo_geom_property attribute_class PNone PNone [])
  = Raise NotFound.
Proof. vm_compute. reflexivity. Qed.

Lemma bind_Ok {S A B} (m : M S A) (k : A -> M S B) (s s' : S) (a : A) :
  m s = (Ok a, s') -> bind m k s = k a s'.
Proof. intros Hm. unfold bind. now rewrite Hm. Qed.

Lemma bind_lift_Ok {S A B} (r : result A) (k : A -> M S B) (s : S) (a : A) :
  r = Ok a -> bind (lift r) k s = k a s.
Proof. intros ->. reflexivity. Qed.

Lemma parsed_bound_None (bound : scalar) :
  parsed_bound bound = None -> truthy bound = false.
Proof. unfold parsed_bound. now destruct (truthy bound). Qed.

Lemma parsed_bound_Some (bound : scalar) (r : result datetime) :
  parsed_bound bound = Some r ->
  truthy bound = true /\ get_date_from_str bound PNone = r.
Proof.
  unfold parsed_bound. destruct (truthy bound); [| discriminate].
  intros [= <-]. split; reflexivity.
Qed.

(** The Attribute x STRING branch returns [None], and sends nothing, when a
    bound excludes the observation date. *)
Lemma wfs_short_circuit `{Runtime} `{FeatureService}
  (wfs_poll : WFSConnectionPool) (feature_type : string)
  (temporal : temporal_doc) (x y : Q) (obs : obs_doc)
  (geom_property : geom_property_doc) (c : classification_class)
  (start_date end_date : scalar) (d : datetime) (sent : list string) :
  classification_kind_of c = Attribute ->
  temporal_kind_of temporal = StringEncoded ->
  get_date_from_str (PStr (temporal_property obs)) PNone = Ok d ->
  out_of_bounds start_date end_date d ->
  wfs_get_trajectory wfs_poll feature_type temporal x y obs geom_property c
    start_date end_date sent
  = (Ok ReturnNone, sent).
Proof.
  unfold classification_kind_of, temporal_kind_of, wfs_get_trajectory.
  destruct (String.eqb (get_type c) "Literal"); [discriminate |].
  destruct (String.eqb (temporal_type temporal) "STRING"); [| discriminate].
  intros _ _ Hobs Hout. cbn [andb negb].
  rewrite (bind_lift_Ok _ _ _ _ Hobs).
  destruct Hout as [(s & Hs & Hgt) | [Hstart (e & He & Hgt)]].
  - apply parsed_bound_Some in Hs as [-> ->]. cbn [rbind].
    rewrite Hgt. reflexivity.
  - apply parsed_bound_Some in He as [Hte He].
    destruct Hstart as [Hs | (s & Hs)].
    + apply parsed_bound_None in Hs. rewrite Hs, Hte, He. cbn [rbind].
      rewrite Hgt. reflexivity.
    + apply parsed_bound_Some in Hs as [-> ->]. cbn [rbind].
      unfold bind at 1. cbn [lift].
      destruct (datetime_gtb s d); [reflexivity |].
      rewrite Hte, He. cbn [rbind]. rewrite Hgt. reflexivity.
Qed.

(** C5: in the Attribute x STRING branch, an observation date outside a
    supplied bound makes [get_trajectory] return [None], the list of requests
    sent to the feature service being left as it was. *)
Theorem wfs_out_of_bounds_sends_nothing `{Runtime} `{FeatureService}
  (wfs_poll : WFSConnectionPool) (feature_type : string)
  (temporal : temporal_doc) (x y : Q) (obs : obs_doc)
  (geom_property : geom_property_doc) (c : classification_class)
  (start_date end_date : scalar) (d : datetime) (sent : list string) :
  classification_kind_of c = Attribute ->
  temporal_kind_of temporal = StringEncoded ->
  get_date_from_str (PStr (temporal_property obs)) PNone = Ok d ->
  out_of_bounds start_date end_date d ->
  fst (wfs_get_trajectory wfs_poll feature_type temporal x y obs geom_property
         c start_date end_date sent) = Ok ReturnNone
  /\ snd (wfs_get_trajectory wfs_poll feature_type temporal x y obs
            geom_property c start_date end_date sent) = sent.
Proof.
  intros Hc Ht Hobs Hout.
  rewrite (wfs_short_circuit _ _ _ _ _ _ _ _ _ _ _ _ Hc Ht Hobs Hout).
  split; reflexivity.
Qed.

Lemma wfs_out_of_bounds_sends_nothing_witness :
  fst (@wfs_get_trajectory demo_runtime (demo_feature_service [demo_feature])
         demo_pool "deter" string_temporal (-50 # 1) (-10 # 1) demo_obs
         demo_geom_property attribute_class (PStr "2018-01") PNone [])
  = Ok ReturnNone
  /\ snd (@wfs_get_trajectory demo_runtime (demo_feature_service [demo_feature])
            demo_pool "deter" string_temporal (-50 # 1) (-10 # 1) demo_obs
            demo_geom_property attribute_class (PStr "2018-01") PNone [])
     = [].
Proof.
  apply (@wfs_out_of_bounds_sends_nothing demo_runtime
           (demo_feature_service [demo_feature]) demo_pool "deter"
           string_temporal (-50 # 1) (-10 # 1) demo_obs demo_geom_property
           attribute_class (PStr "2018-01") PNone (mkdate 2017 1 1) []).
  - reflexivity.
  - reflexivity.
  - reflexivity.
  - left. exists (mkdate 2018 1 1). split; reflexivity.
Defined.

Example wfs_no_feature :
  fst (@wfs_get_trajectory demo_runtime (demo_feature_service [])
         demo_pool "deter" date_temporal (-50 # 1) (-10 # 1) demo_typed_obs
         demo_geom_property attribute_class PNone PNone [])
  = Ok (ReturnList []).
Proof. vm_compute. reflexivity. Qed.

Lemma date_filter_bind `{Runtime} {B} (op : string) (obs : obs_doc)
  (temporal : temporal_doc) (bound : scalar) (f : option string)
  (k : option string -> M (list string) B) (s : list string) :
  date_filter op obs temporal bound = Ok f ->
  bind (lift (date_filter op obs temporal bound)) k s = k f s.
Proof. intros ->. reflexivity. Qed.

(** When the query of a branch is executed and matches no feature, the branch
    returns the empty list. *)
Lemma wfs_no_feature_empty_list `{Runtime} `{FeatureService}
  (wfs_poll : WFSConnectionPool) (feature_type : string)
  (temporal : temporal_doc) (x y : Q) (obs : obs_doc)
  (geom_property : geom_property_doc) (c : classification_class)
  (start_date end_date : scalar) (sent sent' : list string)
  (response : option (gmap string scalar)) :
  let geom := Point_wkt x y in
  let kwargs := trajectory_kwargs feature_type geom geom_property in
  let run :=
    wfs_get_trajectory wfs_poll feature_type temporal x y obs geom_property c
      start_date end_date sent in
  response_truthy response = false ->
  (classification_kind_of c = Literal ->
   temporal_kind_of temporal = StringEncoded ->
   forall d,
     get_date_from_str (PStr (temporal_property obs)) PNone = Ok d ->
     get_feature wfs_poll (kwargs None None None) sent = (Ok response, sent') ->
     run = (Ok (ReturnList []), sent'))
  /\ (classification_kind_of c = Literal ->
      temporal_kind_of temporal = Typed ->
      forall start_filter end_filter,
        date_filter ">=" obs temporal start_date = Ok start_filter ->
        date_filter "<=" obs temporal end_date = Ok end_filter ->
        get_feature wfs_poll
          (kwargs (Some (temporal_property obs)) start_filter end_filter) sent
        = (Ok response, sent') ->
        run = (Ok (ReturnList []), sent'))
  /\ (classification_kind_of c = Attribute ->
      temporal_kind_of temporal = StringEncoded ->
      forall d obs_class_property,
        get_date_from_str (PStr (temporal_property obs)) PNone = Ok d ->
        within_bounds start_date end_date d ->
        class_property obs = Some obs_class_property ->
        get_feature wfs_poll
          (kwargs (Some (obs_class_property +:+ "," +:+ temporal_property obs))
             None None) sent
        = (Ok response, sent') ->
        run = (Ok (ReturnList []), sent'))
  /\ (classification_kind_of c = Attribute ->
      temporal_kind_of temporal = Typed ->
      forall obs_class_property start_filter end_filter,
        class_property obs = Some obs_class_property ->
        date_filter ">=" obs temporal start_date = Ok start_filter ->
        date_filter "<=" obs temporal end_date = Ok end_filter ->
        get_feature wfs_poll
          (kwargs (Some (obs_class_property +:+ "," +:+ temporal_property obs))
             start_filter end_filter) sent
        = (Ok response, sent') ->
        run = (Ok (ReturnList []), sent')).
Proof.
  cbv zeta. intros Hfalse.
  unfold classification_kind_of, temporal_kind_of, wfs_get_trajectory.
  destruct (String.eqb (get_type c) "Literal");
    destruct (String.eqb (temporal_type temporal) "STRING");
    cbn [andb negb]; repeat split; try discriminate; intros _ _.
  - intros d Hobs Hget.
    rewrite (bind_Ok _ _ _ _ _ Hget), (bind_lift_Ok _ _ _ _ Hobs), Hfalse.
    reflexivity.
  - intros f1 f2 Hf1 Hf2 Hget.
    rewrite (date_filter_bind _ _ _ _ _ _ _ Hf1),
      (date_filter_bind _ _ _ _ _ _ _ Hf2), (bind_Ok _ _ _ _ _ Hget), Hfalse.
    reflexivity.
  - intros d cp Hobs [Hstart Hend] Hcp Hget.
    rewrite (bind_lift_Ok _ _ _ _ Hobs).
    assert (Hs : (if truthy start_date
                  then rbind (get_date_from_str start_date PNone)
                         (fun s => Ok (datetime_gtb s d))
                  else Ok false) = Ok false).
    { destruct Hstart as [Hs | (s & Hs & Hgt)].
      - apply parsed_bound_None in Hs. now rewrite Hs.
      - apply parsed_bound_Some in Hs as [-> ->]. cbn [rbind]. now rewrite Hgt. }
    assert (He : (if truthy end_date
                  then rbind (get_date_from_str end_date PNone)
                         (fun e => Ok (datetime_gtb d e))
                  else Ok false) = Ok false).
    { destruct Hend as [He | (e & He & Hgt)].
      - apply parsed_bound_None in He. now rewrite He.
      - apply parsed_bound_Some in He as [-> ->]. cbn [rbind]. now rewrite Hgt. }
    rewrite (bind_lift_Ok _ _ _ _ Hs), (bind_lift_Ok _ _ _ _ He).
    rewrite Hcp. cbn [getitem]. rewrite (bind_lift_Ok _ _ _ _ eq_refl).
    rewrite (bind_Ok _ _ _ _ _ Hget), Hfalse. reflexivity.
  - intros cp f1 f2 Hcp Hf1 Hf2 Hget.
    rewrite Hcp. cbn [getitem]. rewrite (bind_lift_Ok _ _ _ _ eq_refl).
    rewrite (date_filter_bind _ _ _ _ _ _ _ Hf1),
      (date_filter_bind _ _ _ _ _ _ _ Hf2), (bind_Ok _ _ _ _ _ Hget), Hfalse.
    reflexivity.
Qed.

(** C10: the operation has two values for absence.  The short circuit of the
    Attribute x STRING branch returns [None]; a branch whose query is executed
    and matches no feature returns the empty list; the two values differ. *)
Theorem wfs_two_absence_values `{Runtime} `{FeatureService}
  (wfs_poll : WFSConnectionPool) (feature_type : string)
  (temporal : temporal_doc) (x y : Q) (obs : obs_doc)
  (geom_property : geom_property_doc) (c : classification_class)
  (start_date end_date : scalar) (sent sent' : list string)
  (response : option (gmap string scalar)) :
  let geom := Point_wkt x y in
  let kwargs := trajectory_kwargs feature_type geom geom_property in
  let run :=
    wfs_get_trajectory wfs_poll feature_type temporal x y obs geom_property c
      start_date end_date sent in
  response_truthy response = false ->
  (classification_kind_of c = Attribute ->
   temporal_kind_of temporal = StringEncoded ->
   forall d,
     get_date_from_str (PStr (temporal_property obs)) PNone = Ok d ->
     out_of_bounds start_date end_date d ->
     run = (Ok ReturnNone, sent))
  /\ (classification_kind_of c = Literal ->
      temporal_kind_of temporal = StringEncoded ->
      forall d,
        get_date_from_str (PStr (temporal_property obs)) PNone = Ok d ->
        get_feature wfs_poll (kwargs None None None) sent = (Ok response, sent') ->
        run = (Ok (ReturnList []), sent'))
  /\ (classification_kind_of c = Literal ->
      temporal_kind_of temporal = Typed ->
      forall start_filter end_filter,
        date_filter ">=" obs temporal start_date = Ok start_filter ->
        date_filter "<=" obs temporal end_date = Ok end_filter ->
        get_feature wfs_poll
          (kwargs (Some (temporal_property obs)) start_filter end_filter) sent
        = (Ok response, sent') ->
        run = (Ok (ReturnList []), sent'))
  /\ (classification_kind_of c = Attribute ->
      temporal_kind_of temporal = StringEncoded ->
      forall d obs_class_property,
        get_date_from_str (PStr (temporal_property obs)) PNone = Ok d ->
        within_bounds start_date end_date d ->
        class_property obs = Some obs_class_property ->
        get_feature wfs_poll
          (kwargs (Some (obs_class_property +:+ "," +:+ temporal_property obs))
             None None) sent
        = (Ok response, sent') ->
        run = (Ok (ReturnList []), sent'))
  /\ (classification_kind_of c = Attribute ->
      temporal_kind_of temporal = Typed ->
      forall obs_class_property start_filter end_filter,
        class_property obs = Some obs_class_property ->
        date_filter ">=" obs temporal start_date = Ok start_filter ->
        date_filter "<=" obs temporal end_date = Ok end_filter ->
        get_feature wfs_poll
          (kwargs (Some (obs_class_property +:+ "," +:+ temporal_property obs))
             start_filter end_filter) sent
        = (Ok response, sent') ->
        run = (Ok (ReturnList []), sent'))
  /\ ReturnNone <> ReturnList [].
Proof.
  cbv zeta. intros Hfalse. split.
  - intros Hc Ht d Hobs Hout. now apply wfs_short_circuit with (d := d).
  - pose proof (wfs_no_feature_empty_list wfs_poll feature_type temporal x y obs
                  geom_property c start_date end_date sent sent' response
                  Hfalse) as (H1 & H2 & H3 & H4).
    repeat split; try assumption. discriminate.
Qed.

Lemma wfs_two_absence_values_witness :
  @wfs_get_trajectory demo_runtime (demo_feature_service [])
    demo_pool "deter" string_temporal (-50 # 1) (-10 # 1) demo_obs
    demo_geom_property attribute_class (PStr "2018-01") PNone []
  = (Ok ReturnNone, [])
  /\ @wfs_get_trajectory demo_runtime (demo_feature_service [])
       demo_pool "deter" string_temporal (-50 # 1) (-10 # 1) demo_obs
       demo_geom_property attribute_class (PStr "2016") PNone []
     = (Ok (ReturnList []),
        [capabilities_url demo_pool;
         @get_feature_url demo_runtime demo_pool
           (trajectory_kwargs "deter" (@Point_wkt demo_runtime (-50 # 1) (-10 # 1))
              demo_geom_property (Some "class_id,2017") None None)]).
Proof.
  split.
  - apply (@wfs_two_absence_values demo_runtime (demo_feature_service [])
             demo_pool "deter" string_temporal (-50 # 1) (-10 # 1) demo_obs
             demo_geom_property attribute_class (PStr "2018-01") PNone [] []
             None eq_refl)
      with (d := mkdate 2017 1 1); try reflexivity.
    left. exists (mkdate 2018 1 1). split; reflexivity.
  - apply (@wfs_two_absence_values demo_runtime (demo_feature_service [])
             demo_pool "deter" string_temporal (-50 # 1) (-10 # 1) demo_obs
             demo_geom_property attribute_class (PStr "2016") PNone [] _
             None eq_refl)
      with (d := mkdate 2017 1 1) (obs_class_property := "class_id");
      try reflexivity.
    split.
    + right. exists (mkdate 2016 1 1). split; reflexivity.
    + left. reflexivity.
Defined.

(** *** Requests sent per trajectory *)

Lemma wfs_get_sent `{FeatureService} (uri : string) (sent : list string) :
  snd (wfs_get uri sent) = (sent ++ [uri])%list.
Proof. reflexivity. Qed.

(** Every call of [get_feature] sends the capabilities request first, then, if
    the feature type is listed, the feature request. *)
Lemma get_feature_sent `{Runtime} `{FeatureService} (p : WFSConnectionPool)
  (kwargs : feature_kwargs) (sent : list string) :
  match get_feature p kwargs sent with
  | (Ok _, sent') =>
      sent' = (sent ++ [capabilities_url p; get_feature_url p kwargs])%list
  | (Raise _, sent') =>
      sent' = (sent ++ [capabilities_url p])%list
      \/ sent' = (sent ++ [capabilities_url p; get_feature_url p kwargs])%list
  end.
Proof.
  unfold get_feature, check_feature, list_feature, bind, lift, ret, raise.
  pose proof (wfs_get_sent (capabilities_url p) sent) as Hcap.
  destruct (wfs_get (capabilities_url p) sent) as [[doc | e] s1];
    cbn [snd] in Hcap; subst s1; [| now left].
  destruct (feature_type_names doc) as [names | e]; [| now left].
  destruct (existsb _ names); [| now left].
  pose proof (wfs_get_sent (get_feature_url p kwargs)
                (sent ++ [capabilities_url p])%list) as Hfeat.
  destruct (wfs_get (get_feature_url p kwargs) _) as [[doc' | e] s2];
    cbn [snd] in Hfeat; subst s2; rewrite <- app_assoc; cbn [app];
    [| now right].
  destruct (loads_features doc') as [[| first rest] | e];
    [reflexivity | reflexivity | now right].
Qed.

Lemma get_class_sent `{Runtime} `{FeatureService} (p : WFSConnectionPool)
  (featureID : scalar) (class_property_name ft_name : string)
  (sent : list string) :
  snd (get_class p featureID class_property_name ft_name sent)
  = (sent ++ [get_class_url p featureID ft_name])%list.
Proof.
  unfold get_class, bind, lift.
  pose proof (wfs_get_sent (get_class_url p featureID ft_name) sent) as Hsent.
  destruct (wfs_get _ sent) as [[doc | e] s1]; cbn [snd] in *; [| exact Hsent].
  cbn [snd]. now destruct (first_node_value doc).
Qed.

Ltac wfs_step :=
  match goal with
  | |- context [get_feature ?p ?kw ?s] =>
      let Hsent := fresh "Hsent" in
      pose proof (get_feature_sent p kw s) as Hsent;
      destruct (get_feature p kw s) as [[? | ?] ?];
      [| destruct Hsent]; subst
  | |- context [get_class ?p ?f ?n ?t ?s] =>
      let Hsent := fresh "Hsent" in
      pose proof (get_class_sent p f n t s) as Hsent;
      destruct (get_class p f n t s) as [[? | ?] ?];
      cbn [snd] in Hsent; subst
  | |- context [match ?x with _ => _ end] =>
      lazymatch x with
      | context [get_feature] => fail
      | context [get_class] => fail
      | _ => destruct x
      end
  end.

Ltac wfs_trace :=
  cbn [fst snd];
  first
    [ exists []; split; [now rewrite app_nil_r |]
    | eexists; split; [rewrite <- ?app_assoc; reflexivity |] ].

Ltac wfs_outcome :=
  cbn [length]; try lia;
  first
    [ eexists; reflexivity
    | left; split; reflexivity
    | right; left; split; [reflexivity | eexists; reflexivity]
    | right; right; do 4 eexists; split; reflexivity ].

(** C4, as amended: every call of [get_feature] sends the capabilities
    request of the existence check before anything else, whatever was sent
    before.  A trajectory query that returns has sent, for a literal
    classification, that check and one feature request; for an attribute
    classification, nothing when it returns [None], the check and one feature
    request when it returns the empty list, and these two followed by one
    class lookup when it returns a pair.  A query that raises has sent at
    most three requests. *)
Theorem wfs_requests_per_trajectory `{Runtime} `{FeatureService}
  (wfs_poll : WFSConnectionPool) (feature_type : string)
  (temporal : temporal_doc) (x y : Q) (obs : obs_doc)
  (geom_property : geom_property_doc) (c : classification_class)
  (start_date end_date : scalar) (sent : list string) :
  let check := capabilities_url wfs_poll in
  let run :=
    wfs_get_trajectory wfs_poll feature_type temporal x y obs geom_property c
      start_date end_date sent in
  (forall kwargs s, exists l,
      snd (get_feature wfs_poll kwargs s) = (s ++ check :: l)%list)
  /\ exists l,
       snd run = (sent ++ l)%list
       /\ match fst run with
          | Ok v =>
              match classification_kind_of c with
              | Literal =>
                  exists kwargs, l = [check; get_feature_url wfs_poll kwargs]
              | Attribute =>
                  (v = ReturnNone /\ l = [])
                  \/ (v = ReturnList []
                      /\ exists kwargs,
                           l = [check; get_feature_url wfs_poll kwargs])
                  \/ (exists kwargs featureID label date,
                        v = ReturnList [label; date]
                        /\ l = [check; get_feature_url wfs_poll kwargs;
                                get_class_url wfs_poll featureID (get_name c)])
              end
          | Raise _ => (length l <= 3)%nat
          end.
Proof.
  cbv zeta. split.
  - intros kwargs s. pose proof (get_feature_sent wfs_poll kwargs s) as Hsent.
    destruct (get_feature wfs_poll kwargs s) as [[r | e] s']; cbn [snd].
    + subst s'. eexists. reflexivity.
    + destruct Hsent as [-> | ->]; eexists; reflexivity.
  - unfold classification_kind_of, wfs_get_trajectory.
    destruct (String.eqb (get_type c) "Literal");
      destruct (String.eqb (temporal_type temporal) "STRING");
      cbn [andb negb]; unfold bind, lift, ret, raise;
      repeat (cbn [fst snd]; wfs_step); wfs_trace; wfs_outcome.
Qed.

(** C4 as stated fails: a literal query sends two requests, not one, and a
    second query on the same connection pool sends the capabilities request
    of the existence check again. *)
Lemma wfs_existence_check_counterexample :
  let first :=
    @wfs_get_trajectory demo_runtime (demo_feature_service [demo_feature])
      demo_pool "deter" date_temporal (-50 # 1) (-10 # 1) demo_typed_obs
      demo_geom_property literal_class PNone PNone [] in
  let second :=
    @wfs_get_trajectory demo_runtime (demo_feature_service [demo_feature])
      demo_pool "deter" date_temporal (-50 # 1) (-10 # 1) demo_typed_obs
      demo_geom_property literal_class PNone PNone (snd first) in
  count_occ string_dec (snd first) (capabilities_url demo_pool) = 1%nat
  /\ length (snd first) = 2%nat
  /\ count_occ string_dec (snd second) (capabilities_url demo_pool) = 2%nat
  /\ length (snd second) = 4%nat.
Proof. vm_compute. repeat split; reflexivity. Qed.

(** ** The cache of the raster sampler *)

Example get_image_twice :
  let st1 := snd (@get_image demo_runtime demo_raster_service demo_wcs
                    (demo_image_args 1) empty_wcs_state) in
  @get_image demo_runtime demo_raster_service demo_wcs (demo_image_args 1) st1
  = (Ok (Some 2), st1).
Proof. vm_compute. reflexivity. Qed.

Lemma py_eqb_refl (a : scalar) : py_eqb a a = true.
Proof.
  destruct a as [| b | z | q | s]; cbn;
    first [reflexivity | apply Qeq_bool_refl | apply String.eqb_refl].
Qed.

Lemma py_eqb_sym (a b : scalar) : py_eqb a b = py_eqb b a.
Proof.
  destruct a, b; cbn;
    first [reflexivity | apply Qeq_bool_comm | apply String.eqb_sym].
Qed.

Lemma py_eqb_trans (a b c : scalar) :
  py_eqb a b = true -> py_eqb b c = true -> py_eqb a c = true.
Proof.
  destruct a, b, c; cbn; try discriminate; try (intros; reflexivity);
    first
      [ apply Qeq_bool_trans
      | intros Hab Hbc; apply String.eqb_eq in Hab, Hbc; subst;
        apply String.eqb_refl ].
Qed.

Lemma image_args_eqb_refl (a : image_args) : image_args_eqb a a = true.
Proof. unfold image_args_eqb. now rewrite !py_eqb_refl. Qed.

Lemma image_args_eqb_sym (a b : image_args) :
  image_args_eqb a b = image_args_eqb b a.
Proof.
  unfold image_args_eqb.
  repeat match goal with |- andb _ _ = andb _ _ => f_equal end;
    apply py_eqb_sym.
Qed.

Lemma image_args_eqb_trans (a b c : image_args) :
  image_args_eqb a b = true -> image_args_eqb b c = true ->
  image_args_eqb a c = true.
Proof.
  unfold image_args_eqb. rewrite !andb_true_iff.
  intros Hab Hbc.
  repeat match goal with H : _ /\ _ |- _ => destruct H end.
  repeat split; eapply py_eqb_trans; eassumption.
Qed.

Lemma image_key_eqb_refl (k : image_key) : image_key_eqb k k = true.
Proof.
  unfold image_key_eqb. now rewrite Nat.eqb_refl, image_args_eqb_refl.
Qed.

Lemma image_key_eqb_sym (k1 k2 : image_key) :
  image_key_eqb k1 k2 = image_key_eqb k2 k1.
Proof.
  unfold image_key_eqb. now rewrite Nat.eqb_sym, image_args_eqb_sym.
Qed.

Lemma image_key_eqb_trans (k1 k2 k3 : image_key) :
  image_key_eqb k1 k2 = true -> image_key_eqb k2 k3 = true ->
  image_key_eqb k1 k3 = true.
Proof.
  unfold image_key_eqb. rewrite !andb_true_iff.
  intros [Ho12 Ha12] [Ho23 Ha23]. split.
  - apply Nat.eqb_eq in Ho12, Ho23. apply Nat.eqb_eq. congruence.
  - eapply image_args_eqb_trans; eassumption.
Qed.

(** Equal keys match the same entries. *)
Lemma image_key_eqb_congr (k k' e : image_key) :
  image_key_eqb k k' = true -> image_key_eqb k e = image_key_eqb k' e.
Proof.
  intros Hkk.
  destruct (image_key_eqb k' e) eqn:Hk'e.
  - eapply image_key_eqb_trans; eassumption.
  - destruct (image_key_eqb k e) eqn:Hke; [| reflexivity].
    rewrite image_key_eqb_sym in Hkk.
    now rewrite (image_key_eqb_trans _ _ _ Hkk Hke) in Hk'e.
Qed.

Lemma lru_find_congr (k k' : image_key) (c : lru) :
  image_key_eqb k k' = true -> lru_find k c = lru_find k' c.
Proof.
  intros Hkk. induction c as [| [k1 v1] c IH]; [reflexivity |].
  cbn [lru_find]. rewrite (image_key_eqb_congr k k' k1 Hkk), IH. reflexivity.
Qed.

Lemma lru_find_matches (k k1 : image_key) (v1 : option Z) (c : lru) :
  lru_find k c = Some (k1, v1) -> image_key_eqb k k1 = true.
Proof.
  induction c as [| [k2 v2] c IH]; [discriminate |].
  cbn [lru_find]. destruct (image_key_eqb k k2) eqn:Hk2; [| exact IH].
  now intros [= <- <-].
Qed.

Lemma lru_find_None (k : image_key) (c : lru) :
  lru_find k c = None ->
  Forall (fun entry => image_key_eqb k (fst entry) = false) c.
Proof.
  induction c as [| [k2 v2] c IH]; [constructor |].
  cbn [lru_find]. destruct (image_key_eqb k k2) eqn:Hk2; [discriminate |].
  intros Hnone. constructor; [exact Hk2 | exact (IH Hnone)].
Qed.

Lemma lru_find_None_iff (k : image_key) (c : lru) :
  lru_find k c = None
  <-> Forall (fun entry => image_key_eqb k (fst entry) = false) c.
Proof.
  split; [apply lru_find_None |].
  induction 1 as [| [k1 v1] c Hk1 _ IH]; [reflexivity |].
  cbn [lru_find]. cbn [fst] in Hk1. now rewrite Hk1.
Qed.

Lemma lru_find_In (k k1 : image_key) (v1 : option Z) (c : lru) :
  lru_find k c = Some (k1, v1) -> In (k1, v1) c.
Proof.
  induction c as [| [k2 v2] c IH]; [discriminate |].
  cbn [lru_find]. destruct (image_key_eqb k k2).
  - intros [= <- <-]. now left.
  - intros Hfind. right. exact (IH Hfind).
Qed.

(** Two keys that match one entry are equal. *)
Lemma image_key_eqb_common (k k' e : image_key) :
  image_key_eqb k e = true -> image_key_eqb k' e = true ->
  image_key_eqb k' k = true.
Proof.
  intros Hke Hk'e. rewrite image_key_eqb_sym in Hke.
  eapply image_key_eqb_trans; eassumption.
Qed.

Lemma image_key_eqb_false_l (k k' e : image_key) :
  image_key_eqb k k' = true -> image_key_eqb k e = false ->
  image_key_eqb k' e = false.
Proof. intros Hkk Hke. now rewrite <- (image_key_eqb_congr k k' e Hkk). Qed.

(** What holds of every entry still holds once an entry is removed. *)
Lemma Forall_lru_remove (P : image_key * option Z -> Prop) (k : image_key)
  (c : lru) :
  Forall P c -> Forall P (lru_remove k c).
Proof.
  induction 1 as [| [k1 v1] c Hhead Htail IH]; [constructor |].
  cbn [lru_remove]. destruct (image_key_eqb k k1); [exact Htail |].
  constructor; assumption.
Qed.

Lemma Forall_firstn_lru (P : image_key * option Z -> Prop) (n : nat) (c : lru) :
  Forall P c -> Forall P (firstn n c).
Proof.
  intros Hall. revert n. induction Hall as [| e c Hhead Htail IH]; intros n.
  - destruct n; constructor.
  - destruct n as [| n]; cbn [firstn]; constructor; [exact Hhead | apply IH].
Qed.

Lemma lru_nodup_remove (k : image_key) (c : lru) :
  lru_nodup c -> lru_nodup (lru_remove k c).
Proof.
  induction 1 as [| k1 v1 c Hfresh Hc IH]; [constructor |].
  cbn [lru_remove]. destruct (image_key_eqb k k1); [exact Hc |].
  constructor; [apply Forall_lru_remove, Hfresh | exact IH].
Qed.

Lemma lru_nodup_firstn (n : nat) (c : lru) :
  lru_nodup c -> lru_nodup (firstn n c).
Proof.
  intros Hc. revert n. induction Hc as [| k1 v1 c Hfresh Hc IH]; intros n.
  - destruct n; constructor.
  - destruct n as [| n]; cbn [firstn]; constructor;
      [apply Forall_firstn_lru, Hfresh | apply IH].
Qed.

Lemma lru_nodup_front (front back : lru) :
  lru_nodup (front ++ back)%list -> lru_nodup front.
Proof.
  induction front as [| [k1 v1] front IH]; [constructor |].
  cbn [app]. inversion 1 as [| ? ? ? Hfresh Hrest]; subst.
  apply Forall_app in Hfresh as [Hfresh _].
  constructor; [exact Hfresh | exact (IH Hrest)].
Qed.

(** In a cache without duplicates, once the entry of a key is removed no
    entry has that key. *)
Lemma lru_remove_gone (k : image_key) (c : lru) :
  lru_nodup c ->
  Forall (fun entry => image_key_eqb k (fst entry) = false) (lru_remove k c).
Proof.
  induction 1 as [| k1 v1 c Hfresh Hc IH]; [constructor |].
  cbn [lru_remove]. destruct (image_key_eqb k k1) eqn:Hk1.
  - rewrite image_key_eqb_sym in Hk1.
    eapply Forall_impl; [exact Hfresh |]. cbn beta.
    intros entry Hentry. exact (image_key_eqb_false_l k1 k _ Hk1 Hentry).
  - constructor; [exact Hk1 | exact IH].
Qed.

(** A hit moves the entry found to the front: still no duplicates. *)
Lemma lru_nodup_hit (k k1 : image_key) (v1 : option Z) (c : lru) :
  lru_nodup c ->
  lru_find k c = Some (k1, v1) ->
  lru_nodup ((k1, v1) :: lru_remove k c).
Proof.
  intros Hc Hfind. constructor; [| apply lru_nodup_remove, Hc].
  apply lru_find_matches in Hfind.
  eapply Forall_impl; [exact (lru_remove_gone k c Hc) |]. cbn beta.
  intros entry Hentry. exact (image_key_eqb_false_l k k1 _ Hfind Hentry).
Qed.

(** The entries before the entry of [k] have other keys. *)
Lemma lru_nodup_before (k k0 : image_key) (v : option Z) (front back : lru) :
  lru_nodup (front ++ (k0, v) :: back)%list ->
  image_key_eqb k k0 = true ->
  Forall (fun entry => image_key_eqb k (fst entry) = false) front.
Proof.
  intros Hc Hk0. induction front as [| [k1 v1] front IH]; [constructor |].
  cbn [app] in Hc. inversion Hc as [| ? ? ? Hfresh Hrest]; subst.
  constructor; [| exact (IH Hrest)].
  apply Forall_app in Hfresh as [_ Hfresh].
  inversion Hfresh as [| ? ? Hk1k0 _]; subst. cbn [fst] in *.
  destruct (image_key_eqb k k1) eqn:Hkk1; [| reflexivity].
  rewrite (image_key_eqb_congr k k1 k0 Hkk1) in Hk0. congruence.
Qed.

Lemma lru_find_cached (k k0 : image_key) (v : option Z) (front back : lru) :
  lru_nodup (front ++ (k0, v) :: back)%list ->
  image_key_eqb k k0 = true ->
  lru_find k (front ++ (k0, v) :: back)%list = Some (k0, v).
Proof.
  intros Hc Hk0. pose proof (lru_nodup_before k k0 v front back Hc Hk0) as Hfront.
  clear Hc. induction Hfront as [| [k1 v1] front Hk1 _ IH]; cbn [app lru_find].
  - now rewrite Hk0.
  - cbn [fst] in Hk1. now rewrite Hk1.
Qed.

Lemma length_lru_remove (k : image_key) (c : lru) :
  (length c <= S (length (lru_remove k c)))%nat.
Proof.
  induction c as [| [k1 v1] c IH]; cbn [lru_remove length]; [lia |].
  destruct (image_key_eqb k k1); cbn [length]; lia.
Qed.

(** Entries with distinct keys, each the key of one of the calls [m], are no
    more than the distinct keys of [m]. *)
Lemma lru_nodup_length (m : list image_key) :
  forall front : lru,
  lru_nodup front -> used_by m front ->
  (length front <= length (distinct_keys m))%nat.
Proof.
  unfold used_by.
  induction m as [| y m IH]; intros front Hnodup Hused.
  - destruct front as [| entry front]; [cbn; lia |].
    inversion Hused as [| ? ? (k' & [] & _) _].
  - cbn [distinct_keys]. destruct (existsb (image_key_eqb y) m) eqn:Hdup.
    + apply IH; [exact Hnodup |].
      apply existsb_exists in Hdup as (y' & Hy' & Hyy').
      eapply Forall_impl; [exact Hused |]. cbn beta.
      intros entry (k' & [<- | Hin] & Hentry).
      * exists y'. split; [exact Hy' |].
        eapply image_key_eqb_trans; eassumption.
      * exists k'. split; assumption.
    + pose proof (length_lru_remove y front) as Hlen.
      assert (Hrest : (length (lru_remove y front)
                       <= length (distinct_keys m))%nat).
      { apply IH; [apply lru_nodup_remove, Hnodup |].
        pose proof (lru_remove_gone y front Hnodup) as Hgone.
        pose proof (Forall_lru_remove _ y front Hused) as Hused'.
        rewrite List.Forall_forall in *.
        intros entry Hentry.
        destruct (Hused' entry Hentry) as (k' & [<- | Hin] & Hmatch).
        - specialize (Hgone entry Hentry). cbn beta in Hgone.
          rewrite image_key_eqb_sym in Hgone. congruence.
        - exists k'. split; assumption. }
      cbn [length]. lia.
Qed.

(** Entries that calls put before the entry of [k] were put there by calls
    with another key. *)
Lemma used_by_other_calls (k : image_key) (calls : list image_key) (front : lru) :
  Forall (fun entry => image_key_eqb k (fst entry) = false) front ->
  used_by calls front -> used_by (other_calls k calls) front.
Proof.
  unfold used_by, other_calls. rewrite !List.Forall_forall.
  intros Hfront Hused entry Hentry.
  destruct (Hused entry Hentry) as (k' & Hin & Hmatch).
  exists k'. split; [| exact Hmatch].
  apply filter_In. split; [exact Hin |].
  destruct (image_key_eqb k' k) eqn:Hk'k; [| reflexivity].
  specialize (Hfront entry Hentry). cbn beta in Hfront.
  rewrite image_key_eqb_sym in Hfront.
  rewrite (image_key_eqb_trans _ _ _ Hmatch Hk'k) in Hfront. discriminate.
Qed.

Lemma lru_remove_split (k' k0 : image_key) (v : option Z) (front back : lru) :
  image_key_eqb k' k0 = false ->
  exists front' back',
    lru_remove k' (front ++ (k0, v) :: back)%list
    = (front' ++ (k0, v) :: back')%list
    /\ forall P : image_key * option Z -> Prop, Forall P front -> Forall P front'.
Proof.
  intros Hk'k0. induction front as [| [k1 v1] front IH]; cbn [app lru_remove].
  - rewrite Hk'k0. exists [], (lru_remove k' back). split; [reflexivity |].
    intros P _. constructor.
  - destruct (image_key_eqb k' k1).
    + exists front, back. split; [reflexivity |].
      intros P HP. now inversion HP.
    + destruct IH as (front' & back' & -> & Hsub).
      exists ((k1, v1) :: front'), back'. split; [reflexivity |].
      intros P HP. inversion HP; subst. constructor; [assumption |].
      now apply Hsub.
Qed.

Lemma firstn_keeps {A} (n : nat) (front back : list A) (x : A) :
  (length front < n)%nat ->
  exists back', firstn n (front ++ x :: back)%list = (front ++ x :: back')%list.
Proof.
  revert n. induction front as [| y front IH]; intros n Hlen.
  - destruct n as [| n]; [cbn in Hlen; lia |]. cbn. eexists. reflexivity.
  - destruct n as [| n]; [cbn in Hlen; lia |]. cbn [app firstn length] in *.
    destruct (IH n ltac:(lia)) as (back' & ->). eexists. reflexivity.
Qed.

(** A call leaves the cache well formed and keeps the result of [k], as long
    as the distinct other keys of all the calls are fewer than the size of
    the cache. *)
Lemma get_image_keeps `{Runtime} `{RasterService} (self : WCS) (a : image_args)
  (st : wcs_state) (k : image_key) (v : option Z) (calls : list image_key) :
  (length (distinct_keys (other_calls k calls)) < lru_maxsize)%nat ->
  In (self, a) calls ->
  cached_behind k v calls (cache st) ->
  cached_behind k v calls (cache (snd (get_image self a st))).
Proof.
  intros Hbound Hcall (Hnodup & front & k0 & back & Hc & Hk0 & Hused).
  unfold get_image.
  destruct (lru_find (self, a) (cache st)) as [[k1 v1] |] eqn:Hfind.
  - cbn [snd cache]. split; [exact (lru_nodup_hit _ _ _ _ Hnodup Hfind) |].
    destruct (image_key_eqb (self, a) k) eqn:Hsame.
    + rewrite (lru_find_congr _ _ _ Hsame), Hc in Hfind. rewrite Hc in Hnodup.
      rewrite (lru_find_cached k k0 v front back Hnodup Hk0) in Hfind.
      injection Hfind as <- <-.
      exists [], k0, (lru_remove (self, a) (cache st)).
      repeat split; [exact Hk0 | constructor].
    + assert (Hk'k0 : image_key_eqb (self, a) k0 = false).
      { destruct (image_key_eqb (self, a) k0) eqn:Heq; [| reflexivity].
        rewrite (image_key_eqb_common k (self, a) k0 Hk0 Heq) in Hsame.
        discriminate. }
      destruct (lru_remove_split (self, a) k0 v front back Hk'k0)
        as (front' & back' & Hremove & Hsub).
      exists ((k1, v1) :: front'), k0, back'. rewrite Hc, Hremove.
      repeat split; [exact Hk0 |].
      constructor; [| exact (Hsub _ Hused)].
      exists (self, a). split; [exact Hcall |]. cbn [fst].
      rewrite image_key_eqb_sym. eapply lru_find_matches, Hfind.
  - destruct (get_image_body self a (fetched st)) as [[v' | e] fetched'];
      cbn [snd cache].
    + apply lru_find_None in Hfind.
      assert (Hnodup' : lru_nodup ((self, a, v') :: cache st))
        by (constructor; assumption).
      split; [apply lru_nodup_firstn, Hnodup' |].
      rewrite Hc in *.
      change ((self, a, v') :: front ++ (k0, v) :: back)%list
        with (((self, a, v') :: front) ++ (k0, v) :: back)%list in *.
      assert (Hused' : used_by calls ((self, a, v') :: front)).
      { constructor; [| exact Hused].
        exists (self, a). split; [exact Hcall | apply image_key_eqb_refl]. }
      pose proof (lru_nodup_before k k0 v _ back Hnodup' Hk0) as Hbefore.
      pose proof (lru_nodup_length (other_calls k calls) _
                    (lru_nodup_front _ _ Hnodup')
                    (used_by_other_calls k calls _ Hbefore Hused')) as Hlen.
      destruct (firstn_keeps lru_maxsize ((self, a, v') :: front) back (k0, v))
        as (back' & Hfirstn); [unfold image_key, lru in *; lia |].
      exists ((self, a, v') :: front), k0, back'.
      repeat split; assumption.
    + split; [exact Hnodup |]. exists front, k0, back. repeat split; assumption.
Qed.

(** A call that returns leaves its result at the head of the cache. *)
Lemma get_image_caches `{Runtime} `{RasterService} (self : WCS) (a : image_args)
  (st st1 : wcs_state) (v : option Z) (calls : list image_key) :
  lru_nodup (cache st) ->
  get_image self a st = (Ok v, st1) ->
  cached_behind (self, a) v calls (cache st1).
Proof.
  intros Hnodup. unfold get_image.
  destruct (lru_find (self, a) (cache st)) as [[k1 v1] |] eqn:Hfind.
  - intros [= <- <-]. cbn [cache].
    split; [exact (lru_nodup_hit _ _ _ _ Hnodup Hfind) |].
    exists [], k1, (lru_remove (self, a) (cache st)).
    repeat split; [eapply lru_find_matches, Hfind | constructor].
  - destruct (get_image_body self a (fetched st)) as [[v' | e] fetched'];
      [| discriminate].
    intros [= <- <-]. cbn [cache]. apply lru_find_None in Hfind.
    split.
    + apply (lru_nodup_firstn lru_maxsize ((self, a, v') :: cache st)).
      constructor; assumption.
    + exists [], (self, a), (firstn (pred lru_maxsize) (cache st)).
      repeat split; [apply image_key_eqb_refl | constructor].
Qed.

Lemma run_calls_keeps `{Runtime} `{RasterService} (k : image_key)
  (v : option Z) (calls : list image_key) (run : list image_key) :
  forall st : wcs_state,
  (length (distinct_keys (other_calls k calls)) < lru_maxsize)%nat ->
  incl run calls ->
  cached_behind k v calls (cache st) ->
  cached_behind k v calls (cache (run_calls run st)).
Proof.
  induction run as [| [self a] run IH]; intros st Hbound Hincl Hcached.
  - exact Hcached.
  - cbn [run_calls]. apply IH; [exact Hbound | |].
    + intros k' Hk'. apply Hincl. now right.
    + apply get_image_keeps; [exact Hbound | | exact Hcached].
      apply Hincl. now left.
Qed.

(** C6, as amended: after a call of [get_image] that returned, and further
    calls of [get_image], whatever they return, among whose arguments fewer
    than 128 distinct ones differ from those of the first call, a call with
    the same arguments on the same client returns the same value and fetches
    nothing.  The cache is taken free of duplicate keys to begin with, as it
    is when the process starts. *)
Theorem get_image_memoized `{Runtime} `{RasterService} (self : WCS)
  (a : image_args) (st st1 : wcs_state) (v : option Z)
  (calls : list image_key) :
  lru_nodup (cache st) ->
  get_image self a st = (Ok v, st1) ->
  (length (distinct_keys (other_calls (self, a) calls)) < lru_maxsize)%nat ->
  fst (get_image self a (run_calls calls st1)) = Ok v
  /\ fetched (snd (get_image self a (run_calls calls st1)))
     = fetched (run_calls calls st1).
Proof.
  intros Hnodup Hfirst Hcalls.
  apply (get_image_caches self a st st1 v calls Hnodup) in Hfirst.
  apply (run_calls_keeps (self, a) v calls calls st1 Hcalls) in Hfirst;
    [| intros k' Hk'; exact Hk'].
  destruct Hfirst as (Hnodup2 & front & k0 & back & Hc & Hk0 & _).
  unfold get_image. rewrite Hc in *.
  rewrite (lru_find_cached (self, a) k0 v front back Hnodup2 Hk0).
  split; reflexivity.
Qed.

Lemma get_image_memoized_witness :
  fst (@get_image demo_runtime demo_raster_service demo_wcs (demo_image_args 0)
         (@run_calls demo_runtime demo_raster_service
            (demo_calls 3 ++ demo_calls 3)%list
            (snd (@get_image demo_runtime demo_raster_service demo_wcs
                    (demo_image_args 0) empty_wcs_state))))
  = Ok (Some 2).
Proof.
  apply (@get_image_memoized demo_runtime demo_raster_service demo_wcs
           (demo_image_args 0) empty_wcs_state
           (snd (@get_image demo_runtime demo_raster_service demo_wcs
                   (demo_image_args 0) empty_wcs_state))
           (Some 2) (demo_calls 3 ++ demo_calls 3)%list).
  - constructor.
  - vm_compute. reflexivity.
  - vm_compute. lia.
Defined.

(** C6 as stated fails: after 128 calls with other arguments the result of
    the first call is gone from the cache, and the same call fetches again. *)
Lemma get_image_evicted_counterexample :
  let st2 :=
    @run_calls demo_runtime demo_raster_service (demo_calls 128)
      (snd (@get_image demo_runtime demo_raster_service demo_wcs
              (demo_image_args 0) empty_wcs_state)) in
  length (fetched st2) = 129%nat
  /\ length (fetched (snd (@get_image demo_runtime demo_raster_service demo_wcs
                             (demo_image_args 0) st2))) = 130%nat.
Proof. vm_compute. split; reflexivity. Qed.

(** ** The temporal filter of the raster backend *)

Example wcs_within_bounds :
  @wcs_get_trajectory demo_runtime demo_raster_service datasource_utils
    demo_wcs_datasource (demo_kwargs (PStr "2016") PNone) empty_wcs_state
  = (Ok (Some 2),
     {| cache :=
          [((demo_wcs,
             {| arg_image := PStr "datacube:mapbiomas";
                arg_srid := PInt 4326;
                arg_min_x := PFloat (998 # 1000);
                arg_max_x := PFloat (-1002 # 1000);
                arg_min_y := PFloat (1002 # 1000);
                arg_max_y := PFloat (-998 # 1000);
                arg_column := PInt 1; arg_row := PInt 1;
                arg_time := PStr "2017";
                arg_x := PFloat 1; arg_y := PFloat (-1) |}), Some 2)];
        fetched :=
          ["http://localhost/geoserver/wcs?service=WCS&version=1.0.0&request=GetCoverage&COVERAGE=datacube:mapbiomas&CRS=EPSG:4326&RESPONSE_CRS=EPSG:4326&BBOX=998/1000,-1002/1000,1002/1000,-998/1000&FORMAT=GeoTIFF&WIDTH=1&HEIGHT=1&time=2017"] |}).
Proof. vm_compute. reflexivity. Qed.

(** A text coordinate that the geometry library accepts: the coverage is
    fetched, and the projection of the point then refuses the text. *)
Example wcs_text_coordinate :
  let run :=
    @wcs_get_trajectory text_runtime demo_raster_service datasource_utils
      demo_wcs_datasource
      (<["x" := Sc (PStr "1")]> (demo_kwargs PNone PNone)) empty_wcs_state in
  fst run = Raise TypeError /\ length (fetched (snd run)) = 1%nat.
Proof. vm_compute. split; reflexivity. Qed.

Example wcs_unknown_keyword :
  fst (@wcs_get_trajectory demo_runtime demo_raster_service datasource_utils
         demo_wcs_datasource
         (<["geom" := Sc PNone]> (demo_kwargs PNone PNone)) empty_wcs_state)
  = Raise AttributeError.
Proof. vm_compute. reflexivity. Qed.



(** * Further properties of the code *)

(** ** Dates accepted by [get_date_from_str] *)

Lemma make_datetime_valid (y m d : Z) (dt : datetime) :
  make_datetime y m d = Ok dt -> valid_date dt.
Proof.
  unfold make_datetime, valid_date.
  destruct (_ && _) eqn:Hchecks; [| discriminate].
  intros [= <-]. cbn [year month day].
  repeat (apply andb_prop in Hchecks as [Hchecks ?]).
  repeat match goal with
         | H : (_ <=? _) = true |- _ => apply Z.leb_le in H
         end.
  lia.
Qed.

Lemma strptime_valid (s : string) (fmt : list directive) (dt : datetime) :
  strptime s fmt = Ok dt -> valid_date dt.
Proof.
  unfold strptime.
  destruct (match_format fmt s default_fields) as [| [[[y m] d] rest] ms];
    [discriminate |].
  destruct (String.eqb rest ""); [| discriminate].
  apply make_datetime_valid.
Qed.

Lemma parse_cascade_valid (s : string) (dt : datetime) :
  except_ValueError (strptime s fmt_Ymd)
    (except_ValueError (strptime s fmt_Ym) (strptime s fmt_Y)) = Ok dt ->
  valid_date dt.
Proof.
  destruct (strptime s fmt_Ymd) as [d1 | e1] eqn:H1; cbn [except_ValueError].
  - intros [= <-]. eapply strptime_valid, H1.
  - destruct e1; try discriminate.
    destruct (strptime s fmt_Ym) as [d2 | e2] eqn:H2; cbn [except_ValueError].
    + intros [= <-]. eapply strptime_valid, H2.
    + destruct e2; try discriminate. apply strptime_valid.
Qed.

(** X1: whatever the text and the flag, a date that [get_date_from_str]
    returns is a calendar date: year 1 to 9999, month 1 to 12, and a day that
    month of that year has. *)
Theorem get_date_from_str_valid (date date_ref : scalar) (dt : datetime) :
  get_date_from_str date date_ref = Ok dt -> valid_date dt.
Proof.
  unfold get_date_from_str. destruct date as [| b | z | q | s]; try discriminate.
  destruct (except_ValueError _ _) as [d | e] eqn:Hparse; cbn [rbind];
    [| discriminate].
  apply parse_cascade_valid in Hparse.
  destruct (truthy date_ref).
  - apply make_datetime_valid.
  - now intros [= <-].
Qed.

Lemma get_date_from_str_valid_witness :
  valid_date (mkdate 2020 2 29).
Proof.
  apply (get_date_from_str_valid (PStr "2020/02/29") PNone (mkdate 2020 2 29)).
  reflexivity.
Defined.

Lemma days_in_month_le_31 (y m : Z) : days_in_month y m <= 31.
Proof.
  unfold days_in_month.
  destruct (m =? 2); [destruct (is_leap y); lia |].
  destruct (_ || _); lia.
Qed.

(** X2: the flag never moves a date backwards: the date returned under a true
    [date_ref] is in the same year as, and not before, the date the same text
    gives without the flag. *)
Theorem get_date_from_str_date_ref_not_before (s : string)
  (date_ref : scalar) (plain moved : datetime) :
  get_date_from_str (PStr s) PNone = Ok plain ->
  get_date_from_str (PStr s) date_ref = Ok moved ->
  year moved = year plain /\ datetime_ltb moved plain = false.
Proof.
  intros Hplain Hmoved.
  pose proof (days_in_month_le_31 (year plain) (month plain)) as Hdim.
  unfold get_date_from_str in Hplain, Hmoved.
  destruct (except_ValueError _ _) as [d | e] eqn:Hparse;
    cbn [rbind truthy] in *; [| discriminate].
  injection Hplain as ->.
  apply parse_cascade_valid in Hparse as (Hy & Hm & Hd).
  destruct (truthy date_ref).
  - apply make_datetime_Ok in Hmoved as [-> _]. cbn [year].
    split; [reflexivity |]. unfold datetime_ltb. cbn [year month day].
    rewrite Z.ltb_irrefl, Z.eqb_refl. cbn [orb andb].
    apply orb_false_iff. split.
    + apply Z.ltb_ge. lia.
    + apply andb_false_iff. right. apply Z.ltb_ge. lia.
  - injection Hmoved as <-. split; [reflexivity |].
    unfold datetime_ltb. rewrite !Z.ltb_irrefl, !Z.eqb_refl. reflexivity.
Qed.

Lemma get_date_from_str_date_ref_not_before_witness :
  year (mkdate 2020 12 31) = year (mkdate 2020 5 17)
  /\ datetime_ltb (mkdate 2020 12 31) (mkdate 2020 5 17) = false.
Proof.
  apply (get_date_from_str_date_ref_not_before "2020-05-17" (PBool true));
    reflexivity.
Defined.

Lemma replace_slash_idempotent (s : string) :
  replace_slash (replace_slash s) = replace_slash s.
Proof.
  induction s as [| c s IH]; [reflexivity |].
  cbn [replace_slash]. rewrite IH. f_equal.
  destruct (Ascii.eqb c "/") eqn:Hc; [reflexivity | now rewrite Hc].
Qed.

(** X3: slashes and dashes are the same separator: replacing the slashes of a
    text by dashes changes neither the date returned nor the error raised. *)
Theorem get_date_from_str_slashes (s : string) (date_ref : scalar) :
  get_date_from_str (PStr (replace_slash s)) date_ref
  = get_date_from_str (PStr s) date_ref.
Proof. unfold get_date_from_str. now rewrite replace_slash_idempotent. Qed.

Lemma digit_char_facts (n : Z) :
  0 <= n <= 9 ->
  is_digit (digit_char n) = true
  /\ digit_val (digit_char n) = n
  /\ Ascii.eqb (digit_char n) "/" = false.
Proof.
  intros Hn. rewrite <- (Z2Nat.id n) by lia.
  assert (Hm : (Z.to_nat n <= 9)%nat) by lia.
  revert Hm. generalize (Z.to_nat n). intros m Hm.
  do 10 (destruct m as [| m]; [repeat split |]). lia.
Qed.

Lemma match_directive_four_digits (y : Z) (rest : string) :
  0 <= y <= 9999 ->
  match_directive dY (four_digits y rest) = [(y, rest)].
Proof.
  intros Hy. unfold four_digits. cbn [match_directive].
  destruct (digit_char_facts (y / 1000)) as (-> & -> & _); [Z.div_mod_to_equations; lia |].
  destruct (digit_char_facts (y / 100 mod 10)) as (-> & -> & _); [Z.div_mod_to_equations; lia |].
  destruct (digit_char_facts (y / 10 mod 10)) as (-> & -> & _); [Z.div_mod_to_equations; lia |].
  destruct (digit_char_facts (y mod 10)) as (-> & -> & _); [Z.div_mod_to_equations; lia |].
  cbn [andb]. do 2 f_equal. Z.div_mod_to_equations; lia.
Qed.

Lemma replace_slash_four_digits (y : Z) (rest : string) :
  0 <= y <= 9999 ->
  replace_slash (four_digits y rest) = four_digits y (replace_slash rest).
Proof.
  intros Hy. unfold four_digits. cbn [replace_slash].
  destruct (digit_char_facts (y / 1000)) as (_ & _ & ->); [Z.div_mod_to_equations; lia |].
  destruct (digit_char_facts (y / 100 mod 10)) as (_ & _ & ->); [Z.div_mod_to_equations; lia |].
  destruct (digit_char_facts (y / 10 mod 10)) as (_ & _ & ->); [Z.div_mod_to_equations; lia |].
  destruct (digit_char_facts (y mod 10)) as (_ & _ & ->); [Z.div_mod_to_equations; lia |].
  reflexivity.
Qed.

Lemma replace_slash_two_digits (n : Z) (rest : string) :
  0 <= n <= 99 ->
  replace_slash (two_digits n rest) = two_digits n (replace_slash rest).
Proof.
  intros Hn. unfold two_digits. cbn [replace_slash].
  destruct (digit_char_facts (n / 10)) as (_ & _ & ->); [Z.div_mod_to_equations; lia |].
  destruct (digit_char_facts (n mod 10)) as (_ & _ & ->); [Z.div_mod_to_equations; lia |].
  reflexivity.
Qed.

Lemma match_format_cons (d : directive) (fmt : list directive) (s : string)
  (f : fields) :
  match_format (d :: fmt) s f
  = flat_map (fun '(v, rest) => match_format fmt rest (set_field d v f))
      (match_directive d s).
Proof. reflexivity. Qed.

(** The first match of the month directive on a two-digit month. *)
Lemma match_directive_month (m : Z) (rest : string) :
  1 <= m <= 12 ->
  exists others, match_directive dm (two_digits m rest) = (m, rest) :: others.
Proof.
  intros Hm.
  assert (Hcases : m = 1 \/ m = 2 \/ m = 3 \/ m = 4 \/ m = 5 \/ m = 6
                   \/ m = 7 \/ m = 8 \/ m = 9 \/ m = 10 \/ m = 11 \/ m = 12)
    by lia.
  repeat (destruct Hcases as [-> | Hcases]; [eexists; reflexivity |]).
  subst m. eexists; reflexivity.
Qed.

(** The first match of the day directive on a two-digit day. *)
Lemma match_directive_day (d : Z) (rest : string) :
  1 <= d <= 31 ->
  exists others, match_directive dd (two_digits d rest) = (d, rest) :: others.
Proof.
  intros Hd.
  assert (Hcases : d = 1 \/ d = 2 \/ d = 3 \/ d = 4 \/ d = 5 \/ d = 6 \/ d = 7
                   \/ d = 8 \/ d = 9 \/ d = 10 \/ d = 11 \/ d = 12 \/ d = 13
                   \/ d = 14 \/ d = 15 \/ d = 16 \/ d = 17 \/ d = 18 \/ d = 19
                   \/ d = 20 \/ d = 21 \/ d = 22 \/ d = 23 \/ d = 24 \/ d = 25
                   \/ d = 26 \/ d = 27 \/ d = 28 \/ d = 29 \/ d = 30 \/ d = 31)
    by lia.
  repeat (destruct Hcases as [-> | Hcases]; [eexists; reflexivity |]).
  subst d. eexists; reflexivity.
Qed.

(** After a two-digit month at the end of the text, or followed by nothing
    but it, no dash can be matched. *)
Lemma match_format_month_end (m : Z) (f : fields) :
  1 <= m <= 12 ->
  flat_map (fun '(v, rest) => match_format [lit "-"; dd] rest (set_field dm v f))
    (match_directive dm (two_digits m "")) = [].
Proof.
  intros Hm.
  assert (Hcases : m = 1 \/ m = 2 \/ m = 3 \/ m = 4 \/ m = 5 \/ m = 6
                   \/ m = 7 \/ m = 8 \/ m = 9 \/ m = 10 \/ m = 11 \/ m = 12)
    by lia.
  destruct f as [[fy fm] fd].
  repeat (destruct Hcases as [-> | Hcases]; [reflexivity |]).
  subst m. reflexivity.
Qed.

Lemma strptime_Ymd_text (y m d : Z) :
  1 <= y <= 9999 -> 1 <= m <= 12 -> 1 <= d <= 31 ->
  strptime (text_Ymd y m d) fmt_Ymd = make_datetime y m d.
Proof.
  intros Hy Hm Hd. unfold strptime, text_Ymd, fmt_Ymd.
  rewrite match_format_cons, match_directive_four_digits by lia.
  cbn [flat_map]. rewrite match_format_cons.
  cbn [match_directive Ascii.eqb Bool.eqb flat_map].
  rewrite match_format_cons.
  destruct (match_directive_month m (String "-" (two_digits d "")) Hm)
    as (others & ->).
  cbn [flat_map]. rewrite match_format_cons.
  cbn [match_directive Ascii.eqb Bool.eqb flat_map].
  rewrite match_format_cons.
  destruct (match_directive_day d "" Hd) as (others' & ->).
  cbn [flat_map match_format app set_field default_fields].
  reflexivity.
Qed.

Lemma strptime_Ym_text (y m : Z) :
  1 <= y <= 9999 -> 1 <= m <= 12 ->
  strptime (text_Ym y m) fmt_Ymd = Raise ValueError
  /\ strptime (text_Ym y m) fmt_Ym = make_datetime y m 1.
Proof.
  intros Hy Hm. unfold strptime, text_Ym, fmt_Ymd, fmt_Ym. split.
  - rewrite match_format_cons, match_directive_four_digits by lia.
    cbn [flat_map]. rewrite match_format_cons.
    cbn [match_directive Ascii.eqb Bool.eqb flat_map].
    rewrite match_format_cons, match_format_month_end by lia.
    reflexivity.
  - rewrite match_format_cons, match_directive_four_digits by lia.
    cbn [flat_map]. rewrite match_format_cons.
    cbn [match_directive Ascii.eqb Bool.eqb flat_map].
    rewrite match_format_cons.
    destruct (match_directive_month m "" Hm) as (others & ->).
    cbn [flat_map match_format app set_field default_fields].
    reflexivity.
Qed.

Lemma strptime_Y_text (y : Z) :
  1 <= y <= 9999 ->
  strptime (text_Y y) fmt_Ymd = Raise ValueError
  /\ strptime (text_Y y) fmt_Ym = Raise ValueError
  /\ strptime (text_Y y) fmt_Y = make_datetime y 1 1.
Proof.
  intros Hy. unfold strptime, text_Y, fmt_Ymd, fmt_Ym, fmt_Y.
  rewrite !match_format_cons, !match_directive_four_digits by lia.
  repeat split.
Qed.

Lemma make_datetime_of_valid (y m d : Z) :
  valid_date (mkdate y m d) -> make_datetime y m d = Ok (mkdate y m d).
Proof.
  unfold valid_date, make_datetime. cbn [year month day].
  intros (Hy & Hm & Hd).
  repeat match goal with
         | |- context [?a <=? ?b] =>
             let H := fresh in
             destruct (a <=? b) eqn:H; [| apply Z.leb_gt in H; lia]
         end.
  reflexivity.
Qed.

Lemma days_in_month_ge_28 (y m : Z) : 28 <= days_in_month y m.
Proof.
  unfold days_in_month.
  destruct (m =? 2); [destruct (is_leap y); lia |].
  destruct (_ || _); lia.
Qed.

(** X4: every calendar date is accepted in its zero-padded spellings:
    YYYY-MM-DD gives the date itself, YYYY-MM the first day of that month
    and YYYY the first of January of that year. *)
Theorem get_date_from_str_canonical (y m d : Z) :
  valid_date (mkdate y m d) ->
  get_date_from_str (PStr (text_Ymd y m d)) PNone = Ok (mkdate y m d)
  /\ get_date_from_str (PStr (text_Ym y m)) PNone = Ok (mkdate y m 1)
  /\ get_date_from_str (PStr (text_Y y)) PNone = Ok (mkdate y 1 1).
Proof.
  intros Hvalid. pose proof Hvalid as (Hy & Hm & Hd).
  cbn [year month day] in *.
  pose proof (days_in_month_le_31 y m) as Hle.
  pose proof (days_in_month_ge_28 y m) as Hge.
  pose proof (days_in_month_ge_28 y 1) as Hjan.
  unfold get_date_from_str. cbn [truthy]. repeat split.
  - unfold text_Ymd.
    rewrite replace_slash_four_digits by lia. cbn [replace_slash Ascii.eqb Bool.eqb].
    rewrite replace_slash_two_digits by lia. cbn [replace_slash Ascii.eqb Bool.eqb].
    rewrite replace_slash_two_digits by lia. cbn [replace_slash].
    fold (text_Ymd y m d). rewrite strptime_Ymd_text by lia.
    now rewrite (make_datetime_of_valid y m d Hvalid).
  - unfold text_Ym.
    rewrite replace_slash_four_digits by lia. cbn [replace_slash Ascii.eqb Bool.eqb].
    rewrite replace_slash_two_digits by lia. cbn [replace_slash].
    fold (text_Ym y m).
    destruct (strptime_Ym_text y m) as [-> ->]; [lia | lia |].
    rewrite make_datetime_of_valid; [reflexivity |].
    unfold valid_date. cbn [year month day]. lia.
  - unfold text_Y.
    rewrite replace_slash_four_digits by lia. cbn [replace_slash].
    fold (text_Y y).
    destruct (strptime_Y_text y) as (-> & -> & ->); [lia |].
    rewrite make_datetime_of_valid; [reflexivity |].
    unfold valid_date. cbn [year month day]. lia.
Qed.

Lemma get_date_from_str_canonical_witness :
  get_date_from_str (PStr "2024-02-29") PNone = Ok (mkdate 2024 2 29)
  /\ get_date_from_str (PStr "2024-02") PNone = Ok (mkdate 2024 2 1)
  /\ get_date_from_str (PStr "2024") PNone = Ok (mkdate 2024 1 1).
Proof.
  apply (get_date_from_str_canonical 2024 2 29).
  unfold valid_date. cbn [year month day].
  replace (days_in_month 2024 2) with 29 by reflexivity. lia.
Defined.

(** ** Statements of the PostGIS backend *)

(** X5: the statement cannot be built exactly when the classification is not
    a literal and [obs] has no key [class_property]; the error is then
    [KeyError], and [get_trajectory] raises it without executing anything. *)
Theorem build_query_fails_iff `{Runtime} `{SqlExecutor} (feature_type : string)
  (temporal : temporal_doc) (x y : Q) (obs : obs_doc)
  (geom_property : geom_property_doc) (c : classification_class)
  (start_date end_date : scalar) (executed : list string) :
  (is_Ok (build_query feature_type temporal x y obs geom_property c
            start_date end_date) = false
   <-> classification_kind_of c = Attribute /\ class_property obs = None)
  /\ (is_Ok (build_query feature_type temporal x y obs geom_property c
               start_date end_date) = false ->
      build_query feature_type temporal x y obs geom_property c
        start_date end_date = Raise KeyError
      /\ pg_get_trajectory feature_type temporal x y obs geom_property c
           start_date end_date executed = (Raise KeyError, executed)).
Proof.
  unfold pg_get_trajectory, bind, lift, classification_kind_of, build_query.
  destruct (String.eqb (get_type c) "Literal");
    destruct (String.eqb (temporal_type temporal) "STRING"); cbn [andb negb];
    destruct (class_property obs) as [cp |]; cbn [getitem rbind is_Ok];
    (split; [split; [discriminate || (intros _; split; reflexivity)
                    | intros [Hkind Hnone]; discriminate || reflexivity]
            | discriminate || (intros _; split; reflexivity)]).
Qed.

Example pg_missing_class_property :
  @pg_get_trajectory demo_runtime one_row_db "deter" string_temporal
    (-50 # 1) (-10 # 1)
    {| temporal_property := "2017"; class_property := None;
       class_property_name := None |}
    demo_geom_property attribute_class PNone PNone []
  = (Raise KeyError, []).
Proof. reflexivity. Qed.

(** X6: once the statement is built, [get_trajectory] runs that statement and
    no other: once when the first run fails or finds no row, twice when it
    finds rows.  An error of either run is raised as it is, and a second run
    that finds no row raises [IndexError]. *)
Theorem pg_get_trajectory_statements `{Runtime} `{SqlExecutor}
  (feature_type : string) (temporal : temporal_doc) (x y : Q) (obs : obs_doc)
  (geom_property : geom_property_doc) (c : classification_class)
  (start_date end_date : scalar) (q : query) (executed : list string) :
  build_query feature_type temporal x y obs geom_property c start_date end_date
  = Ok q ->
  let run :=
    pg_get_trajectory feature_type temporal x y obs geom_property c
      start_date end_date executed in
  match fetchall executed (sql q) with
  | Raise e => run = (Raise e, (executed ++ [sql q])%list)
  | Ok [] => run = (Ok None, (executed ++ [sql q])%list)
  | Ok (_ :: _) =>
      snd run = (executed ++ [sql q; sql q])%list
      /\ fst run
         = match fetchall (executed ++ [sql q])%list (sql q) with
           | Raise e => Raise e
           | Ok [] => Raise IndexError
           | Ok (first :: _) => Ok (Some first)
           end
  end.
Proof.
  intros Hq. cbv zeta.
  unfold pg_get_trajectory, bind, lift, execute_query, ret, raise.
  rewrite Hq.
  destruct (fetchall executed (sql q)) as [[| r rs] | e]; try reflexivity.
  rewrite <- app_assoc. cbn [app].
  destruct (fetchall (executed ++ [sql q])%list (sql q)) as [[| r' rs'] | e];
    split; reflexivity.
Qed.

Lemma pg_get_trajectory_statements_witness :
  snd (@pg_get_trajectory demo_runtime vanishing_db "deter" string_temporal
         (-50 # 1) (-10 # 1) demo_obs demo_geom_property literal_class
         PNone PNone [])
  = ["SELECT 'Forest' AS classe, '2017' AS data FROM deter WHERE ST_Intersects(geom, ST_GeomFromText('POINT (-50/1 -10/1)', 4326))";
     "SELECT 'Forest' AS classe, '2017' AS data FROM deter WHERE ST_Intersects(geom, ST_GeomFromText('POINT (-50/1 -10/1)', 4326))"]
  /\ fst (@pg_get_trajectory demo_runtime vanishing_db "deter" string_temporal
            (-50 # 1) (-10 # 1) demo_obs demo_geom_property literal_class
            PNone PNone [])
     = Raise IndexError.
Proof.
  destruct (build_query "deter" string_temporal (-50 # 1) (-10 # 1) demo_obs
              demo_geom_property literal_class PNone PNone) as [q |] eqn:Hq;
    [| discriminate].
  pose proof (@pg_get_trajectory_statements demo_runtime vanishing_db "deter"
                string_temporal (-50 # 1) (-10 # 1) demo_obs
                demo_geom_property literal_class PNone PNone q [] Hq)
    as Hrun.
  injection Hq as <-. exact Hrun.
Defined.

(** ** Connections of the PostGIS backend *)

Example init_reachable :
  @PostGisDataSource_init demo_psycopg2 (PStr "pg-1") demo_pg_info []
  = (Ok {| pg_id := PStr "pg-1"; pg_connection_inf := demo_pg_info;
           pg_poll := {| pool_connection_info := demo_pg_info;
                         pg_connection := Some 1%nat |} |},
     [[PStr "wlts"; PStr "secret"; PStr "localhost"; PInt 5432; PStr "wlts"];
      [PStr "wlts"; PStr "secret"; PStr "localhost"; PInt 5432; PStr "wlts"]]).
Proof. vm_compute. reflexivity. Qed.

Lemma connect_arguments_Ok_iff (pgisInfo : gmap string scalar) :
  is_Ok (connect_arguments pgisInfo) = true
  <-> Forall (fun key => is_Some (pgisInfo !! key)) connection_keys.
Proof.
  unfold connect_arguments, conn_item, connection_keys. split.
  - intros Hok.
    repeat match goal with
           | H : context [getitem (pgisInfo !! ?k)] |- _ =>
               destruct (pgisInfo !! k) eqn:?; cbn [getitem rbind is_Ok] in H;
               [| discriminate]
           end.
    repeat constructor; eauto.
  - intros Hkeys.
    repeat match goal with
           | H : Forall _ (_ :: _) |- _ =>
               let Hhead := fresh in
               apply Forall_cons_1 in H as [[? Hhead] H]; rewrite Hhead
           end.
    reflexivity.
Qed.

(** X7: building a [PostGisDataSource] never raises.  When [connection_info]
    has the five keys of a connection, [psycopg2.connect] is called twice with
    the same arguments and the datasource keeps the outcome of the second
    call, [None] if it failed; when a key is missing, [psycopg2.connect] is
    not called and the datasource has no connection. *)
Theorem PostGisDataSource_init_connects `{Psycopg2} (id : scalar)
  (connection_info : gmap string scalar) (attempts : list (list scalar)) :
  exists self,
    fst (PostGisDataSource_init id connection_info attempts) = Ok self
    /\ pg_id self = id
    /\ pg_connection_inf self = connection_info
    /\ (is_Ok (connect_arguments connection_info) = true
        <-> Forall (fun key => is_Some (connection_info !! key)) connection_keys)
    /\ match connect_arguments connection_info with
       | Ok arguments =>
           snd (PostGisDataSource_init id connection_info attempts)
           = (attempts ++ [arguments; arguments])%list
           /\ pg_connection (pg_poll self)
              = match psycopg2_connect (attempts ++ [arguments])%list arguments
                with
                | Ok c => Some c
                | Raise _ => None
                end
       | Raise _ =>
           snd (PostGisDataSource_init id connection_info attempts) = attempts
           /\ pg_connection (pg_poll self) = None
       end.
Proof.
  unfold PostGisDataSource_init, new_PostGisConnectionPool, open_conection,
    connection_open, bind, ret.
  cbn [pool_connection_info].
  destruct (connect_arguments connection_info) as [arguments | e] eqn:Hargs.
  - destruct (psycopg2_connect attempts arguments) as [c1 | e1];
      cbn [fst snd pool_connection_info]; rewrite Hargs;
      destruct (psycopg2_connect (attempts ++ [arguments])%list arguments)
        as [c2 | e2];
      cbn [fst snd]; eexists;
      (split; [reflexivity |]);
      cbn [pg_id pg_connection_inf pg_poll pg_connection];
      repeat split; try reflexivity;
      try (intros _; apply connect_arguments_Ok_iff; now rewrite Hargs);
      now rewrite <- app_assoc.
  - cbn [fst snd pool_connection_info]. rewrite Hargs. cbn [fst snd].
    eexists. split; [reflexivity |].
    cbn [pg_id pg_connection_inf pg_poll pg_connection].
    repeat split; try reflexivity; try discriminate.
    intros Hkeys. apply connect_arguments_Ok_iff in Hkeys.
    now rewrite Hargs in Hkeys.
Qed.

(** The connection a datasource is left with by its constructor. *)
Lemma PostGisDataSource_init_connection `{Psycopg2} (id : scalar)
  (connection_info : gmap string scalar) (attempts : list (list scalar))
  (self : PostGisDataSource) :
  fst (PostGisDataSource_init id connection_info attempts) = Ok self ->
  pg_connection (pg_poll self)
  = match connect_arguments connection_info with
    | Ok arguments =>
        match psycopg2_connect (attempts ++ [arguments])%list arguments with
        | Ok c => Some c
        | Raise _ => None
        end
    | Raise _ => None
    end.
Proof.
  unfold PostGisDataSource_init, new_PostGisConnectionPool, open_conection,
    connection_open, bind, ret.
  cbn [pool_connection_info].
  destruct (connect_arguments connection_info) as [arguments | e] eqn:Hargs.
  - destruct (psycopg2_connect attempts arguments) as [c1 | e1];
      cbn [fst snd pool_connection_info]; rewrite Hargs;
      destruct (psycopg2_connect (attempts ++ [arguments])%list arguments)
        as [c2 | e2];
      cbn [fst snd]; now intros [= <-].
  - cbn [fst snd pool_connection_info]. rewrite Hargs. cbn [fst snd].
    now intros [= <-].
Qed.

(** X8: a datasource that was built without a connection, because a key is
    missing or the second call of [psycopg2.connect] failed, raises
    [AttributeError] on every trajectory query whose statement is built, and
    executes nothing. *)
Theorem PostGisDataSource_without_connection `{Runtime} `{SqlExecutor}
  `{Psycopg2} (id : scalar) (connection_info : gmap string scalar)
  (attempts : list (list scalar)) (self : PostGisDataSource)
  (feature_type : string) (temporal : temporal_doc) (x y : Q) (obs : obs_doc)
  (geom_property : geom_property_doc) (c : classification_class)
  (start_date end_date : scalar) (q : query) (executed : list string) :
  fst (PostGisDataSource_init id connection_info attempts) = Ok self ->
  match connect_arguments connection_info with
  | Ok arguments =>
      is_Ok (psycopg2_connect (attempts ++ [arguments])%list arguments) = false
  | Raise _ => True
  end ->
  build_query feature_type temporal x y obs geom_property c start_date end_date
  = Ok q ->
  PostGisDataSource_get_trajectory self feature_type temporal x y obs
    geom_property c start_date end_date executed
  = (Raise AttributeError, executed).
Proof.
  intros Hinit Hdown Hq.
  assert (Hnone : pg_connection (pg_poll self) = None).
  { rewrite (PostGisDataSource_init_connection _ _ _ _ Hinit).
    destruct (connect_arguments connection_info) as [arguments | e];
      [| reflexivity].
    now destruct (psycopg2_connect _ arguments). }
  unfold PostGisDataSource_get_trajectory, pool_execute_query, bind, lift, raise.
  now rewrite Hq, Hnone.
Qed.

Lemma PostGisDataSource_without_connection_witness :
  exists self,
    fst (@PostGisDataSource_init down_psycopg2 (PStr "pg-1") demo_pg_info [])
    = Ok self
    /\ @PostGisDataSource_get_trajectory demo_runtime one_row_db self "deter"
         string_temporal (-50 # 1) (-10 # 1) demo_obs demo_geom_property
         literal_class PNone PNone []
       = (Raise AttributeError, []).
Proof.
  destruct (fst (@PostGisDataSource_init down_psycopg2 (PStr "pg-1")
                   demo_pg_info [])) as [self | e] eqn:Hinit;
    [| vm_compute in Hinit; discriminate].
  destruct (build_query "deter" string_temporal (-50 # 1) (-10 # 1) demo_obs
              demo_geom_property literal_class PNone PNone) as [q |] eqn:Hq;
    [| discriminate].
  exists self. split; [reflexivity |].
  apply (@PostGisDataSource_without_connection demo_runtime one_row_db
           down_psycopg2 (PStr "pg-1") demo_pg_info [] self "deter"
           string_temporal (-50 # 1) (-10 # 1) demo_obs demo_geom_property
           literal_class PNone PNone q [] Hinit);
    [vm_compute; reflexivity | exact Hq].
Defined.

(** ** The connection pool of the feature service *)

Lemma bind_Raise {S A B} (m : M S A) (k : A -> M S B) (s s' : S) (e : exn) :
  m s = (Raise e, s') -> bind m k s = (Raise e, s').
Proof. intros Hm. unfold bind. now rewrite Hm. Qed.

Lemma bind_lift {S A B} (r : result A) (k : A -> M S B) (s : S) :
  bind (lift r) k s = match r with Ok a => k a s | Raise e => (Raise e, s) end.
Proof. now destruct r. Qed.

(** X9: [get_feature] on a feature type that the capabilities document does
    not list raises [NotFound] after that one request: the feature request
    is never sent.  A trajectory query for such a feature type returns no
    list, and sends at most the capabilities request. *)
Theorem wfs_feature_type_not_listed `{Runtime} `{FeatureService}
  (wfs_poll : WFSConnectionPool) (feature_type : string)
  (temporal : temporal_doc) (x y : Q) (obs : obs_doc)
  (geom_property : geom_property_doc) (c : classification_class)
  (start_date end_date : scalar) (sent : list string) (doc : string)
  (names : list string) :
  requests_get sent (capabilities_url wfs_poll) = Ok (200, doc) ->
  feature_type_names doc = Ok names ->
  ~ In feature_type names ->
  (forall kwargs,
      kw_feature_type kwargs = feature_type ->
      get_feature wfs_poll kwargs sent
      = (Raise NotFound, (sent ++ [capabilities_url wfs_poll])%list))
  /\ (forall l,
        fst (wfs_get_trajectory wfs_poll feature_type temporal x y obs
               geom_property c start_date end_date sent)
        <> Ok (ReturnList l))
  /\ (snd (wfs_get_trajectory wfs_poll feature_type temporal x y obs
             geom_property c start_date end_date sent) = sent
      \/ wfs_get_trajectory wfs_poll feature_type temporal x y obs
           geom_property c start_date end_date sent
         = (Raise NotFound, (sent ++ [capabilities_url wfs_poll])%list)).
Proof.
  intros Hget Hnames Hunknown.
  assert (Hfeature : forall kwargs,
             kw_feature_type kwargs = feature_type ->
             get_feature wfs_poll kwargs sent
             = (Raise NotFound, (sent ++ [capabilities_url wfs_poll])%list)).
  { intros kwargs Hft.
    unfold get_feature, check_feature, list_feature, bind, lift, raise, wfs_get.
    rewrite Hget. cbn [rbind Z.eqb Pos.eqb]. rewrite Hnames, Hft.
    destruct (existsb (String.eqb feature_type) names) eqn:Hex; [| reflexivity].
    apply existsb_exists in Hex as (name & Hin & Heq).
    apply String.eqb_eq in Heq. subst name. contradiction. }
  split; [exact Hfeature |].
  assert (Hquery : forall propertyName start_filter end_filter,
             get_feature wfs_poll
               (trajectory_kwargs feature_type (Point_wkt x y) geom_property
                  propertyName start_filter end_filter) sent
             = (Raise NotFound, (sent ++ [capabilities_url wfs_poll])%list))
    by (intros; now apply Hfeature).
  unfold wfs_get_trajectory.
  destruct (String.eqb (get_type c) "Literal");
    destruct (String.eqb (temporal_type temporal) "STRING"); cbn [andb negb].
  - rewrite (bind_Raise _ _ _ _ _ (Hquery _ _ _)).
    split; [discriminate | now right].
  - rewrite bind_lift.
    destruct (date_filter ">=" obs temporal start_date) as [f1 | e1];
      [| split; [discriminate | now left]].
    rewrite bind_lift.
    destruct (date_filter "<=" obs temporal end_date) as [f2 | e2];
      [| split; [discriminate | now left]].
    rewrite (bind_Raise _ _ _ _ _ (Hquery _ _ _)).
    split; [discriminate | now right].
  - rewrite bind_lift.
    destruct (get_date_from_str (PStr (temporal_property obs)) PNone)
      as [d | e]; [| split; [discriminate | now left]].
    rewrite bind_lift.
    destruct (if truthy start_date then _ else _) as [[|] | e];
      [split; [discriminate | now left] | | split; [discriminate | now left]].
    rewrite bind_lift.
    destruct (if truthy end_date then _ else _) as [[|] | e];
      [split; [discriminate | now left] | | split; [discriminate | now left]].
    rewrite bind_lift.
    destruct (getitem (class_property obs)) as [cp | e];
      [| split; [discriminate | now left]].
    rewrite (bind_Raise _ _ _ _ _ (Hquery _ _ _)).
    split; [discriminate | now right].
  - rewrite bind_lift.
    destruct (getitem (class_property obs)) as [cp | e];
      [| split; [discriminate | now left]].
    rewrite bind_lift.
    destruct (date_filter ">=" obs temporal start_date) as [f1 | e1];
      [| split; [discriminate | now left]].
    rewrite bind_lift.
    destruct (date_filter "<=" obs temporal end_date) as [f2 | e2];
      [| split; [discriminate | now left]].
    rewrite (bind_Raise _ _ _ _ _ (Hquery _ _ _)).
    split; [discriminate | now right].
Qed.

Lemma wfs_feature_type_not_listed_witness :
  @wfs_get_trajectory demo_runtime (demo_feature_service [demo_feature])
    demo_pool "prodes" date_temporal (-50 # 1) (-10 # 1) demo_typed_obs
    demo_geom_property attribute_class PNone PNone []
  = (Raise NotFound, [capabilities_url demo_pool]).
Proof.
  destruct (@wfs_feature_type_not_listed demo_runtime
              (demo_feature_service [demo_feature]) demo_pool "prodes"
              date_temporal (-50 # 1) (-10 # 1) demo_typed_obs
              demo_geom_property attribute_class PNone PNone []
              (capabilities_url demo_pool) ["deter"] eq_refl eq_refl)
    as (_ & _ & [Hsent | Hrun]).
  - intros [Heq | []]. discriminate.
  - vm_compute in Hsent. discriminate.
  - exact Hrun.
Defined.

Ltac run_cases H :=
  repeat (cbn [fst snd] in H;
          match type of H with
          | context [match ?x with _ => _ end] =>
              destruct x eqn:?; try discriminate H
          end).

Ltac getitem_inv :=
  repeat match goal with
         | H : match ?o with Some _ => Ok _ | None => Raise _ end = Ok _ |- _ =>
             destruct o eqn:?; [injection H as ?; subst | discriminate H]
         end.

(** X10: a list returned by a trajectory query is empty or a pair of a label
    and a date.  For a literal classification the label is the configured
    [class_property_name] of [obs], not a value of the response; in the
    Literal x STRING branch the date is the parsed [temporal_property] of
    [obs] written back with [string_format]; in the Attribute x STRING branch
    it is that [temporal_property] as it stands. *)
Theorem wfs_get_trajectory_shape `{Runtime} `{FeatureService}
  (wfs_poll : WFSConnectionPool) (feature_type : string)
  (temporal : temporal_doc) (x y : Q) (obs : obs_doc)
  (geom_property : geom_property_doc) (c : classification_class)
  (start_date end_date : scalar) (sent : list string) (l : list scalar) :
  fst (wfs_get_trajectory wfs_poll feature_type temporal x y obs geom_property
         c start_date end_date sent) = Ok (ReturnList l) ->
  l = []
  \/ exists label date,
       l = [PStr label; date]
       /\ (classification_kind_of c = Literal ->
           class_property_name obs = Some label)
       /\ (classification_kind_of c = Literal ->
           temporal_kind_of temporal = StringEncoded ->
           exists d fmt,
             get_date_from_str (PStr (temporal_property obs)) PNone = Ok d
             /\ string_format temporal = Some fmt
             /\ date = PStr (strftime d fmt))
       /\ (classification_kind_of c = Attribute ->
           temporal_kind_of temporal = StringEncoded ->
           date = PStr (temporal_property obs)).
Proof.
  unfold classification_kind_of, temporal_kind_of, wfs_get_trajectory.
  destruct (String.eqb (get_type c) "Literal");
    destruct (String.eqb (temporal_type temporal) "STRING");
    cbn [andb negb]; unfold bind, lift, ret, raise, getitem, response_item;
    intros Hrun; run_cases Hrun;
    injection Hrun as <-; getitem_inv;
    first
      [ now left
      | right; do 2 eexists; split; [reflexivity |];
        repeat split; try discriminate; intros;
        first [ reflexivity | do 2 eexists; repeat split; eassumption ] ].
Qed.

Lemma wfs_get_trajectory_shape_witness :
  [PStr "Forest"; PStr "2017-1-1"] = []
  \/ exists label date,
       [PStr "Forest"; PStr "2017-1-1"] = [PStr label; date]
       /\ (classification_kind_of literal_class = Literal ->
           class_property_name demo_obs = Some label)
       /\ (classification_kind_of literal_class = Literal ->
           temporal_kind_of string_temporal = StringEncoded ->
           exists d fmt,
             get_date_from_str (PStr (temporal_property demo_obs)) PNone = Ok d
             /\ string_format string_temporal = Some fmt
             /\ date = PStr (@strftime demo_runtime d fmt))
       /\ (classification_kind_of literal_class = Attribute ->
           temporal_kind_of string_temporal = StringEncoded ->
           date = PStr (temporal_property demo_obs)).
Proof.
  apply (@wfs_get_trajectory_shape demo_runtime
           (demo_feature_service [demo_feature]) demo_pool "deter"
           string_temporal (-50 # 1) (-10 # 1) demo_obs demo_geom_property
           literal_class PNone PNone []).
  vm_compute. reflexivity.
Defined.

(** X11: in the Literal x STRING branch the date bounds are not looked at:
    whatever [start_date] and [end_date] are, even text that is no date, the
    query sends the same requests and returns the same result. *)
Theorem wfs_literal_string_ignores_bounds `{Runtime} `{FeatureService}
  (wfs_poll : WFSConnectionPool) (feature_type : string)
  (temporal : temporal_doc) (x y : Q) (obs : obs_doc)
  (geom_property : geom_property_doc) (c : classification_class)
  (start_date end_date start_date' end_date' : scalar) (sent : list string) :
  classification_kind_of c = Literal ->
  temporal_kind_of temporal = StringEncoded ->
  wfs_get_trajectory wfs_poll feature_type temporal x y obs geom_property c
    start_date end_date sent
  = wfs_get_trajectory wfs_poll feature_type temporal x y obs geom_property c
      start_date' end_date' sent.
Proof.
  unfold classification_kind_of, temporal_kind_of, wfs_get_trajectory.
  destruct (String.eqb (get_type c) "Literal"); [| discriminate].
  destruct (String.eqb (temporal_type temporal) "STRING"); [| discriminate].
  reflexivity.
Qed.

Lemma wfs_literal_string_ignores_bounds_witness :
  @wfs_get_trajectory demo_runtime (demo_feature_service [demo_feature])
    demo_pool "deter" string_temporal (-50 # 1) (-10 # 1) demo_obs
    demo_geom_property literal_class (PStr "2030") (PStr "yesterday") []
  = @wfs_get_trajectory demo_runtime (demo_feature_service [demo_feature])
      demo_pool "deter" string_temporal (-50 # 1) (-10 # 1) demo_obs
      demo_geom_property literal_class PNone PNone [].
Proof.
  apply (@wfs_literal_string_ignores_bounds demo_runtime
           (demo_feature_service [demo_feature]) demo_pool "deter"
           string_temporal (-50 # 1) (-10 # 1) demo_obs demo_geom_property
           literal_class (PStr "2030") (PStr "yesterday") PNone PNone []);
    reflexivity.
Defined.

Lemma within_bounds_checks (start_date end_date : scalar) (d : datetime) :
  within_bounds start_date end_date d ->
  (if truthy start_date
   then rbind (get_date_from_str start_date PNone)
          (fun s => Ok (datetime_gtb s d))
   else Ok false) = Ok false
  /\ (if truthy end_date
      then rbind (get_date_from_str end_date PNone)
             (fun e => Ok (datetime_gtb d e))
      else Ok false) = Ok false.
Proof.
  intros [Hstart Hend]. split.
  - destruct Hstart as [Hs | (s & Hs & Hgt)].
    + apply parsed_bound_None in Hs. now rewrite Hs.
    + apply parsed_bound_Some in Hs as [-> ->]. cbn [rbind]. now rewrite Hgt.
  - destruct Hend as [He | (e & He & Hgt)].
    + apply parsed_bound_None in He. now rewrite He.
    + apply parsed_bound_Some in He as [-> ->]. cbn [rbind]. now rewrite Hgt.
Qed.

(** X12: in the Attribute x STRING branch the bounds are inclusive and only
    filter: when the observation date lies within the supplied bounds,
    equality included, the query does what it does without bounds. *)
Theorem wfs_within_bounds_as_unbounded `{Runtime} `{FeatureService}
  (wfs_poll : WFSConnectionPool) (feature_type : string)
  (temporal : temporal_doc) (x y : Q) (obs : obs_doc)
  (geom_property : geom_property_doc) (c : classification_class)
  (start_date end_date : scalar) (d : datetime) (sent : list string) :
  classification_kind_of c = Attribute ->
  temporal_kind_of temporal = StringEncoded ->
  get_date_from_str (PStr (temporal_property obs)) PNone = Ok d ->
  within_bounds start_date end_date d ->
  wfs_get_trajectory wfs_poll feature_type temporal x y obs geom_property c
    start_date end_date sent
  = wfs_get_trajectory wfs_poll feature_type temporal x y obs geom_property c
      PNone PNone sent.
Proof.
  unfold classification_kind_of, temporal_kind_of, wfs_get_trajectory.
  destruct (String.eqb (get_type c) "Literal"); [discriminate |].
  destruct (String.eqb (temporal_type temporal) "STRING"); [| discriminate].
  intros _ _ Hobs Hwithin. cbn [andb negb truthy].
  destruct (within_bounds_checks _ _ _ Hwithin) as [Hs He].
  rewrite !(bind_lift_Ok _ _ _ _ Hobs).
  rewrite (bind_lift_Ok _ _ _ _ Hs), (bind_lift_Ok _ _ _ _ He).
  reflexivity.
Qed.

Lemma wfs_within_bounds_as_unbounded_witness :
  @wfs_get_trajectory demo_runtime (demo_feature_service [demo_feature])
    demo_pool "deter" string_temporal (-50 # 1) (-10 # 1) demo_obs
    demo_geom_property attribute_class (PStr "2017") (PStr "2017-01-01") []
  = @wfs_get_trajectory demo_runtime (demo_feature_service [demo_feature])
      demo_pool "deter" string_temporal (-50 # 1) (-10 # 1) demo_obs
      demo_geom_property attribute_class PNone PNone [].
Proof.
  apply (@wfs_within_bounds_as_unbounded demo_runtime
           (demo_feature_service [demo_feature]) demo_pool "deter"
           string_temporal (-50 # 1) (-10 # 1) demo_obs demo_geom_property
           attribute_class (PStr "2017") (PStr "2017-01-01")
           (mkdate 2017 1 1) []); try reflexivity.
  split; right; exists (mkdate 2017 1 1); split; reflexivity.
Defined.

(** ** Connection pools of the web services *)

Example pool_init_port_number :
  pool_init (<["port" := PInt 8080]> wfs_entry) = Raise TypeError.
Proof. vm_compute. reflexivity. Qed.

Example pool_init_no_user :
  pool_init (delete "user" wfs_entry) = Raise KeyError.
Proof. vm_compute. reflexivity. Qed.

(** X13: [WFSConnectionPool(connection_info)] (and [WCSConnectionPool], built
    the same way) succeeds exactly when host, port and location are text,
    the key [user] is present, and, the user being true, the key [password]
    is present too.  The pool then authenticates exactly when user and
    password are both true. *)
Theorem pool_init_Ok_iff (connection_info : gmap string scalar)
  (p : WFSConnectionPool) :
  pool_init connection_info = Ok p
  <-> connection_info !! "host" = Some (PStr (wfs_host p))
      /\ connection_info !! "port" = Some (PStr (wfs_port p))
      /\ connection_info !! "location" = Some (PStr (wfs_location p))
      /\ exists user,
           connection_info !! "user" = Some user
           /\ if truthy user
              then exists password,
                     connection_info !! "password" = Some password
                     /\ wfs_auth p
                        = (if truthy password then Some (user, password)
                           else None)
              else wfs_auth p = None.
Proof.
  unfold pool_init, conn_item. split.
  - intros Hinit.
    destruct (connection_info !! "host") as [host |]; [| discriminate].
    destruct (connection_info !! "port") as [port |]; [| discriminate].
    destruct (connection_info !! "location") as [location |]; [| discriminate].
    destruct (connection_info !! "user") as [user |]; [| discriminate].
    cbn [getitem rbind] in Hinit.
    destruct (truthy user) eqn:Huser.
    + destruct (connection_info !! "password") as [password |]; [| discriminate].
      cbn [getitem rbind] in Hinit.
      destruct host, port, location; try discriminate.
      injection Hinit as <-. cbn [wfs_host wfs_port wfs_location wfs_auth].
      repeat split. exists user. split; [reflexivity |]. rewrite Huser.
      exists password. split; reflexivity.
    + cbn [rbind] in Hinit.
      destruct host, port, location; try discriminate.
      injection Hinit as <-. cbn [wfs_host wfs_port wfs_location wfs_auth].
      repeat split. exists user. split; [reflexivity |]. now rewrite Huser.
  - destruct p as [host port location auth].
    cbn [wfs_host wfs_port wfs_location wfs_auth].
    intros (-> & -> & -> & user & -> & Hauth). cbn [getitem rbind].
    destruct (truthy user).
    + destruct Hauth as (password & -> & ->). reflexivity.
    + now rewrite Hauth.
Qed.

(** ** The registry *)

(** X14: a datasource that the factory returns reports the tag it was made
    for as its type, and carries the id and the connection information it
    was made with; the tag is then one of POSTGIS, WCS and WFS. *)
Theorem make_reports_tag (dsType id : scalar) (connInfo : gmap string scalar)
  (ds : DataSource) :
  make dsType id connInfo = Ok ds ->
  dsType = PStr (ds_get_type ds)
  /\ ds_get_id ds = id
  /\ ds_get_connection_info ds = connInfo
  /\ recognized dsType = true.
Proof.
  intros Hmake.
  destruct (recognized dsType) eqn:Htag;
    [| rewrite (make_unrecognized _ _ _ Htag) in Hmake; discriminate].
  destruct dsType as [| b | z | q | t]; try discriminate.
  cbn [recognized] in Htag.
  apply orb_true_iff in Htag as [Htag | Hwfs];
    [apply orb_true_iff in Htag as [Hpg | Hwcs] |];
    match goal with H : String.eqb t _ = true |- _ =>
      apply String.eqb_eq in H; subst t
    end;
    unfold make in Hmake.
  - replace (factorys !! "POSTGIS") with (Some "PostGisDataSource") in Hmake
      by reflexivity.
    cbn [getitem rbind] in Hmake.
    replace (eval_class "PostGisDataSource") with (Ok new_PostGisDataSource)
      in Hmake by reflexivity.
    cbn [rbind] in Hmake. unfold new_PostGisDataSource in Hmake.
    injection Hmake as <-. repeat split.
  - replace (factorys !! "WCS") with (Some "WCSDataSource") in Hmake
      by reflexivity.
    cbn [getitem rbind] in Hmake.
    replace (eval_class "WCSDataSource") with (Ok new_WCSDataSource) in Hmake
      by reflexivity.
    cbn [rbind] in Hmake. unfold new_WCSDataSource in Hmake.
    destruct (pool_init connInfo); [| discriminate].
    injection Hmake as <-. repeat split.
  - replace (factorys !! "WFS") with (Some "WFSDataSource") in Hmake
      by reflexivity.
    cbn [getitem rbind] in Hmake.
    replace (eval_class "WFSDataSource") with (Ok new_WFSDataSource) in Hmake
      by reflexivity.
    cbn [rbind] in Hmake. unfold new_WFSDataSource in Hmake.
    destruct (pool_init connInfo); [| discriminate].
    injection Hmake as <-. repeat split.
Qed.

Lemma make_reports_tag_witness :
  PStr "WFS"
  = PStr (ds_get_type
            (WFSDS (PStr "wfs-1") wfs_entry
               {| wfs_host := "http://localhost"; wfs_port := "8080";
                  wfs_location := "geoserver"; wfs_auth := None |})).
Proof.
  apply (make_reports_tag (PStr "WFS") (PStr "wfs-1") wfs_entry).
  vm_compute. reflexivity.
Defined.

Example get_datasource_after_load :
  rbind (load_all initial_datasources
           (Some [("dbms_source", [postgis_entry]);
                  ("webservice_source", [wfs_entry])]))
    (fun registry => Ok (get_datasource registry (PStr "wfs-1")))
  = Ok (Some (WFSDS (PStr "wfs-1") wfs_entry
                {| wfs_host := "http://localhost"; wfs_port := "8080";
                   wfs_location := "geoserver"; wfs_auth := None |})).
Proof. vm_compute. reflexivity. Qed.

Lemma In_registered (_datasources : gmap string (list DataSource))
  (ds : DataSource) :
  In ds (registered _datasources)
  <-> exists group members,
        In group datasource_groups
        /\ _datasources !! group = Some members
        /\ In ds members.
Proof.
  unfold registered. rewrite in_flat_map. split.
  - intros (group & Hgroup & Hds).
    destruct (_datasources !! group) as [members |] eqn:Hmembers;
      [| destruct Hds].
    exists group, members. repeat split; assumption.
  - intros (group & members & Hgroup & Hmembers & Hds).
    exists group. split; [exact Hgroup |]. now rewrite Hmembers.
Qed.

Lemma group_of_registry (_datasources : gmap string (list DataSource))
  (group : string) (members : list DataSource) :
  dom _datasources = dom initial_datasources ->
  _datasources !! group = Some members ->
  In group datasource_groups.
Proof.
  intros Hdom Hmembers.
  assert (Hin : group ∈ dom _datasources) by (apply elem_of_dom; eauto).
  rewrite Hdom in Hin. unfold initial_datasources in Hin.
  rewrite !dom_insert_L, dom_singleton_L in Hin.
  rewrite !elem_of_union, !elem_of_singleton in Hin.
  unfold datasource_groups. cbn [In].
  destruct Hin as [-> | [-> | ->]]; auto.
Qed.

Lemma get_datasource_found (_datasources : gmap string (list DataSource))
  (ds : DataSource) (ds_id : scalar) :
  In ds (registered _datasources) ->
  py_eqb (ds_get_id ds) ds_id = true ->
  exists found,
    get_datasource _datasources ds_id = Some found
    /\ In found (registered _datasources)
    /\ py_eqb (ds_get_id found) ds_id = true.
Proof.
  intros Hin Hid. unfold get_datasource.
  destruct (find _ (registered _datasources)) as [found |] eqn:Hfind.
  - exists found. apply find_some in Hfind as [Hfound Hmatch].
    repeat split; assumption.
  - apply (find_none _ _ Hfind) in Hin. cbn beta in Hin. congruence.
Qed.

Lemma insert_datasource_Ok (_datasources registry : gmap string (list DataSource))
  (dsType : string) (connInfo : gmap string scalar) :
  insert_datasource _datasources dsType connInfo = Ok registry ->
  exists members tag id ds,
    _datasources !! dsType = Some members
    /\ connInfo !! "type" = Some tag
    /\ connInfo !! "id" = Some id
    /\ make tag id connInfo = Ok ds
    /\ registry = <[dsType := (members ++ [ds])%list]> _datasources.
Proof.
  unfold insert_datasource, conn_item.
  destruct (_datasources !! dsType) as [members |]; [| discriminate].
  destruct (connInfo !! "type") as [tag |]; [| discriminate].
  destruct (connInfo !! "id") as [id |]; [| discriminate].
  cbn [getitem rbind].
  destruct (make tag id connInfo) as [ds |] eqn:Hmake; [| discriminate].
  intros [= <-]. exists members, tag, id, ds. repeat split. exact Hmake.
Qed.

Lemma registered_insert (_datasources : gmap string (list DataSource))
  (dsType : string) (members : list DataSource) (ds : DataSource) :
  _datasources !! dsType = Some members ->
  In dsType datasource_groups ->
  In ds (registered (<[dsType := (members ++ [ds])%list]> _datasources))
  /\ forall other,
       In other (registered _datasources) ->
       In other (registered (<[dsType := (members ++ [ds])%list]> _datasources)).
Proof.
  intros Hmembers Hgroup. split.
  - apply In_registered. exists dsType, (members ++ [ds])%list.
    repeat split; [exact Hgroup | apply lookup_insert_eq |].
    apply in_or_app. right. now left.
  - intros other Hother. apply In_registered in Hother
      as (group & members' & Hgroup' & Hmembers' & Hin).
    apply In_registered.
    destruct (decide (dsType = group)) as [-> | Hne].
    + exists group, (members ++ [ds])%list.
      repeat split; [exact Hgroup' | apply lookup_insert_eq |].
      rewrite Hmembers in Hmembers'. injection Hmembers' as <-.
      apply in_or_app. now left.
    + exists group, members'.
      repeat split; [exact Hgroup' | | exact Hin].
      now rewrite lookup_insert_ne.
Qed.

Lemma dom_insert_member (_datasources : gmap string (list DataSource))
  (dsType : string) (members members' : list DataSource) :
  _datasources !! dsType = Some members ->
  dom (<[dsType := members']> _datasources) = dom _datasources.
Proof.
  intros Hmembers. rewrite dom_insert_L.
  apply subseteq_union_1_L, singleton_subseteq_l, elem_of_dom. eauto.
Qed.

Lemma make_id (dsType id : scalar) (connInfo : gmap string scalar)
  (ds : DataSource) :
  make dsType id connInfo = Ok ds -> ds_get_id ds = id.
Proof.
  unfold make. destruct dsType as [| | | | t]; try discriminate.
  destruct (factorys !! t) as [name |]; [| discriminate].
  cbn [getitem rbind]. unfold eval_class.
  destruct (String.eqb name "PostGisDataSource"); cbn [rbind].
  { now intros [= <-]. }
  destruct (String.eqb name "WCSDataSource"); cbn [rbind].
  { unfold new_WCSDataSource. destruct (pool_init connInfo); [| discriminate].
    now intros [= <-]. }
  destruct (String.eqb name "WFSDataSource"); cbn [rbind]; [| discriminate].
  unfold new_WFSDataSource. destruct (pool_init connInfo); [| discriminate].
  now intros [= <-].
Qed.

(** Once an entry is inserted, its id and the ids found before are found. *)
Lemma insert_datasource_registers
  (_datasources registry : gmap string (list DataSource)) (dsType : string)
  (connInfo : gmap string scalar) :
  dom _datasources = dom initial_datasources ->
  insert_datasource _datasources dsType connInfo = Ok registry ->
  dom registry = dom initial_datasources
  /\ (exists id found,
        connInfo !! "id" = Some id
        /\ get_datasource registry id = Some found
        /\ py_eqb (ds_get_id found) id = true)
  /\ (forall ds_id,
        get_datasource _datasources ds_id <> None ->
        get_datasource registry ds_id <> None).
Proof.
  intros Hdom Hinsert.
  apply insert_datasource_Ok in Hinsert
    as (members & tag & id & ds & Hmembers & _ & Hid & Hmake & ->).
  pose proof (group_of_registry _ _ _ Hdom Hmembers) as Hgroup.
  destruct (registered_insert _ _ _ ds Hmembers Hgroup) as [Hnew Hold].
  split; [| split].
  - now rewrite (dom_insert_member _ _ _ _ Hmembers).
  - apply make_id in Hmake as Hdsid.
    destruct (get_datasource_found _ ds id Hnew) as (found & Hfound & _ & Hmatch).
    { rewrite Hdsid. apply py_eqb_refl. }
    exists id, found. repeat split; assumption.
  - intros ds_id Hsome.
    destruct (get_datasource _datasources ds_id) as [old |] eqn:Hget;
      [| contradiction].
    unfold get_datasource in Hget. apply find_some in Hget as [Hin Hmatch].
    destruct (get_datasource_found _ old ds_id (Hold _ Hin) Hmatch)
      as (found & -> & _). discriminate.
Qed.

Lemma find_app_first {A} (f : A -> bool) (l1 l2 : list A) :
  find f (l1 ++ l2)%list
  = match find f l1 with
    | Some a => Some a
    | None => find f l2
    end.
Proof.
  induction l1 as [| a l1 IH]; [reflexivity |].
  cbn [app find]. now destruct (f a).
Qed.

(** Where an appended datasource comes in the search order. *)
Lemma registered_insert_order (_datasources : gmap string (list DataSource))
  (dsType : string) (members : list DataSource) (ds : DataSource) :
  _datasources !! dsType = Some members ->
  In dsType datasource_groups ->
  let earlier :=
    registered_in _datasources (through_group dsType datasource_groups) in
  let later :=
    registered_in _datasources (after_group dsType datasource_groups) in
  registered _datasources = (earlier ++ later)%list
  /\ registered (<[dsType := (members ++ [ds])%list]> _datasources)
     = (earlier ++ ds :: later)%list.
Proof.
  intros Hmembers Hgroup. unfold datasource_groups in Hgroup. cbn [In] in Hgroup.
  destruct Hgroup as [<- | [<- | [<- | []]]]; cbv zeta;
    unfold registered, registered_in, datasource_groups;
    cbn [through_group after_group String.eqb Ascii.eqb Bool.eqb flat_map];
    rewrite ?lookup_insert_eq, ?lookup_insert_ne by done;
    rewrite Hmembers; cbn [default from_option]; unfold id;
    rewrite ?app_nil_r, <- ?app_assoc; split; reflexivity.
Qed.

(** X15: where [insert_datasource] puts a datasource, and what
    [get_datasource] returns afterwards.  The new datasource is appended to
    its group: in the search order it comes after the datasources already in
    its own group and in the groups visited before, and before those of the
    groups visited after.  So [get_datasource] returns it for its id exactly
    when none of the former has an equal id; when one has, that older
    datasource is returned, and the new one cannot be reached by its id.
    The registry keeps its three groups. *)
Theorem insert_then_get_datasource
  (_datasources registry : gmap string (list DataSource)) (dsType : string)
  (connInfo : gmap string scalar) :
  dom _datasources = dom initial_datasources ->
  insert_datasource _datasources dsType connInfo = Ok registry ->
  let earlier :=
    registered_in _datasources (through_group dsType datasource_groups) in
  let later :=
    registered_in _datasources (after_group dsType datasource_groups) in
  exists tag id dsNew,
    connInfo !! "type" = Some tag
    /\ connInfo !! "id" = Some id
    /\ make tag id connInfo = Ok dsNew
    /\ ds_get_id dsNew = id
    /\ dom registry = dom initial_datasources
    /\ registered _datasources = (earlier ++ later)%list
    /\ registered registry = (earlier ++ dsNew :: later)%list
    /\ (forall ds_id,
          get_datasource registry ds_id
          = match find (fun ds => py_eqb (ds_get_id ds) ds_id) earlier with
            | Some old => Some old
            | None =>
                if py_eqb id ds_id then Some dsNew
                else find (fun ds => py_eqb (ds_get_id ds) ds_id) later
            end)
    /\ (Forall (fun old => py_eqb (ds_get_id old) id = false) earlier ->
        get_datasource registry id = Some dsNew)
    /\ (forall old,
          find (fun ds => py_eqb (ds_get_id ds) id) earlier = Some old ->
          get_datasource registry id = Some old).
Proof.
  intros Hdom Hinsert earlier later.
  apply insert_datasource_Ok in Hinsert
    as (members & tag & id & ds & Hmembers & Htag & Hid & Hmake & ->).
  pose proof (group_of_registry _ _ _ Hdom Hmembers) as Hgroup.
  destruct (registered_insert_order _ _ _ ds Hmembers Hgroup)
    as [Hbefore Hafter].
  fold earlier later in Hbefore, Hafter.
  pose proof (make_id _ _ _ _ Hmake) as Hdsid.
  assert (Hget : forall ds_id,
    get_datasource (<[dsType := (members ++ [ds])%list]> _datasources) ds_id
    = match find (fun ds => py_eqb (ds_get_id ds) ds_id) earlier with
      | Some old => Some old
      | None =>
          if py_eqb id ds_id then Some ds
          else find (fun ds => py_eqb (ds_get_id ds) ds_id) later
      end).
  { intros ds_id. unfold get_datasource. rewrite Hafter, find_app_first.
    cbn [find]. now rewrite Hdsid. }
  exists tag, id, ds.
  split; [exact Htag |]. split; [exact Hid |]. split; [exact Hmake |].
  split; [exact Hdsid |].
  split; [now rewrite (dom_insert_member _ _ _ _ Hmembers) |].
  split; [exact Hbefore |]. split; [exact Hafter |].
  split; [exact Hget |]. split.
  - intros Hnone. rewrite Hget, py_eqb_refl.
    destruct (find _ earlier) as [old |] eqn:Hfind; [| reflexivity].
    apply find_some in Hfind as [Hin Hmatch].
    rewrite List.Forall_forall in Hnone. rewrite (Hnone old Hin) in Hmatch.
    discriminate.
  - intros old Hold. now rewrite Hget, Hold.
Qed.

Lemma insert_then_get_datasource_witness :
  exists registry,
    insert_datasource one_wfs_registry "webservice_source" wfs_entry_again
    = Ok registry
    /\ get_datasource registry (PStr "wfs-1")
       = Some (WFSDS (PStr "wfs-1") wfs_entry
                 {| wfs_host := "http://localhost"; wfs_port := "8080";
                    wfs_location := "geoserver"; wfs_auth := None |}).
Proof.
  destruct (insert_datasource one_wfs_registry "webservice_source"
              wfs_entry_again) as [registry | e] eqn:Hinsert;
    [| vm_compute in Hinsert; discriminate].
  exists registry. split; [reflexivity |].
  pose proof (insert_then_get_datasource one_wfs_registry registry
                "webservice_source" wfs_entry_again) as Hget.
  destruct Hget as (tag & id & dsNew & _ & Hid & _ & _ & _ & _ & _ & _ & _ & Hold).
  - vm_compute. reflexivity.
  - exact Hinsert.
  - assert (Hwfs : id = PStr "wfs-1").
    { vm_compute in Hid. now injection Hid as <-. }
    subst id. apply Hold. vm_compute. reflexivity.
Defined.

(** With ids that differ the new datasource is the one returned. *)
Example insert_then_get_new_id :
  rbind (insert_datasource one_wfs_registry "dbms_source" postgis_entry)
    (fun registry => Ok (get_datasource registry (PStr "pg-1")))
  = Ok (Some (PostGisDS (PStr "pg-1") postgis_entry)).
Proof. vm_compute. reflexivity. Qed.

Lemma insert_all_registers (entries : list (gmap string scalar)) :
  forall (_datasources registry : gmap string (list DataSource))
         (dstype : string),
  dom _datasources = dom initial_datasources ->
  insert_all _datasources dstype entries = Ok registry ->
  dom registry = dom initial_datasources
  /\ (forall ds_id,
        get_datasource _datasources ds_id <> None ->
        get_datasource registry ds_id <> None)
  /\ (forall entry id,
        In entry entries -> entry !! "id" = Some id ->
        get_datasource registry id <> None).
Proof.
  induction entries as [| entry rest IH]; intros ds registry dstype Hdom Hall.
  - injection Hall as <-. repeat split; [exact Hdom | auto | intros ? ? []].
  - cbn [insert_all] in Hall.
    destruct (insert_datasource ds dstype entry) as [ds' |] eqn:Hinsert;
      [| discriminate].
    cbn [rbind] in Hall.
    destruct (insert_datasource_registers _ _ _ _ Hdom Hinsert)
      as (Hdom' & (id & found & Hid & Hfound & _) & Hkeep).
    destruct (IH _ _ _ Hdom' Hall) as (Hdom'' & Hkeep' & Hnew).
    repeat split; [exact Hdom'' | auto |].
    intros entry' id' [<- | Hin] Hid'.
    + rewrite Hid in Hid'. injection Hid' as <-.
      apply Hkeep'. now rewrite Hfound.
    + eapply Hnew; eassumption.
Qed.

Lemma load_groups_registers (groups : list (string * list (gmap string scalar))) :
  forall (_datasources registry : gmap string (list DataSource)),
  dom _datasources = dom initial_datasources ->
  load_groups _datasources groups = Ok registry ->
  dom registry = dom initial_datasources
  /\ (forall ds_id,
        get_datasource _datasources ds_id <> None ->
        get_datasource registry ds_id <> None)
  /\ (forall dstype entries entry id,
        In (dstype, entries) groups -> In entry entries ->
        entry !! "id" = Some id ->
        get_datasource registry id <> None).
Proof.
  induction groups as [| [g es] rest IH]; intros ds registry Hdom Hload.
  - injection Hload as <-. repeat split; [exact Hdom | auto | intros ? ? ? ? []].
  - cbn [load_groups] in Hload.
    destruct (insert_all ds g es) as [ds' |] eqn:Hall; [| discriminate].
    cbn [rbind] in Hload.
    destruct (insert_all_registers _ _ _ _ Hdom Hall) as (Hdom' & Hkeep & Hnew).
    destruct (IH _ _ Hdom' Hload) as (Hdom'' & Hkeep' & Hnew').
    repeat split; [exact Hdom'' | auto |].
    intros dstype entries entry id [[= <- <-] | Hin] Hentry Hid.
    + apply Hkeep'. eapply Hnew; eassumption.
    + eapply Hnew'; eassumption.
Qed.

(** X16: after a load that succeeded, the registry still has its three
    groups and nothing else, and the id of every entry of the configuration
    leads [get_datasource] to a datasource with that id. *)
Theorem load_all_registers
  (datasources : list (string * list (gmap string scalar)))
  (registry : gmap string (list DataSource)) (dstype : string)
  (entries : list (gmap string scalar)) (entry : gmap string scalar)
  (id : scalar) :
  load_all initial_datasources (Some datasources) = Ok registry ->
  In (dstype, entries) datasources ->
  In entry entries ->
  entry !! "id" = Some id ->
  dom registry = dom initial_datasources
  /\ exists found,
       get_datasource registry id = Some found
       /\ py_eqb (ds_get_id found) id = true.
Proof.
  cbn [load_all]. intros Hload Hgroup Hentry Hid.
  destruct (load_groups_registers _ _ _ eq_refl Hload) as (Hdom & _ & Hnew).
  split; [exact Hdom |].
  specialize (Hnew _ _ _ _ Hgroup Hentry Hid).
  destruct (get_datasource registry id) as [found |] eqn:Hget;
    [| contradiction].
  exists found. split; [reflexivity |].
  unfold get_datasource in Hget. now apply find_some in Hget as [_ Hmatch].
Qed.

Lemma load_all_registers_witness :
  exists registry found,
    load_all initial_datasources
      (Some [("dbms_source", [postgis_entry]);
             ("webservice_source", [wfs_entry])]) = Ok registry
    /\ get_datasource registry (PStr "pg-1") = Some found
    /\ py_eqb (ds_get_id found) (PStr "pg-1") = true.
Proof.
  destruct (load_all initial_datasources
              (Some [("dbms_source", [postgis_entry]);
                     ("webservice_source", [wfs_entry])]))
    as [registry | e] eqn:Hload; [| vm_compute in Hload; discriminate].
  destruct (load_all_registers _ registry "dbms_source" [postgis_entry]
              postgis_entry (PStr "pg-1") Hload)
    as (_ & found & Hfound & Hmatch).
  - left. reflexivity.
  - left. reflexivity.
  - vm_compute. reflexivity.
  - exists registry, found. repeat split; assumption.
Defined.

(** X17: [get_datasource] searches the web-service sources first, then the
    database sources, then the file sources: of two datasources with equal
    ids the one in the earlier group is returned, whichever was registered
    first, and [None] is returned exactly when no registered datasource has
    the id. *)
Theorem get_datasource_order (_datasources : gmap string (list DataSource))
  (ds_id : scalar) (web dbms file : list DataSource) :
  _datasources !! "webservice_source" = Some web ->
  _datasources !! "dbms_source" = Some dbms ->
  _datasources !! "file_source" = Some file ->
  let has_id := fun ds => py_eqb (ds_get_id ds) ds_id in
  get_datasource _datasources ds_id
  = match find has_id web with
    | Some ds => Some ds
    | None =>
        match find has_id dbms with
        | Some ds => Some ds
        | None => find has_id file
        end
    end
  /\ (get_datasource _datasources ds_id = None
      <-> Forall (fun ds => has_id ds = false) (web ++ dbms ++ file)).
Proof.
  intros Hweb Hdbms Hfile has_id.
  assert (Hall : registered _datasources = (web ++ dbms ++ file)%list).
  { unfold registered, datasource_groups. cbn [flat_map].
    rewrite Hweb, Hdbms, Hfile. cbn [default]. now rewrite app_nil_r. }
  assert (Hfind : forall l1 l2 : list DataSource,
             find has_id (l1 ++ l2)
             = match find has_id l1 with
               | Some ds => Some ds
               | None => find has_id l2
               end).
  { intros l1 l2. induction l1 as [| ds l1 IH]; [reflexivity |].
    cbn [app find]. now destruct (has_id ds). }
  unfold get_datasource. fold has_id. rewrite Hall. split.
  - now rewrite !Hfind.
  - split.
    + intros Hnone. apply List.Forall_forall. intros ds Hin.
      exact (find_none _ _ Hnone ds Hin).
    + intros Hnone. destruct (find has_id _) as [ds |] eqn:Hfound;
        [| reflexivity].
      apply find_some in Hfound as [Hin Hmatch].
      rewrite List.Forall_forall in Hnone. rewrite (Hnone ds Hin) in Hmatch.
      discriminate.
Qed.

Lemma get_datasource_order_witness :
  get_datasource
    (<["webservice_source" := [WFSDS (PInt 1) wfs_entry demo_pool]]>
       (<["dbms_source" := [PostGisDS (PInt 1) postgis_entry]]>
          initial_datasources))
    (PInt 1)
  = Some (WFSDS (PInt 1) wfs_entry demo_pool).
Proof.
  pose proof (get_datasource_order
                (<["webservice_source" := [WFSDS (PInt 1) wfs_entry demo_pool]]>
                   (<["dbms_source" := [PostGisDS (PInt 1) postgis_entry]]>
                      initial_datasources))
                (PInt 1) [WFSDS (PInt 1) wfs_entry demo_pool]
                [PostGisDS (PInt 1) postgis_entry] []) as Horder.
  destruct Horder as [Hget _].
  - vm_compute. reflexivity.
  - vm_compute. reflexivity.
  - vm_compute. reflexivity.
  - rewrite Hget. reflexivity.
Defined.

(** ** The WCS datasource the factory builds *)

Example factory_wcs_has_no_trajectory :
  rbind (make (PStr "WCS") (PStr "wcs-1") wcs_entry) (fun ds =>
    match ds with
    | WCSDS _ _ pool =>
        Ok (@datasource_wcs_get_trajectory
              (demo_feature_service [demo_feature]) demo_xml_parser pool
              "mapbiomas" string_temporal (-50 # 1) (-10 # 1) demo_obs
              demo_geom_property literal_class PNone PNone [])
    | _ => Raise LibraryError
    end)
  = Ok (Ok None,
        ["http://localhost:8080/geoserver/datacube/wcs?service=WCS&version=1.0.0&request=GetCapabilities"]).
Proof. vm_compute. reflexivity. Qed.

(** X18: [get_trajectory] of the WCS datasource of [wlts/datasource.py],
    the class the factory builds for the tag WCS, never yields a trajectory:
    whatever the point, the dates and the descriptors, it sends the one
    capabilities request and returns [None], unless that request or the
    parsing of its answer raises. *)
Theorem datasource_wcs_get_trajectory_None `{FeatureService} `{XmlParser}
  (wfc_poll : WFSConnectionPool) (feature_type : string)
  (temporal : temporal_doc) (x y : Q) (obs : obs_doc)
  (geom_property : geom_property_doc) (c : classification_class)
  (start_date end_date : scalar) (sent : list string) :
  snd (datasource_wcs_get_trajectory wfc_poll feature_type temporal x y obs
         geom_property c start_date end_date sent)
  = (sent ++ [wcs_capabilities_url wfc_poll])%list
  /\ (forall trajectory,
        fst (datasource_wcs_get_trajectory wfc_poll feature_type temporal x y
               obs geom_property c start_date end_date sent)
        <> Ok (Some trajectory))
  /\ (fst (datasource_wcs_get_trajectory wfc_poll feature_type temporal x y
             obs geom_property c start_date end_date sent) = Ok None
      <-> exists doc,
            requests_get sent (wcs_capabilities_url wfc_poll) = Ok (200, doc)
            /\ parseString doc = Ok tt).
Proof.
  unfold datasource_wcs_get_trajectory, list_collection, bind, lift, ret, wfs_get.
  destruct (requests_get sent (wcs_capabilities_url wfc_poll))
    as [[status doc] | e]; cbn [rbind fst snd].
  - destruct (status =? 200) eqn:Hstatus; cbn [fst snd].
    + apply Z.eqb_eq in Hstatus. subst status.
      destruct (parseString doc) as [[] | e] eqn:Hparse; cbn [fst snd];
        repeat split; try discriminate.
      * intros _. exists doc. split; [reflexivity | exact Hparse].
      * intros (doc' & [= <-] & Hparse'). congruence.
    + repeat split; try discriminate.
      intros (doc' & [= -> _] & _). discriminate.
  - repeat split; try discriminate.
    intros (doc' & Hget & _). discriminate.
Qed.


(** ** Calls of [get_image]: the cache and the fetches *)

Example get_image_url_demo :
  @get_image_url demo_runtime demo_wcs (demo_image_args 1)
  = "http://localhost/geoserver/wcs?service=WCS&version=1.0.0&request=GetCoverage&COVERAGE=datacube:mapbiomas&CRS=EPSG:4326&RESPONSE_CRS=EPSG:4326&BBOX=1/2,-3/2,3/2,-1/2&FORMAT=GeoTIFF&WIDTH=1&HEIGHT=1&time=2017".
Proof. vm_compute. reflexivity. Qed.

Lemma get_image_body_url `{Runtime} `{RasterService} (self : WCS)
  (a : image_args) :
  get_image_body self a
  = open_image self (get_image_url self a) (arg_x a) (arg_y a).
Proof.
  unfold get_image_body, get_image_url. cbv zeta. f_equal.
  rewrite !append_assoc. reflexivity.
Qed.


Lemma length_lru_remove_hit (k : image_key) (e : image_key * option Z)
  (c : lru) :
  lru_find k c = Some e -> length c = S (length (lru_remove k c)).
Proof.
  induction c as [| [k1 v1] c IH]; [discriminate |].
  cbn [lru_find lru_remove]. destruct (image_key_eqb k k1); [reflexivity |].
  intros Hfind. cbn [length]. now rewrite (IH Hfind).
Qed.

(** One call keeps the cache free of duplicate keys and within its size. *)
Lemma get_image_cache_invariant `{Runtime} `{RasterService} (self : WCS)
  (a : image_args) (st : wcs_state) :
  lru_nodup (cache st) ->
  (length (cache st) <= lru_maxsize)%nat ->
  lru_nodup (cache (snd (get_image self a st)))
  /\ (length (cache (snd (get_image self a st))) <= lru_maxsize)%nat.
Proof.
  intros Hnodup Hlength. unfold get_image.
  destruct (lru_find (self, a) (cache st)) as [[k1 v1] |] eqn:Hfind.
  - cbn [snd cache]. split; [exact (lru_nodup_hit _ _ _ _ Hnodup Hfind) |].
    apply length_lru_remove_hit in Hfind. cbn [length].
    unfold image_key, lru in *. lia.
  - destruct (get_image_body self a (fetched st)) as [[v | e] fetched'];
      cbn [snd cache]; [| split; assumption].
    split.
    + apply (lru_nodup_firstn lru_maxsize ((self, a, v) :: cache st)).
      constructor; [apply lru_find_None, Hfind | exact Hnodup].
    + apply firstn_le_length.
Qed.

(** X19: the cache of [get_image] stays well formed: from a cache without
    duplicate keys and of at most 128 entries (the empty cache of a fresh
    process is one), any succession of calls, whatever they return or raise,
    leaves a cache without duplicate keys and of at most 128 entries. *)
Theorem run_calls_cache_invariant `{Runtime} `{RasterService}
  (calls : list image_key) (st : wcs_state) :
  lru_nodup (cache st) ->
  (length (cache st) <= lru_maxsize)%nat ->
  lru_nodup (cache (run_calls calls st))
  /\ (length (cache (run_calls calls st)) <= lru_maxsize)%nat.
Proof.
  revert st. induction calls as [| [self a] calls IH]; intros st Hnodup Hlength.
  - split; assumption.
  - cbn [run_calls].
    destruct (get_image_cache_invariant self a st Hnodup Hlength) as [Hn Hl].
    exact (IH _ Hn Hl).
Qed.

Lemma run_calls_cache_invariant_witness :
  lru_nodup (cache (@run_calls demo_runtime demo_raster_service
                      (demo_calls 3 ++ demo_calls 2)%list empty_wcs_state))
  /\ (length (cache (@run_calls demo_runtime demo_raster_service
                       (demo_calls 3 ++ demo_calls 2)%list empty_wcs_state))
      <= lru_maxsize)%nat.
Proof.
  apply (@run_calls_cache_invariant demo_runtime demo_raster_service).
  - constructor.
  - unfold lru_maxsize. cbn. lia.
Defined.


(** X21: a coverage that could not be fetched stays absent.  When the fetch
    of a call that missed the cache fails with [URLError], or is answered
    gzip-encoded, the call returns [None]; this [None] is stored, and an
    identical call, made after calls with fewer than 128 distinct other
    arguments, returns [None] again without trying the service again. *)
Theorem get_image_failed_fetch_remembered `{Runtime} `{RasterService}
  (self : WCS) (a : image_args) (st : wcs_state) (calls : list image_key) :
  lru_nodup (cache st) ->
  lru_find (self, a) (cache st) = None ->
  (urlopen (fetched st) (wcs_auth self) (get_image_url self a) = URLError
   \/ exists body,
        urlopen (fetched st) (wcs_auth self) (get_image_url self a)
        = Responded (Some "gzip") body) ->
  (length (distinct_keys (other_calls (self, a) calls)) < lru_maxsize)%nat ->
  let st1 := snd (get_image self a st) in
  fst (get_image self a st) = Ok None
  /\ fetched st1 = (fetched st ++ [get_image_url self a])%list
  /\ fst (get_image self a (run_calls calls st1)) = Ok None
  /\ fetched (snd (get_image self a (run_calls calls st1)))
     = fetched (run_calls calls st1).
Proof.
  intros Hnodup Hfind Hfail Hcalls st1.
  assert (Hfirst : get_image self a st
                   = (Ok None,
                      {| cache := firstn lru_maxsize ((self, a, None) :: cache st);
                         fetched := (fetched st ++ [get_image_url self a])%list |})).
  { unfold get_image. rewrite Hfind, get_image_body_url.
    unfold open_image, bind, _get_image.
    destruct Hfail as [-> | [body ->]]; reflexivity. }
  subst st1. rewrite Hfirst. cbn [fst snd fetched].
  split; [reflexivity |]. split; [reflexivity |].
  apply (get_image_caches self a _ _ None calls Hnodup) in Hfirst.
  apply (run_calls_keeps (self, a) None calls calls _ Hcalls) in Hfirst;
    [| intros k' Hk'; exact Hk'].
  destruct Hfirst as (Hnodup2 & front & k0 & back & Hc & Hk0 & _).
  unfold get_image. rewrite Hc in *.
  rewrite (lru_find_cached (self, a) k0 None front back Hnodup2 Hk0).
  split; reflexivity.
Qed.

Lemma get_image_failed_fetch_remembered_witness :
  fst (@get_image demo_runtime recovering_raster_service demo_wcs
         (demo_image_args 0) empty_wcs_state) = Ok None
  /\ fst (@get_image demo_runtime recovering_raster_service demo_wcs
            (demo_image_args 0)
            (@run_calls demo_runtime recovering_raster_service (demo_calls 2)
               (snd (@get_image demo_runtime recovering_raster_service demo_wcs
                       (demo_image_args 0) empty_wcs_state)))) = Ok None.
Proof.
  destruct (@get_image_failed_fetch_remembered demo_runtime
              recovering_raster_service demo_wcs (demo_image_args 0)
              empty_wcs_state (demo_calls 2))
    as (Hfirst & _ & Hagain & _).
  - constructor.
  - reflexivity.
  - left. reflexivity.
  - vm_compute. lia.
  - split; [exact Hfirst | exact Hagain].
Defined.

(** The service of the witness answers once it is asked a second time: a call
    with other arguments gets its pixel. *)
Example recovering_service_answers_later :
  fst (@get_image demo_runtime recovering_raster_service demo_wcs
         (demo_image_args 1)
         (snd (@get_image demo_runtime recovering_raster_service demo_wcs
                 (demo_image_args 0) empty_wcs_state)))
  = Ok (Some 2).
Proof. vm_compute. reflexivity. Qed.

(** X22: [open_image] returns [None] exactly when nothing was fetched (the
    fetch failed or was answered gzip-encoded) or what was fetched is no
    raster.  Once a raster is decoded the result is never [None]: a value it
    returns is the value of band 1 at the pixel of the point, and a failed
    read raises [AttributeError]. *)
Theorem open_image_None_iff `{RasterService} (self : WCS) (url : string)
  (long lat : scalar) (fetched : list string) :
  (fst (open_image self url long lat fetched) = Ok None
   <-> fst (_get_image self url fetched) = Ok None
       \/ exists bytes,
            fst (_get_image self url fetched) = Ok (Some bytes)
            /\ gdal_Open bytes = None)
  /\ (forall bytes gdal_dataset,
        fst (_get_image self url fetched) = Ok (Some bytes) ->
        gdal_Open bytes = Some gdal_dataset ->
        (forall intval,
           fst (open_image self url long lat fetched) = Ok (Some intval) ->
           exists lat' long' col row,
             to_float lat = Ok lat' /\ to_float long = Ok long'
             /\ transform_latlong_to_rowcol gdal_dataset lat' long'
                = Ok (col, row)
             /\ ReadAsArray gdal_dataset col row = Some intval)
        /\ (forall lat' long' col row,
              to_float lat = Ok lat' -> to_float long = Ok long' ->
              transform_latlong_to_rowcol gdal_dataset lat' long'
              = Ok (col, row) ->
              ReadAsArray gdal_dataset col row = None ->
              fst (open_image self url long lat fetched)
              = Raise AttributeError)).
Proof.
  unfold open_image, bind.
  destruct (_get_image self url fetched) as [[[bytes |] | e] fetched'];
    cbn [fst snd].
  - split.
    + destruct (gdal_Open bytes) as [gdal_dataset |] eqn:Hopen.
      * split.
        -- unfold lift, ret, raise.
           destruct (to_float lat) as [lat' |]; [| discriminate].
           destruct (to_float long) as [long' |]; [| discriminate].
           destruct (transform_latlong_to_rowcol gdal_dataset lat' long')
             as [xy |]; [| discriminate].
           destruct (ReadAsArray gdal_dataset (fst xy) (snd xy)); discriminate.
        -- intros [Hnone | (bytes' & [= <-] & Hnone)]; congruence.
      * split; [| reflexivity].
        intros _. right. exists bytes. split; [reflexivity | exact Hopen].
    + intros bytes' gdal_dataset [= <-] Hopen. rewrite Hopen.
      unfold lift, ret, raise. split.
      * intros intval.
        destruct (to_float lat) as [lat' |]; [| discriminate].
        destruct (to_float long) as [long' |]; [| discriminate].
        destruct (transform_latlong_to_rowcol gdal_dataset lat' long')
          as [[col row] |] eqn:Hxy; [| discriminate].
        cbn [fst snd].
        destruct (ReadAsArray gdal_dataset col row) as [v |] eqn:Hread;
          [| discriminate].
        cbn [fst]. intros [= <-]. exists lat', long', col, row.
        repeat split; first [reflexivity | assumption].
      * intros lat' long' col row -> -> -> . cbn [fst snd].
        intros ->. reflexivity.
  - split.
    + split; [intros _; left; reflexivity | reflexivity].
    + intros bytes gdal_dataset [=].
  - split.
    + split; [discriminate |].
      intros [[=] | (bytes & [=] & _)].
    + intros bytes gdal_dataset [=].
Qed.


(** ** Failures of the pixel arithmetic *)

(** Rounding a mantissa that is not negative never gives a NaN. *)
Lemma shr_1_nonneg (mrs : shr_record) :
  0 <= shr_m mrs -> 0 <= shr_m (shr_1 mrs).
Proof.
  destruct mrs as [m r s]. cbn [shr_m shr_1].
  destruct m as [| [p | p |] | p]; cbn [shr_m]; lia.
Qed.

Lemma iter_shr_1_nonneg (p : positive) :
  forall mrs, 0 <= shr_m mrs -> 0 <= shr_m (SpecFloat.iter_pos shr_1 p mrs).
Proof.
  induction p as [p IH | p IH |]; intros mrs Hm; cbn [SpecFloat.iter_pos].
  - apply IH, IH, shr_1_nonneg, Hm.
  - apply IH, IH, Hm.
  - apply shr_1_nonneg, Hm.
Qed.

Lemma shr_fexp_nonneg (m e : Z) (l : location) :
  0 <= m -> 0 <= shr_m (fst (shr_fexp prec emax m e l)).
Proof.
  intros Hm. unfold shr_fexp, shr.
  assert (Hrecord : 0 <= shr_m (shr_record_of_loc m l))
    by (destruct l as [| []]; exact Hm).
  destruct (fexp prec emax (Zdigits2 m + e) - e) as [| p | p]; cbn [fst];
    [exact Hrecord | | exact Hrecord].
  apply iter_shr_1_nonneg, Hrecord.
Qed.

Lemma round_nearest_even_nonneg (m : Z) (l : location) :
  0 <= m -> 0 <= round_nearest_even m l.
Proof.
  intros Hm. unfold round_nearest_even.
  destruct l as [| []]; [| destruct (Z.even m) | |]; lia.
Qed.

Lemma binary_round_aux_not_nan (sx : bool) (mx ex : Z) (lx : location) :
  0 <= mx -> binary_round_aux prec emax sx mx ex lx <> S754_nan.
Proof.
  intros Hm. unfold binary_round_aux.
  pose proof (shr_fexp_nonneg mx ex lx Hm) as Hfirst.
  destruct (shr_fexp prec emax mx ex lx) as [mrs' e']. cbn [fst] in Hfirst.
  pose proof (shr_fexp_nonneg _ e' loc_Exact
                (round_nearest_even_nonneg _ (loc_of_shr_record mrs') Hfirst))
    as Hsecond.
  destruct (shr_fexp prec emax _ e' loc_Exact) as [mrs'' e''].
  cbn [fst] in Hsecond.
  destruct (shr_m mrs'') as [| m | m]; [discriminate | | lia].
  destruct (e'' <=? emax - prec); discriminate.
Qed.

Lemma binary_normalize_not_nan (m e : Z) (szero : bool) :
  binary_normalize prec emax m e szero <> S754_nan.
Proof.
  unfold binary_normalize, binary_round.
  destruct m as [| m | m]; [discriminate | |];
    destruct (shl_align _ _ _) as [mz ez];
    apply binary_round_aux_not_nan; lia.
Qed.

(** The difference of two finite floats is a float or an infinity. *)
Lemma float_sub_not_nan (a b : float) :
  float_is_finite a = true -> float_is_finite b = true ->
  float_sub a b <> S754_nan.
Proof.
  destruct a as [sa | sa | | sa ma ea]; try discriminate;
    destruct b as [sb | sb | | sb mb eb]; try discriminate; intros _ _;
    unfold float_sub, SFsub; try discriminate.
  - destruct sa, sb; discriminate.
  - apply binary_normalize_not_nan.
Qed.

(** The quotient of a float or an infinity by a finite float other than zero
    is a float or an infinity. *)
Lemma float_div_not_nan (a b : float) :
  a <> S754_nan -> float_is_finite b = true -> float_is_zero b = false ->
  float_div a b <> S754_nan.
Proof.
  destruct b as [sb | sb | | sb mb eb]; try discriminate. intros Ha _ _.
  destruct a as [sa | sa | | sa ma ea];
    [discriminate | discriminate | contradiction |].
  unfold float_div, SFdiv, SFdiv_core_binary.
  set (m' := match _ - _ - _ with 0 => _ | Z.pos _ => _ | Z.neg _ => _ end).
  assert (Hm' : 0 <= m').
  { subst m'. destruct (_ - _ - _); [lia | | lia]. apply Z.shiftl_nonneg. lia. }
  pose proof (Z.div_pos m' (Z.pos mb) Hm' eq_refl) as Hq.
  unfold Z.div in Hq.
  destruct (Z.div_eucl m' (Z.pos mb)) as [q r]. cbn [fst] in Hq.
  apply binary_round_aux_not_nan, Hq.
Qed.

Lemma float_neg_finite (a : float) :
  float_is_finite (float_neg a) = float_is_finite a
  /\ float_is_zero (float_neg a) = float_is_zero a.
Proof. now destruct a. Qed.

(** What [int] does with each kind of float. *)
Lemma int_of_float_cases (f : float) :
  match int_of_float f with
  | Ok _ => float_is_finite f = true
  | Raise e =>
      (e = OverflowError /\ float_is_inf f = true)
      \/ (e = ValueError /\ f = S754_nan)
  end.
Proof. destruct f; cbn; auto. Qed.

(** A point that the projection sends far from the origin of the raster: the
    difference overflows, and so does the quotient. *)
Example rowcol_far_point :
  @transform_latlong_to_rowcol demo_raster_service far_raster 0
    (inject_Z (- 2 ^ 1023))
  = Raise OverflowError.
Proof. vm_compute. reflexivity. Qed.

(** A projection that fails with infinite coordinates. *)
Example rowcol_infinite_projection :
  @transform_latlong_to_rowcol
    {| urlopen := fun _ _ _ => URLError;
       gdal_Open := fun _ => None;
       TransformPoint := fun _ _ _ =>
         Ok (S754_infinity false, S754_infinity false) |}
    unit_raster 0 0
  = Raise OverflowError.
Proof. reflexivity. Qed.

(** X24: how [transform_latlong_to_rowcol] fails once the point is projected.
    It raises [ZeroDivisionError], [OverflowError] or [ValueError] and
    nothing else: [ZeroDivisionError] exactly when the pixel width is zero,
    or the column is computed and the sixth coefficient is zero.  When the
    projected point and the coefficients are finite and neither pixel size is
    zero, no NaN can arise: the only failure left is [OverflowError], raised
    exactly when one of the two quotients is an infinity, and otherwise the
    offsets are returned. *)
Theorem transform_latlong_to_rowcol_errors `{RasterService}
  (data_set : dataset) (lat long : Q) (x y t0 t1 t2 t3 t4 t5 : float) :
  TransformPoint (GetProjection data_set) long lat = Ok (x, y) ->
  GetGeoTransform data_set = (t0, t1, t2, t3, t4, t5) ->
  let quotient_x := float_div (float_sub x t0) t1 in
  let quotient_y := float_div (float_sub t3 y) (float_neg t5) in
  (forall e,
     transform_latlong_to_rowcol data_set lat long = Raise e ->
     e = ZeroDivisionError \/ e = OverflowError \/ e = ValueError)
  /\ (transform_latlong_to_rowcol data_set lat long = Raise ZeroDivisionError
      <-> float_is_zero t1 = true
          \/ (float_is_finite quotient_x = true /\ float_is_zero t5 = true))
  /\ (float_is_finite x = true -> float_is_finite y = true ->
      float_is_finite t0 = true -> float_is_finite t1 = true ->
      float_is_finite t3 = true -> float_is_finite t5 = true ->
      float_is_zero t1 = false -> float_is_zero t5 = false ->
      (transform_latlong_to_rowcol data_set lat long = Raise OverflowError
       <-> float_is_inf quotient_x = true \/ float_is_inf quotient_y = true)
      /\ (forall e,
            transform_latlong_to_rowcol data_set lat long = Raise e ->
            e = OverflowError)
      /\ (float_is_inf quotient_x = false ->
          float_is_inf quotient_y = false ->
          exists col row,
            transform_latlong_to_rowcol data_set lat long = Ok (col, row))).
Proof.
  intros Hpoint Htransform quotient_x quotient_y.
  assert (Hcode :
    transform_latlong_to_rowcol data_set lat long
    = if float_is_zero t1 then Raise ZeroDivisionError
      else rbind (int_of_float quotient_x) (fun col =>
           if float_is_zero t5 then Raise ZeroDivisionError
           else rbind (int_of_float quotient_y) (fun row => Ok (col, row)))).
  { unfold transform_latlong_to_rowcol, truediv.
    rewrite Hpoint, Htransform. cbn [rbind].
    destruct (float_is_zero t1); [reflexivity |]. cbn [rbind].
    fold quotient_x. destruct (int_of_float quotient_x); [| reflexivity].
    cbn [rbind]. rewrite (proj2 (float_neg_finite t5)).
    destruct (float_is_zero t5); reflexivity. }
  rewrite Hcode. clear Hcode.
  pose proof (int_of_float_cases quotient_x) as Hx.
  pose proof (int_of_float_cases quotient_y) as Hy.
  split; [| split].
  - intros e. destruct (float_is_zero t1); [intros [= <-]; auto |].
    destruct (int_of_float quotient_x) as [col | ex]; cbn [rbind].
    + destruct (float_is_zero t5); [intros [= <-]; auto |].
      destruct (int_of_float quotient_y) as [row | ey]; cbn [rbind];
        [discriminate |].
      intros [= <-]. destruct Hy as [[-> _] | [-> _]]; auto.
    + intros [= <-]. destruct Hx as [[-> _] | [-> _]]; auto.
  - destruct (float_is_zero t1); [split; auto |].
    destruct (int_of_float quotient_x) as [col | ex]; cbn [rbind].
    + rewrite Hx. destruct (float_is_zero t5); [split; auto |].
      destruct (int_of_float quotient_y) as [row | ey]; cbn [rbind].
      * split; [discriminate | intros [[=] | [_ [=]]]].
      * split; [| intros [[=] | [_ [=]]]].
        intros [= ->]. destruct Hy as [[[=] _] | [[=] _]].
    + split; [| intros [[=] | [Hfinite _]]].
      * intros [= ->]. destruct Hx as [[[=] _] | [[=] _]].
      * destruct Hx as [[_ Hinf] | [_ Hnan]].
        -- destruct quotient_x; discriminate.
        -- rewrite Hnan in Hfinite. discriminate.
  - intros Fx Fy F0 F1 F3 F5 Z1 Z5. rewrite Z1, Z5.
    assert (Nx : quotient_x <> S754_nan).
    { apply float_div_not_nan; [apply float_sub_not_nan | |]; assumption. }
    assert (Ny : quotient_y <> S754_nan).
    { apply float_div_not_nan; [apply float_sub_not_nan; assumption | |].
      - now rewrite (proj1 (float_neg_finite t5)).
      - now rewrite (proj2 (float_neg_finite t5)). }
    destruct (int_of_float quotient_x) as [col | ex]; cbn [rbind].
    + assert (Ix : float_is_inf quotient_x = false)
        by (destruct quotient_x; first [reflexivity | discriminate]).
      rewrite Ix.
      destruct (int_of_float quotient_y) as [row | ey]; cbn [rbind].
      * assert (Iy : float_is_inf quotient_y = false)
          by (destruct quotient_y; first [reflexivity | discriminate]).
        rewrite Iy. split; [| split].
        -- split; [discriminate | intros [[=] | [=]]].
        -- discriminate.
        -- intros _ _. exists col, row. reflexivity.
      * destruct Hy as [[-> Iy] | [_ Hnan]]; [| contradiction].
        rewrite Iy. split; [| split].
        -- split; auto.
        -- now intros e [= <-].
        -- discriminate.
    + destruct Hx as [[-> Ix] | [_ Hnan]]; [| contradiction].
      rewrite Ix. split; [| split].
      * split; auto.
      * now intros e [= <-].
      * discriminate.
Qed.

Lemma transform_latlong_to_rowcol_errors_witness :
  @transform_latlong_to_rowcol demo_raster_service far_raster 0
    (inject_Z (- 2 ^ 1023))
  = Raise OverflowError.
Proof.
  edestruct (@transform_latlong_to_rowcol_errors demo_raster_service
               far_raster 0 (inject_Z (- 2 ^ 1023)))
    as (_ & _ & Hfinite).
  - reflexivity.
  - reflexivity.
  - apply Hfinite; try reflexivity. left. vm_compute. reflexivity.
Defined.

(** ** Raster queries ([WCSDataSource.get_trajectory] of [wcs.py]) *)

(** The test of a bound that the parsed time does not violate. *)
Lemma wcs_bound_passes `{WltsUtils} (bound : kwvalue)
  (cmp : datetime -> bool) :
  kw_truthy bound = false
  \/ (exists d, kw_date bound = Ok d /\ cmp d = false) ->
  (if kw_truthy bound
   then rbind (kw_date bound) (fun d => Ok (cmp d))
   else Ok false) = Ok false.
Proof.
  intros [-> | (d & Hd & Hcmp)]; [reflexivity |].
  destruct (kw_truthy bound); [| reflexivity].
  rewrite Hd. cbn [rbind]. now rewrite Hcmp.
Qed.

(** X25: the keywords of a raster query.  A keyword outside the nine
    recognised names raises [AttributeError] before anything is read.  The
    names [time], [start_date] and [end_date] are required: with [time]
    missing, or with a time that parses and [start_date] missing, or with a
    start that lets the time through and [end_date] missing, the query raises
    [KeyError], a missing bound not being read as no bound.  In each case the
    cache and the fetches made are as before the call. *)
Theorem wcs_get_trajectory_keywords `{Runtime} `{RasterService} `{WltsUtils}
  (self : WCSDataSource) (kwargs : gmap string kwvalue) (st : wcs_state) :
  (dom kwargs ∖ wcs_allowed <> ∅ ->
   wcs_get_trajectory self kwargs st = (Raise AttributeError, st))
  /\ (dom kwargs ∖ wcs_allowed = ∅ ->
      kwargs !! "time" = None ->
      wcs_get_trajectory self kwargs st = (Raise KeyError, st))
  /\ (forall time ts,
        dom kwargs ∖ wcs_allowed = ∅ ->
        kwargs !! "time" = Some time ->
        kw_date time = Ok ts ->
        (kwargs !! "start_date" = None ->
         wcs_get_trajectory self kwargs st = (Raise KeyError, st))
        /\ (forall start_date,
              kwargs !! "start_date" = Some start_date ->
              kw_truthy start_date = false
              \/ (exists s, kw_date start_date = Ok s
                            /\ datetime_ltb ts s = false) ->
              kwargs !! "end_date" = None ->
              wcs_get_trajectory self kwargs st = (Raise KeyError, st))).
Proof.
  unfold wcs_get_trajectory, kw_item. split; [| split].
  - intros Hkeys. rewrite bool_decide_eq_false_2 by exact Hkeys. reflexivity.
  - intros Hkeys Htime. rewrite bool_decide_eq_true_2 by exact Hkeys.
    rewrite Htime. reflexivity.
  - intros time ts Hkeys Htime Hts.
    rewrite bool_decide_eq_true_2 by exact Hkeys. cbn [negb].
    rewrite Htime. cbn [getitem]. rewrite (bind_lift_Ok _ _ _ _ eq_refl).
    rewrite (bind_lift_Ok _ _ _ _ Hts). split.
    + intros Hstart. rewrite Hstart. reflexivity.
    + intros start_date Hstart Hpasses Hend.
      rewrite Hstart. cbn [getitem]. rewrite (bind_lift_Ok _ _ _ _ eq_refl).
      rewrite (bind_lift_Ok _ _ _ _
                 (wcs_bound_passes start_date (datetime_ltb ts) Hpasses)).
      rewrite Hend. reflexivity.
Qed.

Example wcs_missing_bound_keyword :
  @wcs_get_trajectory demo_runtime demo_raster_service datasource_utils
    demo_wcs_datasource (delete "end_date" (demo_kwargs PNone PNone))
    empty_wcs_state
  = (Raise KeyError, empty_wcs_state).
Proof. vm_compute. reflexivity. Qed.

(** X26: bounds that let the time through change nothing.  When each
    supplied bound parses and the parsed time is not before the start nor
    after the end, the query does exactly what it does with both bounds
    [None]: the same result or error, the same cache, the same fetches. *)
Theorem wcs_within_bounds_as_unbounded `{Runtime} `{RasterService}
  `{WltsUtils} (self : WCSDataSource) (kwargs : gmap string kwvalue)
  (time start_date end_date : kwvalue) (ts : datetime) (st : wcs_state) :
  kwargs !! "time" = Some time ->
  kw_date time = Ok ts ->
  kwargs !! "start_date" = Some start_date ->
  kwargs !! "end_date" = Some end_date ->
  kw_truthy start_date = false
  \/ (exists s, kw_date start_date = Ok s /\ datetime_ltb ts s = false) ->
  kw_truthy end_date = false
  \/ (exists e, kw_date end_date = Ok e /\ datetime_gtb ts e = false) ->
  wcs_get_trajectory self kwargs st
  = wcs_get_trajectory self
      (<["start_date" := Sc PNone]> (<["end_date" := Sc PNone]> kwargs)) st.
Proof.
  intros Htime Hts Hstart Hend Hstart_ok Hend_ok.
  assert (Hdom : dom (<["start_date" := Sc PNone]>
                        (<["end_date" := Sc PNone]> kwargs))
                 = dom kwargs).
  { rewrite !dom_insert_L.
    rewrite (subseteq_union_1_L ({["end_date"]} : gset string) (dom kwargs))
      by (apply singleton_subseteq_l, elem_of_dom; eauto).
    apply subseteq_union_1_L, singleton_subseteq_l, elem_of_dom; eauto. }
  unfold wcs_get_trajectory, kw_item. rewrite Hdom.
  destruct (negb (bool_decide (dom kwargs ∖ wcs_allowed = ∅)));
    [reflexivity |].
  rewrite lookup_insert_eq.
  rewrite (lookup_insert_ne _ "start_date" "end_date") by done.
  rewrite lookup_insert_eq.
  rewrite !(lookup_insert_ne _ "start_date") by done.
  rewrite !(lookup_insert_ne _ "end_date") by done.
  rewrite Htime, Hstart, Hend. cbn [getitem].
  repeat first
    [ rewrite (bind_lift_Ok _ _ _ _ eq_refl)
    | rewrite (bind_lift_Ok _ _ _ _ Hts)
    | rewrite (bind_lift_Ok _ _ _ _
                 (wcs_bound_passes start_date (datetime_ltb ts) Hstart_ok))
    | rewrite (bind_lift_Ok _ _ _ _
                 (wcs_bound_passes end_date (datetime_gtb ts) Hend_ok))
    | progress cbn [kw_truthy truthy] ].
  reflexivity.
Qed.

Lemma wcs_within_bounds_as_unbounded_witness :
  @wcs_get_trajectory demo_runtime demo_raster_service datasource_utils
    demo_wcs_datasource (demo_kwargs (PStr "2016") (PStr "2018-06"))
    empty_wcs_state
  = @wcs_get_trajectory demo_runtime demo_raster_service datasource_utils
      demo_wcs_datasource
      (<["start_date" := Sc PNone]>
         (<["end_date" := Sc PNone]>
            (demo_kwargs (PStr "2016") (PStr "2018-06"))))
      empty_wcs_state.
Proof.
  apply (@wcs_within_bounds_as_unbounded demo_runtime demo_raster_service
           datasource_utils demo_wcs_datasource
           (demo_kwargs (PStr "2016") (PStr "2018-06"))
           (Sc (PStr "2017")) (Sc (PStr "2016")) (Sc (PStr "2018-06"))
           (mkdate 2017 1 1) empty_wcs_state).
  - vm_compute. reflexivity.
  - reflexivity.
  - vm_compute. reflexivity.
  - vm_compute. reflexivity.
  - right. exists (mkdate 2016 1 1). split; reflexivity.
  - right. exists (mkdate 2018 6 1). split; reflexivity.
Defined.

Lemma kw_float_number `{Runtime} (x : scalar) (fx : Q) :
  to_float x = Ok fx -> kw_float (Sc x) = Ok fx.
Proof. destruct x; first [discriminate | exact (fun Hx => Hx)]. Qed.

(** X27: the coverage a raster query asks for.  A query whose time lies
    within the bounds, with a text image name, numeric coordinates and a grid
    dictionary, is the cached call of [get_image] for the coverage
    [workspace:image]; the address that call fetches on a miss lists the
    bounding box of the buffered point as [min_x,min_y,max_x,max_y], the
    order of the service, although the values go through parameters named
    [min_x, max_x, min_y, max_y]; width and height are the grid's column and
    row, and the time is the text as given, not the parsed date. *)
Theorem wcs_get_trajectory_request `{Runtime} `{RasterService} `{WltsUtils}
  (self : WCSDataSource) (kwargs : gmap string kwvalue)
  (time image : string) (start_date end_date : kwvalue) (ts : datetime)
  (x y srid column row : scalar) (grid : gmap string scalar)
  (fx fy min_x min_y max_x max_y : Q) (st : wcs_state) :
  dom kwargs ∖ wcs_allowed = ∅ ->
  kwargs !! "time" = Some (Sc (PStr time)) ->
  utils_get_date_from_str (PStr time) = Ok ts ->
  kwargs !! "start_date" = Some start_date ->
  kwargs !! "end_date" = Some end_date ->
  kw_truthy start_date = false
  \/ (exists s, kw_date start_date = Ok s /\ datetime_ltb ts s = false) ->
  kw_truthy end_date = false
  \/ (exists e, kw_date end_date = Ok e /\ datetime_gtb ts e = false) ->
  kwargs !! "image" = Some (Sc (PStr image)) ->
  kwargs !! "x" = Some (Sc x) ->
  kwargs !! "y" = Some (Sc y) ->
  to_float x = Ok fx ->
  to_float y = Ok fy ->
  Point_buffer_bounds fx fy (2 # 1000) = (min_x, min_y, max_x, max_y) ->
  kwargs !! "srid" = Some (Sc srid) ->
  kwargs !! "grid" = Some (Dict grid) ->
  grid !! "column" = Some column ->
  grid !! "row" = Some row ->
  let a :=
    {| arg_image := PStr (workspace self +:+ ":" +:+ image);
       arg_srid := srid;
       arg_min_x := PFloat min_x;
       arg_max_x := PFloat min_y;
       arg_min_y := PFloat max_x;
       arg_max_y := PFloat max_y;
       arg_column := column;
       arg_row := row;
       arg_time := PStr time;
       arg_x := x;
       arg_y := y |} in
  wcs_get_trajectory self kwargs st = get_image (_wcs self) a st
  /\ get_image_url (_wcs self) a
     = wcs_host (_wcs self)
       +:+ "/wcs?service=WCS&version=1.0.0&request=GetCoverage&COVERAGE="
       +:+ workspace self +:+ ":" +:+ image
       +:+ "&CRS=EPSG:4326&RESPONSE_CRS=EPSG:" +:+ py_str srid
       +:+ "&BBOX=" +:+ repr_float min_x +:+ "," +:+ repr_float min_y
       +:+ "," +:+ repr_float max_x +:+ "," +:+ repr_float max_y
       +:+ "&FORMAT=GeoTIFF&WIDTH=" +:+ py_str column
       +:+ "&HEIGHT=" +:+ py_str row +:+ "&time=" +:+ time.
Proof.
  intros Hkeys Htime Hts Hstart Hend Hstart_ok Hend_ok Himage Hx Hy Hfx Hfy
    Hbounds Hsrid Hgrid Hcolumn Hrow a.
  split.
  - unfold wcs_get_trajectory, kw_item.
    rewrite bool_decide_eq_true_2 by exact Hkeys. cbn [negb].
    rewrite Htime, Hstart, Hend, Himage, Hx, Hy, Hsrid, Hgrid.
    repeat first
      [ rewrite (bind_lift_Ok _ _ _ _ eq_refl)
      | rewrite (bind_lift_Ok _ _ _ _ Hts)
      | rewrite (bind_lift_Ok _ _ _ _
                   (wcs_bound_passes start_date (datetime_ltb ts) Hstart_ok))
      | rewrite (bind_lift_Ok _ _ _ _
                   (wcs_bound_passes end_date (datetime_gtb ts) Hend_ok))
      | rewrite (bind_lift_Ok _ _ _ _ (kw_float_number _ _ Hfx))
      | rewrite (bind_lift_Ok _ _ _ _ (kw_float_number _ _ Hfy))
      | rewrite Hbounds
      | rewrite Hcolumn
      | rewrite Hrow
      | progress cbn [getitem kw_date kw_scalar kw_subscript image_name_of
                      rbind] ].
    reflexivity.
  - unfold get_image_url, a, wcs_base_path.
    cbn [arg_image arg_srid arg_min_x arg_max_x arg_min_y arg_max_y
         arg_column arg_row arg_time py_str].
    rewrite !append_assoc. reflexivity.
Qed.

Lemma wcs_get_trajectory_request_witness :
  @wcs_get_trajectory demo_runtime demo_raster_service datasource_utils
    demo_wcs_datasource (demo_kwargs PNone (PStr "2018")) empty_wcs_state
  = @get_image demo_runtime demo_raster_service demo_wcs
      {| arg_image := PStr "datacube:mapbiomas";
         arg_srid := PInt 4326;
         arg_min_x := PFloat (1 - (2 # 1000));
         arg_max_x := PFloat (-1 - (2 # 1000));
         arg_min_y := PFloat (1 + (2 # 1000));
         arg_max_y := PFloat (-1 + (2 # 1000));
         arg_column := PInt 1;
         arg_row := PInt 1;
         arg_time := PStr "2017";
         arg_x := PFloat 1;
         arg_y := PFloat (-1) |} empty_wcs_state.
Proof.
  destruct (@wcs_get_trajectory_request demo_runtime demo_raster_service
              datasource_utils demo_wcs_datasource
              (demo_kwargs PNone (PStr "2018")) "2017" "mapbiomas"
              (Sc PNone) (Sc (PStr "2018")) (mkdate 2017 1 1)
              (PFloat 1) (PFloat (-1)) (PInt 4326) (PInt 1) (PInt 1)
              {[ "column" := PInt 1; "row" := PInt 1 ]}
              1 (-1) (1 - (2 # 1000))%Q (-1 - (2 # 1000))%Q
              (1 + (2 # 1000))%Q (-1 + (2 # 1000))%Q empty_wcs_state)
    as [Hcall _].
  - vm_compute. reflexivity.
  - vm_compute. reflexivity.
  - reflexivity.
  - vm_compute. reflexivity.
  - vm_compute. reflexivity.
  - left. reflexivity.
  - right. exists (mkdate 2018 1 1). split; reflexivity.
  - vm_compute. reflexivity.
  - vm_compute. reflexivity.
  - vm_compute. reflexivity.
  - reflexivity.
  - reflexivity.
  - reflexivity.
  - vm_compute. reflexivity.
  - vm_compute. reflexivity.
  - vm_compute. reflexivity.
  - vm_compute. reflexivity.
  - exact Hcall.
Defined.

Example wcs_trajectory_address :
  fetched (snd (@wcs_get_trajectory demo_runtime demo_raster_service
                  datasource_utils demo_wcs_datasource
                  (demo_kwargs PNone PNone) empty_wcs_state))
  = ["http://localhost/geoserver/wcs?service=WCS&version=1.0.0&request=GetCoverage&COVERAGE=datacube:mapbiomas&CRS=EPSG:4326&RESPONSE_CRS=EPSG:4326&BBOX=998/1000,-1002/1000,1002/1000,-998/1000&FORMAT=GeoTIFF&WIDTH=1&HEIGHT=1&time=2017"].
Proof. vm_compute. reflexivity. Qed.
